(** * Cake order intake: pricing, intent extraction, image synthesis, session

    A shallow embedding of [app_basic.py] and [app_pro.py].  Both files
    are Streamlit scripts around one order record (a Python [dict]), a
    pricing function, a language-model call that returns a JSON patch for
    the order, an image-generation call with two fallbacks, and the
    session state that sequences them.

    Conventions of the embedding:
    - a Python [str] is the list of its code points;
    - a Python [dict] with string keys is a finite map; the order in
      which keys were inserted is not modelled;
    - values are the ones [json.loads] builds ([None], [bool], [int],
      [str], [list], [dict]); numbers with a fraction or an exponent are
      outside the model;
    - dict objects that are shared by reference live in a heap (a list of
      dicts, a reference is an index); an object is never freed;
    - an exception keeps the state reached so far, as in Python. *)

From Stdlib Require Import ZArith String Ascii.
From stdpp Require Import gmap list.

Set Warnings "-register-all".
Local Open Scope Z_scope.

(** ** Text *)

Abbreviation pystr := (list N).

Fixpoint utf8_decode (bs : list N) : list N :=
  match bs with
  | [] => []
  | b :: r =>
    if (b <? 128)%N then b :: utf8_decode r
    else if (b <? 224)%N then
      match r with
      | c1 :: r1 => ((b - 192) * 64 + (c1 - 128))%N :: utf8_decode r1
      | _ => [b]
      end
    else if (b <? 240)%N then
      match r with
      | c1 :: c2 :: r2 =>
        ((b - 224) * 4096 + (c1 - 128) * 64 + (c2 - 128))%N :: utf8_decode r2
      | _ => [b]
      end
    else
      match r with
      | c1 :: c2 :: c3 :: r3 =>
        ((b - 240) * 262144 + (c1 - 128) * 4096 + (c2 - 128) * 64 + (c3 - 128))%N
          :: utf8_decode r3
      | _ => [b]
      end
  end.

(** [py "..."] is the Python string written by that literal: the source
    files are UTF-8, so the bytes of the literal are decoded to code
    points. *)
Definition py (s : string) : pystr :=
  utf8_decode (map N_of_ascii (list_ascii_of_string s)).
Arguments py s%_string : simpl never.

(** [pyq] is [py] with every apostrophe read as a double quote, to write
    JSON texts. *)
Definition pyq (s : string) : pystr :=
  map (λ c, if (c =? 39)%N then 34%N else c) (py s).
Arguments pyq s%_string : simpl never.

(** [needle in hay] on strings. *)
Fixpoint starts_with (needle hay : pystr) : bool :=
  match needle, hay with
  | [], _ => true
  | _ :: _, [] => false
  | a :: n', b :: h' => (a =? b)%N && starts_with n' h'
  end.

Fixpoint contains (needle hay : pystr) : bool :=
  starts_with needle hay ||
  match hay with
  | [] => false
  | _ :: h' => contains needle h'
  end.

(** [str.isspace] for one code point. *)
Definition isspace (c : N) : bool :=
  ((9 <=? c) && (c <=? 13) || (28 <=? c) && (c <=? 32) || (c =? 133) || (c =? 160)
   || (c =? 5760) || (8192 <=? c) && (c <=? 8202) || (c =? 8232) || (c =? 8233)
   || (c =? 8239) || (c =? 8287) || (c =? 12288))%N.

Fixpoint lstrip (s : pystr) : pystr :=
  match s with
  | c :: r => if isspace c then lstrip r else s
  | [] => []
  end.

Fixpoint rstrip (s : pystr) : pystr :=
  match s with
  | [] => []
  | c :: r =>
    match rstrip r with
    | [] => if isspace c then [] else [c]
    | r' => c :: r'
    end
  end.

Definition strip (s : pystr) : pystr := rstrip (lstrip s).

(** ** Values, exceptions, results *)

Inductive value :=
| VNone
| VBool (b : bool)
| VInt (z : Z)
| VStr (s : pystr)
| VList (l : list value)
| VDict (d : gmap pystr value).

Abbreviation dict := (gmap pystr value).

Inductive exn_class :=
| TypeError | AttributeError | KeyError | IndexError | ValueError
| JSONDecodeError | RecursionError
| BadRequestError | PermissionDeniedError
| OtherException.

(** An exception: its class and [str(e)]. *)
Record exn := Exn { exn_class_of : exn_class; exn_str : pystr }.

Inductive result (A : Type) :=
| Ok (a : A)
| Raise (e : exn).
Arguments Ok {A} a.
Arguments Raise {A} e.

#[global] Instance result_ret : MRet result := λ A a, Ok a.
#[global] Instance result_bind : MBind result := λ A B f r,
  match r with
  | Ok a => f a
  | Raise e => Raise e
  end.

Definition is_ok {A} (r : result A) : bool :=
  match r with
  | Ok _ => true
  | Raise _ => false
  end.

(** Truth value of an object, as tested by [if x:]. *)
Definition truthy (v : value) : bool :=
  match v with
  | VNone => false
  | VBool b => b
  | VInt z => negb (z =? 0)
  | VStr s => negb (bool_decide (s = []))
  | VList l => negb (bool_decide (length l = 0%nat))
  | VDict d => negb (bool_decide (size d = 0%nat))
  end.

Definition type_name (v : value) : pystr :=
  match v with
  | VNone => py "NoneType"
  | VBool _ => py "bool"
  | VInt _ => py "int"
  | VStr _ => py "str"
  | VList _ => py "list"
  | VDict _ => py "dict"
  end.

Definition type_error (parts : list pystr) : exn := Exn TypeError (concat parts).

(** [d.get(k)] and [d.get(k, dflt)]. *)
Definition dict_get (d : dict) (k : pystr) (dflt : value) : value :=
  default dflt (d !! k).

(** [table.get(k, 0)] for a table with string keys and a key of any type:
    a list or a dict is unhashable; every other non-string key is
    hashable and equal to no string. *)
Definition table_get (table : gmap pystr Z) (k : value) : result Z :=
  match k with
  | VStr s => Ok (default 0 (table !! s))
  | VList _ | VDict _ =>
    Raise (type_error [py "unhashable type: '"; type_name k; py "'"])
  | VNone | VBool _ | VInt _ => Ok 0
  end.

(** [v * k] for an integer [k]. *)
Definition mul_int (v : value) (k : Z) : result value :=
  match v with
  | VInt n => Ok (VInt (n * k))
  | VBool b => Ok (VInt ((if b then 1 else 0) * k))
  | VStr s => Ok (VStr (concat (replicate (Z.to_nat k) s)))
  | VList l => Ok (VList (concat (replicate (Z.to_nat k) l)))
  | VNone | VDict _ =>
    Raise (type_error [py "unsupported operand type(s) for *: '"; type_name v;
                       py "' and 'int'"])
  end.

(** [acc += v] for an integer [acc]. *)
Definition iadd_int (acc : Z) (v : value) : result Z :=
  match v with
  | VInt n => Ok (acc + n)
  | VBool b => Ok (acc + (if b then 1 else 0))
  | _ =>
    Raise (type_error [py "unsupported operand type(s) for +=: 'int' and '";
                       type_name v; py "'"])
  end.

(** [len(v)]. *)
Definition py_len (v : value) : result nat :=
  match v with
  | VStr s => Ok (length s)
  | VList l => Ok (length l)
  | VDict d => Ok (size d)
  | VNone | VBool _ | VInt _ =>
    Raise (type_error [py "object of type '"; type_name v; py "' has no len()"])
  end.

(** Keys of the order record. *)
Definition k_size : pystr := Eval vm_compute in py "size".
Definition k_filling : pystr := Eval vm_compute in py "filling".
Definition k_has_image : pystr := Eval vm_compute in py "has_image".
Definition k_has_color : pystr := Eval vm_compute in py "has_color".
Definition k_object_count : pystr := Eval vm_compute in py "object_count".
Definition k_lettering : pystr := Eval vm_compute in py "lettering".
Definition k_design_desc : pystr := Eval vm_compute in py "design_desc".
Definition k_price : pystr := Eval vm_compute in py "price".
Definition k_name : pystr := Eval vm_compute in py "name".
Definition k_phone : pystr := Eval vm_compute in py "phone".
Definition k_decoration : pystr := Eval vm_compute in py "decoration".
Definition k_pickupDate : pystr := Eval vm_compute in py "pickupDate".
Definition k_pickupTime : pystr := Eval vm_compute in py "pickupTime".

(** ** The regular expression of the extractor

    [re.search(r"\{.*\}", s, re.DOTALL)]: the match starts at the first
    opening brace that has a closing brace after it and, the star being
    greedy and the dot matching every character, ends at the last closing
    brace of [s]. *)

Definition open_brace : N := 123.
Definition close_brace : N := 125.

(** The suffix of [s] that starts at the first [c]. *)
Fixpoint from_first (c : N) (s : pystr) : option pystr :=
  match s with
  | [] => None
  | x :: r => if (x =? c)%N then Some s else from_first c r
  end.

(** The longest prefix of [s] that ends in [c]. *)
Fixpoint upto_last (c : N) (s : pystr) : option pystr :=
  match s with
  | [] => None
  | x :: r =>
    match upto_last c r with
    | Some p => Some (x :: p)
    | None => if (x =? c)%N then Some [x] else None
    end
  end.

(** [m = re.search(...)] followed by [m.group()]; [None] when there is no
    match. *)
Definition re_search_braces (s : pystr) : option pystr :=
  match from_first open_brace s with
  | Some (o :: r) =>
    match upto_last close_brace r with
    | Some p => Some (o :: p)
    | None => None
    end
  | _ => None
  end.

Definition code_fence : pystr := Eval vm_compute in py "```".

(** ** Library functions the scripts call

    Functions of the Python runtime and of its standard library that the
    repository calls and does not define.  The development is parametric
    in them. *)

Record pylib := {
  (** [json.loads(s)] *)
  json_loads : pystr → result value;
  (** [str(v)], as an f-string formats a value *)
  py_str : value → pystr;
  (** [d.update(xs)] for a list [xs], read as a sequence of key/value
      pairs *)
  dict_update_pairs : dict → list value → result dict;
  (** [base64.b64encode(b).decode("utf-8")] *)
  b64encode : list Byte.byte → pystr;
  (** [base64.b64decode(s)] *)
  b64decode : pystr → result (list Byte.byte)
}.

(** [s + v] for a string [s]. *)
Definition str_add (s : pystr) (v : value) : result pystr :=
  match v with
  | VStr t => Ok (s ++ t)
  | _ =>
    Raise (type_error [pyq "can only concatenate str (not '"; type_name v;
                       pyq "') to str"])
  end.

Definition attribute_error (v : value) (attr : pystr) : exn :=
  Exn AttributeError
      (concat [py "'"; type_name v; py "' object has no attribute '"; attr; py "'"]).

(** The receiver of [v.get(...)]: only a dict has the method. *)
Definition get_method (v : value) : result dict :=
  match v with
  | VDict d => Ok d
  | _ => Raise (attribute_error v (py "get"))
  end.

(** [d[k]] for a dict [d]. *)
Definition dict_getitem (d : dict) (k : pystr) : result value :=
  match d !! k with
  | Some v => Ok v
  | None => Raise (Exn KeyError (concat [py "'"; k; py "'"]))
  end.

(** [d.update(arg)]: the entries of a dict argument override those of
    [d]; a list is a sequence of pairs; a string yields one-character
    elements, which are no pairs; nothing else is iterable. *)
Definition dict_update (lib : pylib) (d : dict) (arg : value) : result dict :=
  match arg with
  | VDict patch => Ok (patch ∪ d)
  | VList xs => dict_update_pairs lib d xs
  | VStr [] => Ok d
  | VStr (_ :: _) =>
    Raise (Exn ValueError
      (py "dictionary update sequence element #0 has length 1; 2 is required"))
  | VNone | VBool _ | VInt _ =>
    Raise (type_error [py "'"; type_name arg; py "' object is not iterable"])
  end.

(** ** The remote services

    The language-model and image providers are opaque: a provider maps
    the calls made so far and the next request to a response or to an
    exception.  Every call is logged. *)

Inductive role := user | assistant.

(** A chat turn, [{"role": ..., "content": ...}]. *)
Record message := Message { msg_role : role; msg_content : value }.

(** A text sent to the model.  The system prompt of the extractor is an
    f-string of fixed instructions around [json.dumps] of the current
    order and of the trailing history; it is represented by these two. *)
Inductive prompt_text :=
| IntentPrompt (current_order : dict) (recent_history : list message)
| Text (s : pystr).

Inductive input_item :=
| InputText (t : prompt_text)
| InputImage (image_b64 : pystr).

(** [client.chat.completions.create(model=..., messages=[system, user],
    temperature=0.3)] *)
Record chat_request := {
  chat_model : pystr;
  chat_system : prompt_text;
  chat_user : pystr
}.

(** [client.responses.create(model=..., input=[{"role": "user",
    "content": ...}])] *)
Record responses_request := {
  resp_model : pystr;
  resp_content : list input_item
}.

(** The keyword arguments of [client.images.generate]. *)
Record images_request := {
  img_model : pystr;
  img_prompt : pystr;
  img_size : pystr;
  img_quality : option pystr;
  img_response_format : option pystr
}.

Inductive call :=
| CallChat (rq : chat_request)
| CallResponses (rq : responses_request)
| CallImages (rq : images_request).

(** [response.choices]: the [message.content] of each choice. *)
Abbreviation chat_completion := (list (option pystr)).

(** An item of [item.content] in a Responses API envelope: an object
    with optional [type] and [text] attributes ([None] for a missing
    attribute or a [None] value), or a plain dict. *)
Inductive content_item :=
| ItemObject (type : option pystr) (text : option pystr)
| ItemDict (d : dict).

(** An item of [response.output]; [None] when [content] is missing. *)
Record output_item := { item_content : option (list content_item) }.

Record response := {
  output : option (list output_item);
  output_text : option pystr
}.

(** [response.data]: the [b64_json] of each datum. *)
Abbreviation images_response := (list (option pystr)).

Record provider := {
  chat_completions_create : list call → chat_request → result chat_completion;
  responses_create : list call → responses_request → result response;
  images_generate : list call → images_request → result images_response
}.

(** What is fixed when the script is loaded. *)
Record config := {
  (** [os.getenv("OPENAI_API_KEY")] *)
  env_key : option pystr;
  (** the text of [openai_key.txt], when it is a file *)
  key_file : option pystr;
  (** the installed client has [responses.create] *)
  sdk_responses : bool;
  (** the installed client has [images.generate] *)
  sdk_images : bool;
  (** how many nested calls of [request_design_image] the interpreter
      allows before it raises [RecursionError] *)
  recursion_limit : nat
}.

Definition load_api_key (cfg : config) : option pystr :=
  match env_key cfg with
  | Some (c :: k) => Some (strip (c :: k))
  | _ =>
    match key_file cfg with
    | Some text =>
      match strip text with
      | [] => None
      | file_key => Some file_key
      end
    | None => None
    end
  end.

Definition OPENAI_API_KEY (cfg : config) : option pystr := load_api_key cfg.

(** ** Session state, heap and the monad of the scripts *)

Inductive phase := FORM | CHAT | SENT.

Abbreviation loc := nat (only parsing).

(** An uploaded file: its name and its bytes. *)
Record upload := { up_name : option pystr; up_bytes : list Byte.byte }.

(** [st.session_state], with every key either script uses. *)
Record session := {
  step : phase;
  messages : list message;
  order : loc;
  uploaded_img : option upload;
  last_img : option pystr;
  generated_design_image : option (list Byte.byte);
  auto_generate_design : bool;
  process_on_next : bool;
  pending_prompt : option pystr;
  pending_placeholder_idx : option nat
}.

Record state := {
  st_session : session;
  st_heap : list dict;
  st_calls : list call
}.

Definition M (A : Type) : Type := state → result A * state.

#[global] Instance M_ret : MRet M := λ A a s, (Ok a, s).
#[global] Instance M_bind : MBind M := λ A B f m s,
  match m s with
  | (Ok a, s') => f a s'
  | (Raise e, s') => (Raise e, s')
  end.

Definition raise {A} (e : exn) : M A := λ s, (Raise e, s).

Definition lift {A} (r : result A) : M A := λ s, (r, s).

(** [try: body  except Exception as e: handler(e)] *)
Definition try_except {A} (body : M A) (handler : exn → M A) : M A := λ s,
  match body s with
  | (Ok a, s') => (Ok a, s')
  | (Raise e, s') => handler e s'
  end.

Definition set_session (f : session → session) : M unit := λ s,
  (Ok tt, {| st_session := f (st_session s); st_heap := st_heap s;
             st_calls := st_calls s |}).

Definition get_session : M session := λ s, (Ok (st_session s), s).

(** Field assignments on [st.session_state]. *)
Definition with_step (v : phase) (x : session) : session :=
  {| step := v; messages := messages x; order := order x;
     uploaded_img := uploaded_img x; last_img := last_img x;
     generated_design_image := generated_design_image x;
     auto_generate_design := auto_generate_design x;
     process_on_next := process_on_next x; pending_prompt := pending_prompt x;
     pending_placeholder_idx := pending_placeholder_idx x |}.

Definition with_messages (v : list message) (x : session) : session :=
  {| step := step x; messages := v; order := order x;
     uploaded_img := uploaded_img x; last_img := last_img x;
     generated_design_image := generated_design_image x;
     auto_generate_design := auto_generate_design x;
     process_on_next := process_on_next x; pending_prompt := pending_prompt x;
     pending_placeholder_idx := pending_placeholder_idx x |}.

Definition with_order (v : loc) (x : session) : session :=
  {| step := step x; messages := messages x; order := v;
     uploaded_img := uploaded_img x; last_img := last_img x;
     generated_design_image := generated_design_image x;
     auto_generate_design := auto_generate_design x;
     process_on_next := process_on_next x; pending_prompt := pending_prompt x;
     pending_placeholder_idx := pending_placeholder_idx x |}.

Definition with_upload (img : option upload) (name : option pystr) (x : session)
  : session :=
  {| step := step x; messages := messages x; order := order x;
     uploaded_img := img; last_img := name;
     generated_design_image := generated_design_image x;
     auto_generate_design := auto_generate_design x;
     process_on_next := process_on_next x; pending_prompt := pending_prompt x;
     pending_placeholder_idx := pending_placeholder_idx x |}.

Definition with_generated_design_image (v : option (list Byte.byte)) (x : session)
  : session :=
  {| step := step x; messages := messages x; order := order x;
     uploaded_img := uploaded_img x; last_img := last_img x;
     generated_design_image := v;
     auto_generate_design := auto_generate_design x;
     process_on_next := process_on_next x; pending_prompt := pending_prompt x;
     pending_placeholder_idx := pending_placeholder_idx x |}.

Definition with_process_on_next (v : bool) (x : session) : session :=
  {| step := step x; messages := messages x; order := order x;
     uploaded_img := uploaded_img x; last_img := last_img x;
     generated_design_image := generated_design_image x;
     auto_generate_design := auto_generate_design x;
     process_on_next := v; pending_prompt := pending_prompt x;
     pending_placeholder_idx := pending_placeholder_idx x |}.

Definition with_pending (p : option pystr) (idx : option nat) (x : session)
  : session :=
  {| step := step x; messages := messages x; order := order x;
     uploaded_img := uploaded_img x; last_img := last_img x;
     generated_design_image := generated_design_image x;
     auto_generate_design := auto_generate_design x;
     process_on_next := process_on_next x; pending_prompt := p;
     pending_placeholder_idx := idx |}.

(** The dict behind a reference.  A Python reference is always valid; an
    index outside the heap reads as the empty dict. *)
Definition read (l : loc) : M dict := λ s,
  (Ok (default ∅ (st_heap s !! l)), s).

(** A new dict object. *)
Definition alloc (d : dict) : M loc := λ s,
  (Ok (length (st_heap s)),
   {| st_session := st_session s; st_heap := st_heap s ++ [d];
      st_calls := st_calls s |}).

(** Replaces the content of the object at [l]. *)
Definition store (l : loc) (d : dict) : M unit := λ s,
  (Ok tt, {| st_session := st_session s; st_heap := <[l := d]> (st_heap s);
             st_calls := st_calls s |}).

(** [obj[k] = v] on the object at [l]. *)
Definition setitem (l : loc) (k : pystr) (v : value) : M unit :=
  d ← read l; store l (<[k := v]> d).

(** [st.session_state.messages.append(m)] *)
Definition append_message (m : message) : M unit :=
  set_session (λ x, with_messages (messages x ++ [m]) x).

(** The three calls to the provider; each is recorded. *)
Definition log_call {A} (c : call) (r : result A) : M A := λ s,
  (r, {| st_session := st_session s; st_heap := st_heap s;
         st_calls := st_calls s ++ [c] |}).

Definition call_chat (P : provider) (rq : chat_request) : M chat_completion := λ s,
  log_call (CallChat rq) (chat_completions_create P (st_calls s) rq) s.

Definition call_responses (P : provider) (rq : responses_request) : M response := λ s,
  log_call (CallResponses rq) (responses_create P (st_calls s) rq) s.

Definition call_images (P : provider) (rq : images_request) : M images_response := λ s,
  log_call (CallImages rq) (images_generate P (st_calls s) rq) s.

(** [chat_history[-5:] if len(chat_history) > 5 else chat_history] *)
Definition recent (chat_history : list message) : list message :=
  if (5 <? length chat_history)%nat
  then drop (length chat_history - 5) chat_history
  else chat_history.

Definition nl : pystr := [10%N].

Definition placeholder_or_append (placeholder_idx : option nat) (text : value)
  : M unit :=
  x ← get_session;
  match placeholder_idx with
  | Some i =>
    if bool_decide (i < length (messages x))%nat
    then
      set_session (with_messages
        (alter (λ m, Message (msg_role m) text) i (messages x)))
    else append_message (Message assistant text)
  | None => append_message (Message assistant text)
  end.

(** The order record built when the intake form is accepted. *)
Definition intake_order (name phone size fill date time_sel : pystr) : dict :=
  <[k_name := VStr name]> (<[k_phone := VStr phone]> (
  <[k_size := VStr size]> (<[k_filling := VStr fill]> (
  <[k_decoration := VStr (py "주문제작")]> (
  <[k_has_image := VBool false]> (<[k_has_color := VBool false]> (
  <[k_object_count := VInt 0]> (
  <[k_pickupDate := VStr date]> (<[k_pickupTime := VStr time_sel]> (
  <[k_design_desc := VStr (py "-")]> (<[k_lettering := VStr (py "-")]> ∅))))))))))).

(** * app_basic.py *)

Module Basic.

Module MENU.
Definition sizes : gmap pystr Z :=
  list_to_map [(py "1호", 25000); (py "2호", 36000); (py "3호", 47000);
               (py "하트", 42000)].
Definition fillings : gmap pystr Z :=
  list_to_map [(py "생크림", 0); (py "초코", 3500); (py "레드벨벳", 6000);
               (py "티라미수", 5500)].
Definition base_custom : Z := 20000.
Module extras.
Definition image : Z := 10000.
Definition color : Z := 5000.
Definition object : Z := 2000.
Definition long_lettering : Z := 3000.
End extras.
End MENU.

Definition calculate_price (order : dict) : result Z :=
  base ← table_get MENU.sizes (dict_get order k_size VNone);
  filling ← table_get MENU.fillings (dict_get order k_filling VNone);
  let custom_fee := MENU.base_custom in
  let extra_cost := 0 in
  let extra_cost :=
    if truthy (dict_get order k_has_image VNone)
    then extra_cost + MENU.extras.image else extra_cost in
  let extra_cost :=
    if truthy (dict_get order k_has_color VNone)
    then extra_cost + MENU.extras.color else extra_cost in
  let obj_count := dict_get order k_object_count (VInt 0) in
  objects ← mul_int obj_count MENU.extras.object;
  extra_cost ← iadd_int extra_cost objects;
  let lettering := dict_get order k_lettering (VStr []) in
  n ← py_len lettering;
  let extra_cost :=
    if (10 <=? n)%nat then extra_cost + MENU.extras.long_lettering
    else extra_cost in
  Ok (base + filling + custom_fee + extra_cost).

(** [order['price'] = calculate_price(order)] on the object at [l]. *)
Definition set_price (l : loc) : M unit :=
  d ← read l;
  p ← lift (calculate_price d);
  setitem l k_price (VInt p).

Section Script.
Context (lib : pylib) (P : provider) (cfg : config).

Definition no_key_reply : pystr := py "🚨 API 키가 설정되지 않았습니다!".
Definition error_prefix : pystr := py "오류 발생: ".

(** ["sk-" not in OPENAI_API_KEY]; the key is [None] when neither the
    environment nor the file provides one. *)
Definition key_lacks_sk : result bool :=
  match OPENAI_API_KEY cfg with
  | Some k => Ok (negb (contains (py "sk-") k))
  | None => Raise (type_error [py "argument of type 'NoneType' is not iterable"])
  end.

(** The request of the extractor. *)
Definition intent_request (order_now : dict) (recent_history : list message)
    (user_text : pystr) : chat_request :=
  {| chat_model := py "gpt-4o-mini";
     chat_system := IntentPrompt order_now recent_history;
     chat_user := user_text |}.

(** [response.choices[0].message.content.strip()] *)
Definition response_content (response : chat_completion) : result pystr :=
  match response with
  | Some t :: _ => Ok (strip t)
  | None :: _ => Raise (attribute_error VNone (py "strip"))
  | [] => Raise (Exn IndexError (py "list index out of range"))
  end.

(** [if "```" in content: content = re.search(...).group()] *)
Definition unfence (content : pystr) : result pystr :=
  if contains code_fence content
  then match re_search_braces content with
       | Some m => Ok m
       | None => Raise (attribute_error VNone (py "group"))
       end
  else Ok content.

Definition analyze_intent_with_gpt (user_text : pystr) (current_order : loc)
    (chat_history : list message) : M (loc * value) :=
  lacks ← lift key_lacks_sk;
  if (lacks : bool) then mret (current_order, VStr no_key_reply)
  else
    let recent_history := recent chat_history in
    order_now ← read current_order;
    try_except
      (response ← call_chat P (intent_request order_now recent_history user_text);
       content ← lift (response_content response);
       content ← lift (unfence content);
       result ← lift (json_loads lib content);
       cur ← read current_order;
       new_order ← alloc cur;
       r ← lift (get_method result);
       let patch := dict_get r (py "updated_order") VNone in
       _ ← (if truthy patch
            then d ← read new_order;
                 d' ← lift (dict_update lib d patch);
                 store new_order d'
            else mret tt);
       reply ← lift (dict_getitem r (py "response_message"));
       mret (new_order, reply))
      (λ e, mret (current_order, VStr (error_prefix ++ exn_str e))).

(** The sidebar block of [main] that follows the file uploader. *)
Definition main_sidebar_upload (uploaded : option upload) : M unit :=
  x ← get_session;
  match step x, uploaded with
  | CHAT, Some u =>
    if bool_decide (last_img x ≠ up_name u) then
      _ ← set_session (with_upload (Some u) (up_name u));
      _ ← setitem (order x) k_has_image (VBool true);
      _ ← set_price (order x);
      append_message
        (Message assistant (VStr (py "참고 사진이 추가되었습니다. (+10,000원)")))
    else mret tt
  | CHAT, None =>
    match uploaded_img x with
    | Some _ =>
      _ ← set_session (with_upload None None);
      _ ← setitem (order x) k_has_image (VBool false);
      _ ← set_price (order x);
      append_message (Message assistant (VStr (py "참고 사진이 제거되었습니다.")))
    | None => mret tt
    end
  | _, _ => mret tt
  end.

Definition welcome_msg (name : pystr) : pystr :=
  concat [py "안녕하세요 **"; name; py "**님! 👋 왼쪽 주문서 보이시죠?"; nl; nl;
          py "원하는 케이크의 디자인과 레터링 문구를 적어주세요."; nl; nl;
          py "케이크 디자인 : "; nl; py "레터링 : "; nl;
          py "(왼쪽에 사진에 초안을 업로드해주면 최고~!)"; nl; nl;
          py "케이크 디자인은 최대한 상세하게 적어주세요 😊"].

(** The FORM block of [main] when the start button is pressed. *)
Definition main_form_submit (name phone size fill date : pystr)
    (time_sel : option pystr) : M unit :=
  x ← get_session;
  match step x, name, phone, time_sel with
  | FORM, _ :: _, _ :: _, Some (c :: t) =>
    l ← alloc (intake_order name phone size fill date (c :: t));
    _ ← set_session (with_order l);
    _ ← set_price l;
    _ ← set_session (with_messages [Message assistant (VStr (welcome_msg name))]);
    set_session (with_step CHAT)
  | _, _, _, _ => mret tt
  end.

(** The CHAT block of [main] when a chat message is entered. *)
Definition main_chat_input (prompt : pystr) : M unit :=
  x ← get_session;
  match step x, prompt with
  | CHAT, _ :: _ =>
    _ ← append_message (Message user (VStr prompt));
    x ← get_session;
    let clean_hist := map (λ m, Message (msg_role m) (msg_content m)) (messages x) in
    '(new_order, ai_res) ← analyze_intent_with_gpt prompt (order x) clean_hist;
    _ ← set_session (with_order new_order);
    _ ← set_price new_order;
    append_message (Message assistant ai_res)
  | _, _ => mret tt
  end.

End Script.

End Basic.

(** * app_pro.py *)

Module Pro.

Module MENU.
Definition sizes : gmap pystr Z :=
  list_to_map [(py "1호", 25000); (py "2호", 36000); (py "3호", 47000);
               (py "하트", 42000)].
Definition fillings : gmap pystr Z :=
  list_to_map [(py "생크림", 0); (py "초코", 3500); (py "레드벨벳", 6000);
               (py "티라미수", 5500)].
Definition base_custom : Z := 20000.
Module extras.
Definition image : Z := 10000.
Definition color : Z := 5000.
Definition object : Z := 2000.
Definition long_lettering : Z := 3000.
End extras.
End MENU.

Definition dq : pystr := [34%N].

Definition DEFAULT_DESIGN_SYSTEM_PROMPT : pystr :=
  concat [
    py "너는 커스텀 케이크 디자이너야. 다음 규칙을 반드시 따르며 케이크를 디자인해줘:"; nl;
    py "1) 결과물은 항상 "; dq; py "현실적으로 제작 가능한 실제 1단(원단) 케이크"; dq;
    py "여야 한다."; nl;
    py "2) 사용자의 설명은 반드시 케이크 디자인에 반영한다."; nl;
    py "3) 생성하는 이미지에는 케이크 이외의 부수적인 요소는 포함되면 안돼. "; nl;
    py "4) 케이크는 과장되거나 비현실적인 형태(공중에 떠 있는 장식, 과도하게 큰 조형물, 지나치게 복잡한 구조)를 가지면 안 된다."; nl;
    py "5) 전체 분위기는 '심플하고 미니멀한 디자인'을 기본으로 하고, 색상은 최대 2~3가지 안에서 조합한다."; nl;
    py "6) 케이크 상단과 옆면 장식은 실제 동네 케이크 가게나 홈베이커가 구현할 수 있을 정도의 난이도로 제한한다."; nl;
    py "7) 출력은 한국어 bullet 형식 5줄 이내로 작성한다."; nl;
    py "8) 이미지/시안 생성 시 케이크는 반드시 단층(single-tier)으로 표현하고, 2단 이상은 절대 안 된다."; nl;
    py "9) 이미지/시안 생성 시 케이크의 디자인은 복잡한 데코를 사용하지 말고, 평면 그림 위주로 구성한다."].

Definition DEFAULT_IMAGE_MODEL : pystr := py "dall-e-3".
Definition ALT_IMAGE_MODEL : pystr := py "dall-e-3".

Definition calculate_price (order : dict) : result Z :=
  base ← table_get MENU.sizes (dict_get order k_size VNone);
  filling ← table_get MENU.fillings (dict_get order k_filling VNone);
  let custom_fee := MENU.base_custom in
  let extra_cost := 0 in
  let extra_cost :=
    if truthy (dict_get order k_has_image VNone)
    then extra_cost + MENU.extras.image else extra_cost in
  let extra_cost :=
    if truthy (dict_get order k_has_color VNone)
    then extra_cost + MENU.extras.color else extra_cost in
  let obj_count := dict_get order k_object_count (VInt 0) in
  objects ← mul_int obj_count MENU.extras.object;
  extra_cost ← iadd_int extra_cost objects;
  let lettering := dict_get order k_lettering (VStr []) in
  n ← py_len lettering;
  let extra_cost :=
    if (10 <=? n)%nat then extra_cost + MENU.extras.long_lettering
    else extra_cost in
  Ok (base + filling + custom_fee + extra_cost).

(** [order['price'] = calculate_price(order)] on the object at [l]. *)
Definition set_price (l : loc) : M unit :=
  d ← read l;
  p ← lift (calculate_price d);
  setitem l k_price (VInt p).

Definition build_prompt (user_prompt system_prompt : pystr) : pystr :=
  concat [system_prompt; nl; nl; py "사용자 요청:"; nl; user_prompt].
(** [extract_output_text] *)

Definition output_text_type : pystr := Eval vm_compute in py "output_text".

Definition extract_item_text (final_text : pystr) (c : content_item) : result pystr :=
  match c with
  | ItemObject (Some ty) text =>
    if bool_decide (ty = output_text_type)
    then Ok (final_text ++ default [] text)
    else Ok final_text
  | ItemObject None _ => Ok final_text
  | ItemDict d =>
    match d !! py "type" with
    | Some (VStr ty) =>
      if bool_decide (ty = output_text_type)
      then str_add final_text (dict_get d (py "text") (VStr []))
      else Ok final_text
    | _ => Ok final_text
    end
  end.

Fixpoint extract_content_text (final_text : pystr) (content : list content_item)
  : result pystr :=
  match content with
  | [] => Ok final_text
  | c :: rest =>
    final_text ← extract_item_text final_text c;
    extract_content_text final_text rest
  end.

Fixpoint extract_items_text (final_text : pystr) (items : list output_item)
  : result pystr :=
  match items with
  | [] => Ok final_text
  | item :: rest =>
    match item_content item with
    | None | Some [] => extract_items_text final_text rest
    | Some content =>
      final_text ← extract_content_text final_text content;
      extract_items_text final_text rest
    end
  end.

Definition extract_output_text (r : response) : result pystr :=
  match output r with
  | None | Some [] => Ok (default [] (output_text r))
  | Some items => extract_items_text [] items
  end.

Section Script.
Context (lib : pylib) (P : provider) (cfg : config).

(** [client = OpenAI(api_key=OPENAI_API_KEY) if OPENAI_API_KEY else None],
    as a truth value. *)
Definition client : bool :=
  match OPENAI_API_KEY cfg with
  | Some (_ :: _) => true
  | _ => false
  end.

Definition HAS_RESPONSES_API : bool := client && sdk_responses cfg.
Definition HAS_IMAGES_API : bool := client && sdk_images cfg.

Definition no_client_reply : pystr :=
  py "🚨 OpenAI 클라이언트가 초기화되지 않았습니다. API 키를 확인해주세요.".
Definition no_chat_api_reply : pystr := py "지원되는 챗 API가 없습니다.".
Definition parse_error_prefix : pystr :=
  py "파싱 오류: 응답을 JSON으로 변환할 수 없습니다. (원문: ".
Definition not_understood_prefix : pystr := py "응답을 이해할 수 없습니다: ".
Definition default_response_message : pystr := py "요청을 반영했습니다.".
Definition error_prefix : pystr := py "오류 발생: ".

(** The request of the extractor. *)
Definition intent_request (order_now : dict) (recent_history : list message)
    (user_text : pystr) : responses_request :=
  {| resp_model := py "gpt-5-nano";
     resp_content := [InputText (IntentPrompt order_now recent_history);
                      InputText (Text user_text)] |}.

(** [if "```" in content_str: m = re.search(...); if m: content_str =
    m.group()] *)
Definition unfence (content_str : pystr) : pystr :=
  if contains code_fence content_str
  then match re_search_braces content_str with
       | Some m => m
       | None => content_str
       end
  else content_str.

(** The statements after the parse: copy, merge, reply. *)
Definition merge_result (current_order : loc) (result : value) : M (loc * value) :=
  cur ← read current_order;
  new_order ← alloc cur;
  r ← lift (get_method result);
  let patch := dict_get r (py "updated_order") VNone in
  _ ← (if truthy patch
       then d ← read new_order;
            d' ← lift (dict_update lib d patch);
            store new_order d'
       else mret tt);
  let response_message :=
    dict_get r (py "response_message") (VStr default_response_message) in
  mret (new_order, response_message).

Definition analyze_intent_with_gpt (user_text : pystr) (current_order : loc)
    (chat_history : list message) : M (loc * value) :=
  if negb client then mret (current_order, VStr no_client_reply)
  else
    let recent_history := recent chat_history in
    order_now ← read current_order;
    try_except
      (if HAS_RESPONSES_API then
         response ← call_responses P
                      (intent_request order_now recent_history user_text);
         text ← lift (extract_output_text response);
         let content_str := strip (strip text) in
         let content_str := unfence content_str in
         match json_loads lib content_str with
         | Ok result => merge_result current_order result
         | Raise _ =>
           match re_search_braces content_str with
           | Some m =>
             match json_loads lib m with
             | Ok result => merge_result current_order result
             | Raise _ =>
               mret (current_order,
                     VStr (parse_error_prefix ++ take 300 content_str ++ py ")"))
             end
           | None =>
             mret (current_order, VStr (not_understood_prefix ++ take 300 content_str))
           end
         end
       else mret (current_order, VStr no_chat_api_reply))
      (λ e, mret (current_order, VStr (error_prefix ++ exn_str e))).

Definition filling_context_of (filling : value) : pystr :=
  match filling with
  | VStr f =>
    if bool_decide (f = py "초코") then
      concat [nl; nl; py "중요: 이 케이크는 초코 케이크입니다. 전체적으로 다크하고 고급스러운 초콜릿 분위기로, 너무 화려하지 않고 차분하게 디자인해야 합니다."]
    else if bool_decide (f = py "생크림") then
      concat [nl; nl; py "중요: 이 케이크는 생크림 케이크입니다. 전체적으로 밝고 깔끔한 생크림 분위기로, 파스텔 톤의 심플한 디자인을 사용하세요."]
    else if bool_decide (f = py "레드벨벳") then
      concat [nl; nl; py "중요: 이 케이크는 레드벨벳 케이크입니다. 레드와 화이트의 조화를 살리되, 과도한 장식 없이 고급스러운 느낌을 유지하세요."]
    else if bool_decide (f = py "티라미수") then
      concat [nl; nl; py "중요: 이 케이크는 티라미수 케이크입니다. 카카오와 크림의 조화를 살린, 차분하고 성숙한 분위기의 심플한 디자인이어야 합니다."]
    else []
  | _ => []
  end.

Definition request_design_brief (user_prompt system_prompt : pystr)
    (image_b64 : option pystr) (filling : value) : M pystr :=
  if negb client then mret (py "OpenAI 클라이언트가 초기화되지 않았습니다.")
  else
    let filling_context := filling_context_of filling in
    let enhanced_prompt := build_prompt (user_prompt ++ filling_context) system_prompt in
    if HAS_RESPONSES_API then
      let content :=
        InputText (Text enhanced_prompt) ::
        match image_b64 with
        | Some (c :: b) => [InputImage (c :: b)]
        | _ => []
        end in
      response ← call_responses P
        {| resp_model := py "gpt-5-nano"; resp_content := content |};
      primary_text ← lift (extract_output_text response);
      mret (match primary_text with
            | [] => py "결과를 읽어오지 못했습니다."
            | _ => primary_text
            end)
    else mret (py "지원되는 챗 API가 없습니다.").

Definition build_image_prompt (user_prompt design_brief : pystr) (filling : value)
  : pystr :=
  let filling_mood :=
    match filling with
    | VStr f =>
      if bool_decide (f = py "초코") then
        py "다크하고 고급스러운 초콜릿 분위기이지만, 장식은 과하지 않고 차분한 느낌의 심플한 디자인."
      else if bool_decide (f = py "생크림") then
        py "밝고 깔끔한 생크림 분위기. 파스텔 톤 위주의 미니멀한 디자인."
      else if bool_decide (f = py "레드벨벳") then
        py "우아하고 고급스러운 레드벨벳 분위기. 레드와 화이트의 단순한 조합."
      else if bool_decide (f = py "티라미수") then
        py "티라미수 특유의 카카오와 크림 조화. 브라운/크림 톤의 차분한 디자인."
      else []
    | _ => []
    end in
  let filling_context :=
    match filling_mood with
    | [] => concat [nl; py "케이크 맛: "; py_str lib filling; nl]
    | _ => concat [nl; py "케이크 맛: "; py_str lib filling; nl; filling_mood; nl]
    end in
  strip (concat [
    nl; py "You are a pâtisserie for custom cake."; nl; nl;
    py "CONSTRAINTS (MUST FOLLOW):"; nl;
    py "- Render only a REALISTIC, physically feasible 1-tier (single-layer) cake."; nl;
    py "- Never produce multi-tier or floating/structurally impossible cakes."; nl;
    py "- The cake must look like a real custom cake you could order at a small local Korean bakery or home bakery, NOT a luxury wedding cake or fantasy cake."; nl;
    py "- Overall style should be simple, minimal, and easy to make in a real kitchen."; nl;
    py "- Limit the color palette to at most 2–3 main colors."; nl;
    py "- Do NOT use tall 3D toppers, big figurines, or complex sculptures. Decorations must stay low-profile: cream piping, small fruits, small chocolate pieces, simple flat drawings on the top surface, etc."; nl;
    py "- Use only real bakery materials (buttercream, fresh cream, fruits, chocolate, simple sugar flowers, edible gold flakes, etc.)."; nl;
    py "- No text overlays, no watermarks, no logos in the image itself."; nl;
    py "- Showcase the cake as a real product photo in a clean studio setting, shallow depth of field, close-up."; nl;
    py "- The cake must be easy and realistic for a real baker to reproduce."; nl; nl;
    filling_context; nl;
    py "User request (Korean):"; nl; user_prompt; nl; nl;
    py "Design brief (Korean):"; nl; design_brief; nl; nl;
    py "Output target:"; nl;
    py "A realistic product hero image of a single-tier, simple, minimal custom cake that a real bakery can easily make."; nl]).

(** [response.data[0].b64_json], decoded. *)
Definition decode_image (r : images_response) : result (option (list Byte.byte)) :=
  match r with
  | [] => Raise (Exn IndexError (py "list index out of range"))
  | None :: _ =>
    Raise (type_error
      [py "argument should be a bytes-like object or ASCII string, not 'NoneType'"])
  | Some image_b64 :: _ => b ← b64decode lib image_b64; Ok (Some b)
  end.

(** The first argument counts the nested calls the interpreter still
    allows. *)
Fixpoint request_design_image (depth : nat) (prompt model : pystr)
  : M (option (list Byte.byte)) :=
  match depth with
  | O => raise (Exn RecursionError (py "maximum recursion depth exceeded"))
  | S depth' =>
    if negb client then mret None
    else if HAS_IMAGES_API then
      let kwargs :=
        {| img_model := model; img_prompt := prompt; img_size := py "1024x1024";
           img_quality := Some (py "high");
           img_response_format := Some (py "b64_json") |} in
      λ s,
        match call_images P kwargs s with
        | (Ok response, s1) => lift (decode_image response) s1
        | (Raise err, s1) =>
          match exn_class_of err with
          | BadRequestError =>
            let error_str := exn_str err in
            let kwargs :=
              if contains (py "response_format") error_str
              then {| img_model := img_model kwargs; img_prompt := img_prompt kwargs;
                      img_size := img_size kwargs; img_quality := img_quality kwargs;
                      img_response_format := None |}
              else kwargs in
            let kwargs :=
              if contains (py "quality") error_str
                 || contains (py "Invalid value") error_str
              then {| img_model := img_model kwargs; img_prompt := img_prompt kwargs;
                      img_size := img_size kwargs; img_quality := None;
                      img_response_format := img_response_format kwargs |}
              else kwargs in
            (response ← call_images P kwargs; lift (decode_image response)) s1
          | PermissionDeniedError =>
            if bool_decide (model = DEFAULT_IMAGE_MODEL)
            then request_design_image depth' prompt ALT_IMAGE_MODEL s1
            else (Raise err, s1)
          | _ => (Raise err, s1)
          end
        end
    else mret None
  end.

Definition encode_image (uploaded_file : upload) : pystr :=
  b64encode lib (up_bytes uploaded_file).

Definition typing_notice : pystr :=
  py "⏳ 답변/시안 생성 중입니다. 잠시만 기다려 주세요!".
Definition step_error_prefix : pystr := py "처리 중 오류가 발생했습니다: ".

(** The branch of the deferred step taken when the toggle is on; yields
    [final_msg]. *)
Definition auto_design (prompt : pystr) (ai_res : value) : M value :=
  x ← get_session;
  let img_b64 :=
    match uploaded_img x with
    | Some u => Some (encode_image u)
    | None => None
    end in
  d ← read (order x);
  let filling := dict_get d k_filling (VStr []) in
  let design_context := dict_get d k_design_desc (VStr (py "-")) in
  let lettering_context := dict_get d k_lettering (VStr (py "-")) in
  let combined_prompt :=
    concat [py "사용자 요청: "; prompt; nl; nl;
            py "(현재 반영된 디자인) 디자인: "; py_str lib design_context; nl;
            py "레터링: "; py_str lib lettering_context] in
  design_brief ← request_design_brief combined_prompt DEFAULT_DESIGN_SYSTEM_PROMPT
                    img_b64 filling;
  let img_prompt := build_image_prompt combined_prompt design_brief filling in
  img_bytes ← request_design_image (recursion_limit cfg) img_prompt DEFAULT_IMAGE_MODEL;
  match img_bytes with
  | Some (b :: bs) =>
    _ ← set_session (with_generated_design_image (Some (b :: bs)));
    _ ← setitem (order x) k_design_desc (VStr design_brief);
    _ ← set_price (order x);
    mret (VStr (concat [py "✅ 시안이 생성되었습니다!"; nl; nl;
                        py "디자인 제안:"; nl; design_brief; nl; nl;
                        py "생성된 시안은 사이드바와 최종 견적서에서 확인할 수 있습니다."]))
  | _ =>
    msg ← lift (str_add
      (concat [py "시안 이미지 생성에 실패했습니다. (권한/모델 문제일 수 있음)"; nl; nl;
               py "AI 응답: "]) ai_res);
    mret (VStr msg)
  end.

(** [clean_hist]: the turns with a truthy content, copied. *)
Definition clean_history (msgs : list message) : list message :=
  map (λ m, Message (msg_role m) (msg_content m))
      (filter (λ m, truthy (msg_content m) = true) msgs).

(** The statements of the [try] of the deferred step up to the
    replacement of the placeholder; yields [final_msg]. *)
Definition process_pending_reply (prompt : pystr) : M value :=
  x ← get_session;
  let clean_hist := clean_history (messages x) in
  '(new_order, ai_res) ← analyze_intent_with_gpt prompt (order x) clean_hist;
  _ ← set_session (with_order new_order);
  _ ← set_price new_order;
  x ← get_session;
  if auto_generate_design x
  then auto_design prompt ai_res
  else mret ai_res.

(** The body of the [try] of the deferred step. *)
Definition process_pending_body (prompt : pystr) (placeholder_idx : option nat)
  : M unit :=
  final_msg ← process_pending_reply prompt;
  placeholder_or_append placeholder_idx final_msg.

(** The block at the top of [main] that runs when [process_on_next] is
    set; it ends in [st.rerun()]. *)
Definition main_process_pending : M unit :=
  x ← get_session;
  if process_on_next x then
    _ ← set_session (with_process_on_next false);
    let prompt := default [] (pending_prompt x) in
    let placeholder_idx := pending_placeholder_idx x in
    _ ← try_except
          (process_pending_body prompt placeholder_idx)
          (λ e, placeholder_or_append placeholder_idx
                  (VStr (step_error_prefix ++ exn_str e)));
    set_session (with_pending None None)
  else mret tt.

(** The sidebar block of [main] around the file uploader and the remove
    button. *)
Definition main_sidebar_upload (uploaded : option upload) (remove_clicked : bool)
  : M unit :=
  x ← get_session;
  match step x with
  | CHAT =>
    let attach :=
      match uploaded with
      | Some u => bool_decide (last_img x ≠ up_name u)
      | None => false
      end in
    if attach then
      _ ← set_session (with_upload uploaded (uploaded ≫= up_name));
      _ ← setitem (order x) k_has_image (VBool true);
      _ ← set_price (order x);
      append_message
        (Message assistant (VStr (py "참고 사진이 추가되었습니다. (+10,000원)")))
    else
      match uploaded_img x with
      | Some _ =>
        if remove_clicked then
          _ ← set_session (with_upload None None);
          _ ← setitem (order x) k_has_image (VBool false);
          _ ← set_price (order x);
          append_message (Message assistant (VStr (py "참고 사진이 제거되었습니다.")))
        else mret tt
      | None => mret tt
      end
  | _ => mret tt
  end.

Definition welcome_msg (name : pystr) : pystr :=
  concat [py "안녕하세요 "; name; py "님! 👋 왼쪽 주문서 보이시죠?"; nl; nl;
          py "원하는 케이크의 디자인과 레터링 문구를 적어주세요."; nl; nl;
          py "케이크 디자인 : "; nl; py "레터링 : "; nl;
          py "(왼쪽에 사진에 초안을 업로드해주면 최고~!)"; nl; nl;
          py "케이크 디자인은 최대한 상세하게 적어주세요 😊"].

(** The FORM block of [main] when the start button is pressed. *)
Definition main_form_submit (name phone size fill date : pystr)
    (time_sel : option pystr) : M unit :=
  x ← get_session;
  match step x, name, phone, time_sel with
  | FORM, _ :: _, _ :: _, Some (c :: t) =>
    l ← alloc (intake_order name phone size fill date (c :: t));
    _ ← set_session (with_order l);
    _ ← set_price l;
    _ ← set_session (with_messages [Message assistant (VStr (welcome_msg name))]);
    set_session (with_step CHAT)
  | _, _, _, _ => mret tt
  end.

(** The CHAT block of [main] when a chat message is entered; it ends in
    [st.rerun()], and the work is done by [main_process_pending] at the
    start of the next run. *)
Definition main_chat_input (prompt : pystr) : M unit :=
  x ← get_session;
  match step x, prompt with
  | CHAT, _ :: _ =>
    _ ← append_message (Message user (VStr prompt));
    x ← get_session;
    let placeholder_idx := length (messages x) in
    _ ← append_message (Message assistant (VStr typing_notice));
    _ ← set_session (with_pending (Some prompt) (Some placeholder_idx));
    set_session (with_process_on_next true)
  | _, _ => mret tt
  end.

End Script.

End Pro.

(** * A concrete library, for the examples

    [json_loads_subset] follows [json.loads] on texts whose strings have
    no [\u] escape and whose numbers are integers; the other functions
    follow CPython on the arguments named in their comments. *)

Module Sample.

Fixpoint decimal_digits (fuel : nat) (n : N) (acc : pystr) : pystr :=
  match fuel with
  | O => acc
  | S fuel' =>
    let acc' := (48 + n mod 10)%N :: acc in
    if (n <? 10)%N then acc' else decimal_digits fuel' (n / 10) acc'
  end.

Definition decimal (n : N) : pystr :=
  decimal_digits (S (N.to_nat (N.log2 n))) n [].

(** [msg: line L column C (char P)], the text of a [JSONDecodeError]. *)
Definition json_error (doc : pystr) (msg : pystr) (pos : nat) : exn :=
  let before := take pos doc in
  let lineno := S (length (filter (λ c, c = 10%N) before)) in
  let colno :=
    match from_first 10%N (reverse before) with
    | Some tail => (pos - (length tail - 1))%nat
    | None => S pos
    end in
  Exn JSONDecodeError
    (concat [msg; py ": line "; decimal (N.of_nat lineno); py " column ";
             decimal (N.of_nat colno); py " (char "; decimal (N.of_nat pos); py ")"]).

Definition json_ws (c : N) : bool :=
  ((c =? 32) || (c =? 9) || (c =? 10) || (c =? 13))%N.

Fixpoint skip_ws (rest : pystr) (pos : nat) : pystr * nat :=
  match rest with
  | c :: r => if json_ws c then skip_ws r (S pos) else (rest, pos)
  | [] => ([], pos)
  end.

Definition parsed (A : Type) : Type := (pystr * nat) + (A * pystr * nat).

(** The text of a string after its opening quote, at [pos]; [start] is
    the position of that quote. *)
Fixpoint scan_string (start : nat) (rest : pystr) (pos : nat) (acc : pystr)
  : parsed pystr :=
  match rest with
  | [] => inl (py "Unterminated string starting at", start)
  | c :: r =>
    if (c =? 34)%N then inr (reverse acc, r, S pos)
    else if (c <? 32)%N then inl (py "Invalid control character at", pos)
    else if (c =? 92)%N then
      match r with
      | [] => inl (py "Unterminated string starting at", start)
      | e :: r' =>
        let plain (x : N) := scan_string start r' (S (S pos)) (x :: acc) in
        if (e =? 34)%N then plain 34%N
        else if (e =? 92)%N then plain 92%N
        else if (e =? 47)%N then plain 47%N
        else if (e =? 98)%N then plain 8%N
        else if (e =? 102)%N then plain 12%N
        else if (e =? 110)%N then plain 10%N
        else if (e =? 114)%N then plain 13%N
        else if (e =? 116)%N then plain 9%N
        else inl (py "Invalid \escape", pos)
      end
    else scan_string start r (S pos) (c :: acc)
  end.

Definition is_digit (c : N) : bool := ((48 <=? c) && (c <=? 57))%N.

Fixpoint scan_digits (rest : pystr) (pos : nat) (acc : Z) : Z * pystr * nat :=
  match rest with
  | c :: r =>
    if is_digit c then scan_digits r (S pos) (10 * acc + Z.of_N (c - 48))
    else (acc, rest, pos)
  | [] => (acc, [], pos)
  end.

(** An optional minus sign, then a zero or digits without a leading
    zero. *)
Definition scan_int (rest : pystr) (pos : nat) : option (Z * pystr * nat) :=
  let '(neg, digits, p) :=
    match rest with
    | 45%N :: r => (true, r, S pos)
    | _ => (false, rest, pos)
    end in
  match digits with
  | 48%N :: r => Some (0, r, S p)
  | c :: _ =>
    if is_digit c then
      let '(n, r, p') := scan_digits digits p 0 in
      Some (if neg then - n else n, r, p')
    else None
  | [] => None
  end.

Inductive jmode :=
| JValue
| JMembers (acc : dict)
| JElements (acc : list value).

Definition expecting_value : pystr := py "Expecting value".
Definition expecting_name : pystr :=
  py "Expecting property name enclosed in double quotes".
Definition expecting_colon : pystr := py "Expecting ':' delimiter".
Definition expecting_comma : pystr := py "Expecting ',' delimiter".

(** [JValue]: a value starts at [pos].  [JMembers acc]: the opening quote
    of a key is at [pos].  [JElements acc]: an element starts at [pos]. *)
Fixpoint scan (fuel : nat) (mode : jmode) (rest : pystr) (pos : nat)
  : parsed value :=
  match fuel with
  | O => inl (expecting_value, pos)
  | S fuel' =>
    match mode with
    | JValue =>
      match rest with
      | 34%N :: r =>
        match scan_string pos r (S pos) [] with
        | inr (s, r', p') => inr (VStr s, r', p')
        | inl e => inl e
        end
      | 123%N :: r =>
        let '(r1, p1) := skip_ws r (S pos) in
        match r1 with
        | 125%N :: r2 => inr (VDict ∅, r2, S p1)
        | 34%N :: _ => scan fuel' (JMembers ∅) r1 p1
        | _ => inl (expecting_name, p1)
        end
      | 91%N :: r =>
        let '(r1, p1) := skip_ws r (S pos) in
        match r1 with
        | 93%N :: r2 => inr (VList [], r2, S p1)
        | _ => scan fuel' (JElements []) r1 p1
        end
      | 110%N :: 117%N :: 108%N :: 108%N :: r => inr (VNone, r, (pos + 4)%nat)
      | 116%N :: 114%N :: 117%N :: 101%N :: r => inr (VBool true, r, (pos + 4)%nat)
      | 102%N :: 97%N :: 108%N :: 115%N :: 101%N :: r =>
        inr (VBool false, r, (pos + 5)%nat)
      | _ =>
        match scan_int rest pos with
        | Some (n, r, p) => inr (VInt n, r, p)
        | None => inl (expecting_value, pos)
        end
      end
    | JMembers acc =>
      match rest with
      | 34%N :: r =>
        match scan_string pos r (S pos) [] with
        | inl e => inl e
        | inr (key, r1, p1) =>
          let '(r2, p2) := skip_ws r1 p1 in
          match r2 with
          | 58%N :: r3 =>
            let '(r4, p4) := skip_ws r3 (S p2) in
            match scan fuel' JValue r4 p4 with
            | inl e => inl e
            | inr (v, r5, p5) =>
              let acc' := <[key := v]> acc in
              let '(r6, p6) := skip_ws r5 p5 in
              match r6 with
              | 125%N :: r7 => inr (VDict acc', r7, S p6)
              | 44%N :: r7 =>
                let '(r8, p8) := skip_ws r7 (S p6) in
                scan fuel' (JMembers acc') r8 p8
              | _ => inl (expecting_comma, p6)
              end
            end
          | _ => inl (expecting_colon, p2)
          end
        end
      | _ => inl (expecting_name, pos)
      end
    | JElements acc =>
      match scan fuel' JValue rest pos with
      | inl e => inl e
      | inr (v, r1, p1) =>
        let acc' := acc ++ [v] in
        let '(r2, p2) := skip_ws r1 p1 in
        match r2 with
        | 93%N :: r3 => inr (VList acc', r3, S p2)
        | 44%N :: r3 =>
          let '(r4, p4) := skip_ws r3 (S p2) in
          scan fuel' (JElements acc') r4 p4
        | _ => inl (expecting_comma, p2)
        end
      end
    end
  end.

Definition json_loads_subset (doc : pystr) : result value :=
  let '(r0, p0) := skip_ws doc 0 in
  match scan (S (length doc)) JValue r0 p0 with
  | inl (msg, pos) => Raise (json_error doc msg pos)
  | inr (v, r1, p1) =>
    match skip_ws r1 p1 with
    | ([], _) => Ok v
    | (_, p2) => Raise (json_error doc (py "Extra data") p2)
    end
  end.

(** [str(v)] for [None], a bool, an int and a str; a container is
    abbreviated. *)
Definition py_str_scalar (v : value) : pystr :=
  match v with
  | VStr s => s
  | VNone => py "None"
  | VBool true => py "True"
  | VBool false => py "False"
  | VInt z => if z <? 0 then py "-" ++ decimal (Z.to_N (- z)) else decimal (Z.to_N z)
  | VList _ => py "[...]"
  | VDict _ => py "{...}"
  end.

(** [d.update(xs)] for a list of two-element lists with a string first
    and of two-character strings; any other element ends the update with
    the error CPython raises for an element that is no sequence. *)
Fixpoint update_pairs (index : N) (d : dict) (xs : list value) : result dict :=
  match xs with
  | [] => Ok d
  | VList [VStr k; v] :: rest => update_pairs (index + 1) (<[k := v]> d) rest
  | VStr [a; b] :: rest => update_pairs (index + 1) (<[[a] := VStr [b]]> d) rest
  | _ :: _ =>
    Raise (type_error [py "cannot convert dictionary update sequence element #";
                       decimal index; py " to a sequence"])
  end.

Definition b64_alphabet : pystr :=
  Eval vm_compute in
    py "ABCDEFGHIJKLMNOPQRSTUVWXYZabcdefghijklmnopqrstuvwxyz0123456789+/".

Definition sextet_char (n : N) : N := default 61%N (b64_alphabet !! N.to_nat n).

Fixpoint index_of (c : N) (s : pystr) : option N :=
  match s with
  | [] => None
  | x :: r => if (x =? c)%N then Some 0%N else N.succ <$> index_of c r
  end.

Definition byte_of (n : N) : Byte.byte := default Byte.x00 (Byte.of_N (n mod 256)).

Fixpoint b64encode_bytes (bs : list N) : pystr :=
  match bs with
  | [] => []
  | [a] =>
    [sextet_char (a / 4); sextet_char ((a mod 4) * 16); 61%N; 61%N]
  | [a; b] =>
    [sextet_char (a / 4); sextet_char ((a mod 4) * 16 + b / 16);
     sextet_char ((b mod 16) * 4); 61%N]
  | a :: b :: c :: rest =>
    [sextet_char (a / 4); sextet_char ((a mod 4) * 16 + b / 16);
     sextet_char ((b mod 16) * 4 + c / 64); sextet_char (c mod 64)]
    ++ b64encode_bytes rest
  end%N.

Definition incorrect_padding : exn := Exn ValueError (py "Incorrect padding").

(** Characters outside the alphabet were already discarded. *)
Fixpoint b64decode_chars (cs : pystr) : result (list Byte.byte) :=
  match cs with
  | [] => Ok []
  | a :: b :: c :: d :: rest =>
    match index_of a b64_alphabet, index_of b b64_alphabet,
          index_of c b64_alphabet, index_of d b64_alphabet with
    | Some x, Some y, Some z, Some w =>
      tl ← b64decode_chars rest;
      Ok (byte_of (x * 4 + y / 16) :: byte_of ((y mod 16) * 16 + z / 4)
          :: byte_of ((z mod 4) * 64 + w) :: tl)
    | Some x, Some y, Some z, None =>
      Ok [byte_of (x * 4 + y / 16); byte_of ((y mod 16) * 16 + z / 4)]
    | Some x, Some y, None, None => Ok [byte_of (x * 4 + y / 16)]
    | _, _, _, _ => Raise incorrect_padding
    end
  | _ => Raise incorrect_padding
  end%N.

Definition b64_char (c : N) : bool :=
  (c =? 61)%N || bool_decide (is_Some (index_of c b64_alphabet)).

Definition lib : pylib := {|
  json_loads := json_loads_subset;
  py_str := py_str_scalar;
  dict_update_pairs := update_pairs 0;
  b64encode := λ bs, b64encode_bytes (map Byte.to_N bs);
  b64decode := λ s, b64decode_chars (filter (λ c, b64_char c = true) s)
|}.

(** A provider that answers the n-th call of each kind with the n-th
    entry of a script, and fails once the script is used up. *)
Definition nth_answer {A} (script : list (result A)) (n : nat) : result A :=
  default (Raise (Exn OtherException (py "Connection error."))) (script !! n).

Definition is_chat (c : call) : bool :=
  match c with CallChat _ => true | _ => false end.
Definition is_responses (c : call) : bool :=
  match c with CallResponses _ => true | _ => false end.
Definition is_images (c : call) : bool :=
  match c with CallImages _ => true | _ => false end.

Definition count_calls (kind : call → bool) (log : list call) : nat :=
  length (filter (λ c, kind c = true) log).

Definition scripted (chat : list (result chat_completion))
    (resp : list (result response)) (imgs : list (result images_response))
  : provider := {|
  chat_completions_create := λ log _, nth_answer chat (count_calls is_chat log);
  responses_create := λ log _, nth_answer resp (count_calls is_responses log);
  images_generate := λ log _, nth_answer imgs (count_calls is_images log)
|}.

(** A Responses API envelope that carries one text. *)
Definition text_response (t : pystr) : response :=
  {| output := Some [{| item_content := Some [ItemObject (Some Pro.output_text_type)
                                                        (Some t)] |}];
     output_text := None |}.

Definition with_key : config :=
  {| env_key := Some (py "sk-test"); key_file := None; sdk_responses := true;
     sdk_images := true; recursion_limit := 1000 |}.

Definition without_key : config :=
  {| env_key := None; key_file := None; sdk_responses := true;
     sdk_images := true; recursion_limit := 1000 |}.

(** A session before the first interaction, with its empty order. *)
Definition fresh : state :=
  {| st_session :=
       {| step := FORM; messages := []; order := 0%nat; uploaded_img := None;
          last_img := None; generated_design_image := None;
          auto_generate_design := false; process_on_next := false;
          pending_prompt := None; pending_placeholder_idx := None |};
     st_heap := [∅];
     st_calls := [] |}.

End Sample.

(** * The statements

    ** The pricing rule in the words of the specification *)

Definition is_str (v : value) : bool :=
  match v with VStr _ => true | _ => false end.
Definition is_bool (v : value) : bool :=
  match v with VBool _ => true | _ => false end.
Definition is_int (v : value) : bool :=
  match v with VInt _ => true | _ => false end.

Definition has_type (t : value → bool) (o : dict) (k : pystr) : bool :=
  match o !! k with
  | Some v => t v
  | None => true
  end.

(** An order record of the data model: each field that is present has
    the type the model gives it. *)
Definition order_typed (o : dict) : bool :=
  has_type is_str o k_size && has_type is_str o k_filling
  && has_type is_bool o k_has_image && has_type is_bool o k_has_color
  && has_type is_int o k_object_count && has_type is_str o k_lettering.

Definition fee_of (table : gmap pystr Z) (key : option value) : Z :=
  match key with
  | Some (VStr s) => default 0 (table !! s)
  | _ => 0
  end.

Definition base_fee (o : dict) : Z := fee_of Pro.MENU.sizes (o !! k_size).
Definition flavor_fee (o : dict) : Z := fee_of Pro.MENU.fillings (o !! k_filling).

Definition flag (o : dict) (k : pystr) : bool :=
  match o !! k with
  | Some (VBool b) => b
  | _ => false
  end.

Definition image_fee (o : dict) : Z := if flag o k_has_image then 10000 else 0.
Definition color_fee (o : dict) : Z := if flag o k_has_color then 5000 else 0.

Definition object_fee (o : dict) : Z :=
  match o !! k_object_count with
  | Some (VInt n) => 2000 * n
  | _ => 0
  end.

Definition lettering_of (o : dict) : pystr :=
  match o !! k_lettering with
  | Some (VStr s) => s
  | _ => []
  end.

Definition long_lettering_fee (o : dict) : Z :=
  if (10 <=? length (lettering_of o))%nat then 3000 else 0.

Definition price_formula (o : dict) : Z :=
  base_fee o + flavor_fee o + 20000 + image_fee o + color_fee o + object_fee o
  + long_lettering_fee o.

(** The key of a catalog selection is missing from the record or absent
    from the table. *)
Definition unknown_key (table : gmap pystr Z) (key : option value) : Prop :=
  match key with
  | None => True
  | Some (VStr s) => table !! s = None
  | Some _ => False
  end.

(** ** Vocabulary of the other statements *)

(** [a] occurs in [b] as a contiguous excerpt. *)
Definition excerpt_of (a b : pystr) : Prop := ∃ pre post, b = pre ++ a ++ post.

(** The content of the heap at a reference. *)
Definition deref (s : state) (l : loc) : option dict := st_heap s !! l.

(** The order of the session. *)
Definition session_order (s : state) : option dict := deref s (order (st_session s)).

Definition run_state {A} (m : M A) (s : state) : state := snd (m s).
Definition run_result {A} (m : M A) (s : state) : result A := fst (m s).

(** ** Inputs of the examples *)

(** The order of an accepted intake form: size 1호, filling 초코. *)
Definition example_order : dict :=
  intake_order (py "Kim") (py "010-0000-0000") (py "1호") (py "초코")
               (py "2025-12-24") (py "10:00").

(** The same order with a size and a filling that are in no table. *)
Definition example_unknown_order : dict :=
  intake_order (py "Kim") (py "010-0000-0000") (py "9호") (py "민트")
               (py "2025-12-24") (py "10:00").

(** ** Objects *)

(** The session and every object that exists in [s] are the same in
    [s']. *)
Definition objects_unchanged (s s' : state) : Prop :=
  st_session s' = st_session s
  ∧ ∀ (l : loc) (d : dict), deref s l = Some d → deref s' l = Some d.

(** [l] is an object of [s'] that did not exist in [s]. *)
Definition new_object (s s' : state) (l : loc) : Prop :=
  deref s l = None ∧ is_Some (deref s' l).

(** ** Parsing of a model reply *)

(** The text is decoded by app_pro.py: at once, or else through its
    brace span. *)
Definition pro_parses (lib : pylib) (content_str : pystr) (v : value) : Prop :=
  json_loads lib content_str = Ok v
  ∨ is_ok (json_loads lib content_str) = false
    ∧ ∃ m, re_search_braces content_str = Some m ∧ json_loads lib m = Ok v.

(** The text is decoded by neither attempt of app_pro.py. *)
Definition pro_unparsable (lib : pylib) (content_str : pystr) : Prop :=
  is_ok (json_loads lib content_str) = false
  ∧ ∀ m, re_search_braces content_str = Some m → is_ok (json_loads lib m) = false.

(** The order with design_desc "A" and lettering "B", alone in the heap. *)
Definition order_AB : dict :=
  <[k_design_desc := VStr (py "A")]> (<[k_lettering := VStr (py "B")]> ∅).

Definition state_AB : state :=
  {| st_session := st_session Sample.fresh; st_heap := [order_AB]; st_calls := [] |}.

Definition reply_C : pystr :=
  pyq "{'updated_order': {'design_desc': 'C'}, 'response_message': 'ok'}".

Definition order_CB : dict :=
  <[k_design_desc := VStr (py "C")]> (<[k_lettering := VStr (py "B")]> ∅).

(** A provider whose first reply, on either API, is [reply_C]. *)
Definition provider_C : provider :=
  Sample.scripted [Ok [Some reply_C]] [Ok (Sample.text_response reply_C)] [].

(** A provider whose first chat completion is the single character of
    an opening brace: a reply cut off right after it began. *)
Definition provider_truncated : provider :=
  Sample.scripted [Ok [Some (py "{")]] [Ok (Sample.text_response (py "{"))] [].

(** What app_basic.py makes of a chat completion before the merge. *)
Definition basic_decode (lib : pylib) (response : chat_completion) : result value :=
  content ← Basic.response_content response;
  content ← Basic.unfence content;
  json_loads lib content.

(** The exception [json.loads] raises on that reply. *)
Definition truncated_error : exn :=
  Exn JSONDecodeError
      (py "Expecting property name enclosed in double quotes: line 1 column 2 (char 1)").

(** ** Inputs of the image and session examples *)

Definition denied : exn :=
  Exn PermissionDeniedError (py "Error code: 403 - permission denied").

(** A provider that refuses the first two image requests for lack of
    permission and serves the third. *)
Definition provider_denies_twice : provider :=
  Sample.scripted [] [] [Raise denied; Raise denied; Ok [Some (py "aGkh")]].

(** The keyword arguments of the first attempt. *)
Definition image_kwargs (prompt model : pystr) : images_request :=
  {| img_model := model; img_prompt := prompt; img_size := py "1024x1024";
     img_quality := Some (py "high"); img_response_format := Some (py "b64_json") |}.

(** The arguments of the retry after a rejection with text [error_str]. *)
Definition retry_kwargs (prompt model error_str : pystr) : images_request :=
  {| img_model := model; img_prompt := prompt; img_size := py "1024x1024";
     img_quality :=
       if contains (py "quality") error_str || contains (py "Invalid value") error_str
       then None else Some (py "high");
     img_response_format :=
       if contains (py "response_format") error_str
       then None else Some (py "b64_json") |}.

(** A reply that sets has_color and gives [null] for the lettering. *)
Definition reply_null_lettering : pystr :=
  pyq "{'updated_order': {'has_color': true, 'lettering': null}, 'response_message': 'ok'}".

Definition provider_null_lettering : provider :=
  Sample.scripted [Ok [Some reply_null_lettering]]
                  [Ok (Sample.text_response reply_null_lettering)] [].

(** The session of app_pro.py after the intake form was accepted. *)
Definition pro_chat_started : state :=
  run_state (Pro.main_form_submit (py "Kim") (py "010-0000-0000") (py "1호")
               (py "초코") (py "2025-12-24") (Some (py "10:00"))) Sample.fresh.

(** The session of app_basic.py after the intake form was accepted. *)
Definition basic_chat_started : state :=
  run_state (Basic.main_form_submit (py "Kim") (py "010-0000-0000") (py "1호")
               (py "초코") (py "2025-12-24") (Some (py "10:00"))) Sample.fresh.

(** The stored price is the pricing function applied to the order. *)
Definition price_in_sync (s : state) : Prop :=
  ∃ (d : dict) (p : Z),
    session_order s = Some d ∧ d !! k_price = Some (VInt p)
    ∧ Pro.calculate_price d = Ok p.

(** A field of the session's order. *)
Definition order_field (s : state) (k : pystr) : option value :=
  session_order s ≫= λ d : dict, d !! k.

(** The pricing function applied to the session's order. *)
Definition order_price (s : state) : result Z :=
  Pro.calculate_price (default ∅ (session_order s)).

(** app_pro.py: a chat turn is entered after the intake, and the next
    run processes it with the reply [reply_null_lettering]. *)
Definition pro_after_null_lettering : state :=
  run_state (Pro.main_process_pending Sample.lib provider_null_lettering
               Sample.with_key)
    (run_state (Pro.main_chat_input (py "any color, no lettering"))
       pro_chat_started).

(** app_basic.py: the same chat turn, processed in the run that receives
    it. *)
Definition basic_run_null_lettering : result unit * state :=
  Basic.main_chat_input Sample.lib provider_null_lettering Sample.with_key
    (py "any color, no lettering") basic_chat_started.

(** ** The deferred step *)

(** The fields of the session that the work of a deferred step leaves
    alone. *)
Definition chat_frame (x x' : session) : Prop :=
  messages x' = messages x ∧ step x' = step x
  ∧ process_on_next x' = process_on_next x.


(** * Vocabulary of the further statements

    ** Pricing *)





(** The keys the pricing function reads. *)
Definition priced_keys : list pystr :=
  [k_size; k_filling; k_has_image; k_has_color; k_object_count; k_lettering].

Definition raises_type_error {A} (r : result A) : bool :=
  match r with
  | Raise (Exn TypeError _) => true
  | _ => false
  end.

(** The session's order with a reference image attached, and without. *)
Definition with_image (b : bool) (o : dict) : dict := <[k_has_image := VBool b]> o.

(** ** Text *)

(** Every character of the string is white space. *)
Definition blank (s : pystr) : bool := forallb isspace s.

(** ** Providers and replies of the further examples *)

(** What the scripted provider raises when its script is used up. *)
Definition connection_error : exn := Exn OtherException (py "Connection error.").

(** A provider that cannot be reached. *)
Definition provider_offline : provider := Sample.scripted [] [] [].

(** A provider whose first reply, on either API, is [t]. *)
Definition provider_says (t : pystr) : provider :=
  Sample.scripted [Ok [Some t]] [Ok (Sample.text_response t)] [].

(** The state after the call of the extractor of app_pro.py was logged. *)
Definition after_pro_request (s : state) (current_order : loc)
    (chat_history : list message) (user_text : pystr) : state :=
  {| st_session := st_session s; st_heap := st_heap s;
     st_calls := st_calls s
       ++ [CallResponses (Pro.intent_request (default ∅ (deref s current_order))
                            (recent chat_history) user_text)] |}.

(** The state after the call of the extractor of app_basic.py was
    logged. *)
Definition after_basic_request (s : state) (current_order : loc)
    (chat_history : list message) (user_text : pystr) : state :=
  {| st_session := st_session s; st_heap := st_heap s;
     st_calls := st_calls s
       ++ [CallChat (Basic.intent_request (default ∅ (deref s current_order))
                       (recent chat_history) user_text)] |}.

(** The exception of [result['response_message']] on a reply without
    that key. *)
Definition missing_response_message : exn :=
  Exn KeyError (concat [py "'"; py "response_message"; py "'"]).

(** A reply with a message and no patch, and the object it decodes to. *)
Definition reply_no_patch : pystr := pyq "{'response_message': 'ok'}".

Definition object_no_patch : dict := {[ py "response_message" := VStr (py "ok") ]}.

(** A reply with a patch and no message, and the object it decodes to. *)
Definition reply_patch_only : pystr := pyq "{'updated_order': {'design_desc': 'C'}}".

Definition patch_C : dict := {[ k_design_desc := VStr (py "C") ]}.

Definition object_patch_only : dict := {[ py "updated_order" := VDict patch_C ]}.

(** ** Envelopes of the Responses API *)

(** The content items of an envelope, in order. *)
Definition contents (items : list output_item) : list content_item :=
  concat (map (λ i, default [] (item_content i)) items).

(** The item, an object or a dict, has the type [output_text]. *)
Definition typed_output_text (c : content_item) : bool :=
  match c with
  | ItemObject (Some ty) _ => bool_decide (ty = Pro.output_text_type)
  | ItemObject None _ => false
  | ItemDict d =>
    match d !! py "type" with
    | Some (VStr ty) => bool_decide (ty = Pro.output_text_type)
    | _ => false
    end
  end.

(** The text of an item: the attribute of an object, with [None] read as
    the empty string, or the entry of a dict, whatever its type. *)
Definition item_text (c : content_item) : value :=
  match c with
  | ItemObject _ text => VStr (default [] text)
  | ItemDict d => dict_get d (py "text") (VStr [])
  end.

(** The texts of the items of type [output_text]. *)
Definition text_parts (items : list output_item) : list value :=
  map item_text (filter (λ c, typed_output_text c = true) (contents items)).

Definition str_of (v : value) : pystr :=
  match v with VStr s => s | _ => [] end.

(** An envelope with a reasoning item, two texts in two output items,
    an empty item and a convenience attribute. *)
Definition envelope_two_texts : response :=
  {| output := Some [
       {| item_content := None |};
       {| item_content := Some [ItemObject (Some (py "reasoning")) (Some (py "x"));
                                ItemObject (Some Pro.output_text_type)
                                           (Some (py "a"))] |};
       {| item_content := Some [] |};
       {| item_content := Some [ItemObject (Some Pro.output_text_type) None;
                                ItemDict {[ py "type" := VStr Pro.output_text_type;
                                            py "text" := VStr (py "b") ]}] |} ];
     output_text := Some (py "zzz") |}.

(** ** The design brief and the image *)

(** The request of [request_design_brief]. *)
Definition brief_request (user_prompt system_prompt : pystr)
    (image_b64 : option pystr) (filling : value) : responses_request :=
  {| resp_model := py "gpt-5-nano";
     resp_content :=
       InputText (Text (Pro.build_prompt (user_prompt ++ Pro.filling_context_of filling)
                          system_prompt))
       :: match image_b64 with
          | Some (c :: b) => [InputImage (c :: b)]
          | _ => []
          end |}.

(** What stands between the user's request and the brief in the prompt
    of the image model. *)
Definition brief_heading : pystr :=
  concat [nl; nl; py "Design brief (Korean):"; nl].

(** The text with which the image API rejects the quality [high]. *)
Definition invalid_quality : pystr :=
  py "Invalid value: 'high'. Supported values are: 'standard' and 'hd'.".

(** A provider that rejects the first image request for its quality and
    serves the second. *)
Definition provider_rejects_quality : provider :=
  Sample.scripted [] [] [Raise (Exn BadRequestError invalid_quality);
                          Ok [Some (py "aGkh")]].

(** A provider that refuses every request for lack of permission. *)
Definition provider_always_denies : provider :=
  {| chat_completions_create := λ _ _, Raise denied;
     responses_create := λ _ _, Raise denied;
     images_generate := λ _ _, Raise denied |}.

Definition recursion_error : exn :=
  Exn RecursionError (py "maximum recursion depth exceeded").

(** The first attempt to generate an image is also the last: the call
    returns, or fails with an error that is neither a rejected request
    nor a refusal for the default model. *)
Definition settles_at_once (model : pystr) (r : result images_response) : Prop :=
  match r with
  | Ok _ => True
  | Raise e =>
    exn_class_of e ≠ BadRequestError
    ∧ (exn_class_of e = PermissionDeniedError → model ≠ Pro.DEFAULT_IMAGE_MODEL)
  end.

(** A provider that serves the first image request. *)
Definition provider_serves_image : provider :=
  Sample.scripted [] [] [Ok [Some (py "aGkh")]].

(** ** The session blocks *)

(** The intake form has a name, a phone number and a pickup time. *)
Definition form_complete (name phone : pystr) (time_sel : option pystr) : bool :=
  match name, phone, time_sel with
  | _ :: _, _ :: _, Some (_ :: _) => true
  | _, _, _ => false
  end.

(** The state in which an accepted intake form leaves [s]: a new priced
    order, the welcome as only message, and the chat phase. *)
Definition form_accepted (o : dict) (welcome : pystr) (s : state) : state :=
  {| st_session :=
       with_step CHAT
         (with_messages [Message assistant (VStr welcome)]
            (with_order (length (st_heap s)) (st_session s)));
     st_heap := st_heap s ++ [<[k_price := VInt (price_formula o)]> o];
     st_calls := st_calls s |}.

Definition msg_image_added : message :=
  Message assistant (VStr (py "참고 사진이 추가되었습니다. (+10,000원)")).

Definition msg_image_removed : message :=
  Message assistant (VStr (py "참고 사진이 제거되었습니다.")).

(** The order with the image flag set to [b] and the price of the
    formula. *)
Definition repriced (b : bool) (d : dict) : dict :=
  <[k_price := VInt (price_formula (with_image b d))]> (with_image b d).

Definition sample_upload : upload :=
  {| up_name := Some (py "cake.png"); up_bytes := [Byte.x68] |}.

(** The order of [pro_chat_started]. *)
Definition started_order : dict := <[k_price := VInt 48500]> example_order.

(** [pro_chat_started] after [sample_upload] was attached. *)
Definition pro_image_attached : state :=
  run_state (Pro.main_sidebar_upload (Some sample_upload) false) pro_chat_started.

(** The chat after the deferred step has written [final]: into the
    placeholder at [idx] when there is one, and at the end otherwise. *)
Definition answered (idx : option nat) (final : value) (msgs : list message)
  : list message :=
  match idx with
  | Some i =>
    if bool_decide (i < length msgs)%nat
    then alter (λ m, Message (msg_role m) final) i msgs
    else msgs ++ [Message assistant final]
  | None => msgs ++ [Message assistant final]
  end.

(** The session of app_pro.py with a chat turn entered and waiting for
    the deferred step. *)
Definition pro_turn_pending : state :=
  run_state (Pro.main_chat_input (py "change the design to C")) pro_chat_started.

(** A provider that writes a brief and serves an image. *)
Definition provider_designs : provider :=
  Sample.scripted [] [Ok (Sample.text_response (py "- white cream, one tier"))]
                  [Ok [Some (py "aGkh")]].

(** * Pricing *)

Lemma order_typed_fields (o : dict) :
  order_typed o = true →
  has_type is_str o k_size = true ∧ has_type is_str o k_filling = true
  ∧ has_type is_bool o k_has_image = true ∧ has_type is_bool o k_has_color = true
  ∧ has_type is_int o k_object_count = true ∧ has_type is_str o k_lettering = true.
Proof.
  unfold order_typed. rewrite !andb_true_iff. tauto.
Qed.

Lemma pro_price_typed (o : dict) :
  order_typed o = true → Pro.calculate_price o = Ok (price_formula o).
Proof.
  intros H. apply order_typed_fields in H.
  destruct H as (Hs & Hf & Hi & Hc & Hn & Hl).
  unfold Pro.calculate_price, price_formula, base_fee, flavor_fee, fee_of,
    image_fee, color_fee, object_fee, long_lettering_fee, flag, lettering_of,
    dict_get.
  unfold has_type in *.
  destruct (o !! k_size) as [[]|]; try discriminate;
  destruct (o !! k_filling) as [[]|]; try discriminate;
  destruct (o !! k_has_image) as [[| [] | | | |]|]; try discriminate;
  destruct (o !! k_has_color) as [[| [] | | | |]|]; try discriminate;
  destruct (o !! k_object_count) as [[]|]; try discriminate;
  destruct (o !! k_lettering) as [[]|]; try discriminate;
  cbn [table_get mul_int iadd_int py_len truthy default from_option id mbind
       result_bind negb];
  unfold Pro.MENU.base_custom, Pro.MENU.extras.image, Pro.MENU.extras.color,
    Pro.MENU.extras.object, Pro.MENU.extras.long_lettering;
  repeat case_match; f_equal; simpl length in *; try discriminate; lia.
Qed.

Lemma basic_pro_price (o : dict) : Basic.calculate_price o = Pro.calculate_price o.
Proof. reflexivity. Qed.

Lemma typed_insert_lettering (o : dict) (s : pystr) :
  order_typed o = true → order_typed (<[k_lettering := VStr s]> o) = true.
Proof.
  unfold order_typed, has_type. intros H.
  rewrite lookup_insert_eq.
  rewrite !lookup_insert_ne by done. rewrite !andb_true_iff in *. tauto.
Qed.

Lemma price_insert_lettering (o : dict) (s : pystr) :
  price_formula (<[k_lettering := VStr s]> o)
  = base_fee o + flavor_fee o + 20000 + image_fee o + color_fee o + object_fee o
    + (if (10 <=? length s)%nat then 3000 else 0).
Proof.
  unfold price_formula, base_fee, flavor_fee, image_fee, color_fee, object_fee,
    long_lettering_fee, flag, lettering_of.
  rewrite lookup_insert_eq. rewrite !lookup_insert_ne by done. reflexivity.
Qed.

(** C1.  For every order record of the data model, [calculate_price] of
    either file returns base fee + flavor fee + 20000 + 10000 if
    has_image + 5000 if has_color + 2000 times object_count + 3000 if the
    lettering has at least 10 characters; with a lettering of 9
    characters the last term is absent, with one of 10 characters it is
    present once. *)
Theorem calculate_price_formula (o : dict) :
  order_typed o = true →
  (Basic.calculate_price o = Ok (price_formula o)
   ∧ Pro.calculate_price o = Ok (price_formula o))
  ∧ (∀ s : pystr, length s = 9%nat →
       let o9 := <[k_lettering := VStr s]> o in
       let fees := base_fee o + flavor_fee o + 20000 + image_fee o + color_fee o
                   + object_fee o in
       Basic.calculate_price o9 = Ok fees ∧ Pro.calculate_price o9 = Ok fees)
  ∧ (∀ s : pystr, length s = 10%nat →
       let o10 := <[k_lettering := VStr s]> o in
       let fees := base_fee o + flavor_fee o + 20000 + image_fee o + color_fee o
                   + object_fee o in
       Basic.calculate_price o10 = Ok (fees + 3000)
       ∧ Pro.calculate_price o10 = Ok (fees + 3000)).
Proof.
  intros Ht. split; [|split].
  - rewrite basic_pro_price. split; apply pro_price_typed, Ht.
  - intros s Hs o9 fees. rewrite basic_pro_price.
    assert (Pro.calculate_price o9 = Ok fees) as ->; [|done].
    unfold o9. rewrite pro_price_typed by (apply typed_insert_lettering, Ht).
    rewrite price_insert_lettering, Hs. simpl. f_equal. unfold fees. lia.
  - intros s Hs o10 fees. rewrite basic_pro_price.
    assert (Pro.calculate_price o10 = Ok (fees + 3000)) as ->; [|done].
    unfold o10. rewrite pro_price_typed by (apply typed_insert_lettering, Ht).
    rewrite price_insert_lettering, Hs. simpl. f_equal.
Qed.

Lemma calculate_price_formula_witness :
  order_typed example_order = true
  ∧ Basic.calculate_price example_order = Ok 48500
  ∧ Pro.calculate_price example_order = Ok 48500
  ∧ Pro.calculate_price (<[k_lettering := VStr (py "123456789")]> example_order)
    = Ok 48500
  ∧ Pro.calculate_price (<[k_lettering := VStr (py "1234567890")]> example_order)
    = Ok 51500.
Proof.
  assert (order_typed example_order = true) as Ht by (vm_compute; reflexivity).
  destruct (calculate_price_formula example_order Ht) as ((Hb & Hp) & H9 & H10).
  split; [exact Ht|]. split; [|split; [|split]].
  - rewrite Hb. vm_compute. reflexivity.
  - rewrite Hp. vm_compute. reflexivity.
  - destruct (H9 (py "123456789") eq_refl) as [_ ->]. vm_compute. reflexivity.
  - destruct (H10 (py "1234567890") eq_refl) as [_ ->]. vm_compute. reflexivity.
Defined.

(** C9.  On an order record of the data model the pricing function of
    either file returns normally; a size that is missing from the record
    or absent from the size table contributes 0, and so does such a
    filling. *)
Theorem unknown_catalog_key_costs_nothing (o : dict) :
  order_typed o = true →
  (∃ p : Z, Basic.calculate_price o = Ok p ∧ Pro.calculate_price o = Ok p)
  ∧ (unknown_key Pro.MENU.sizes (o !! k_size) →
       let p := 0 + flavor_fee o + 20000 + image_fee o + color_fee o
                + object_fee o + long_lettering_fee o in
       Basic.calculate_price o = Ok p ∧ Pro.calculate_price o = Ok p)
  ∧ (unknown_key Pro.MENU.fillings (o !! k_filling) →
       let p := base_fee o + 0 + 20000 + image_fee o + color_fee o
                + object_fee o + long_lettering_fee o in
       Basic.calculate_price o = Ok p ∧ Pro.calculate_price o = Ok p).
Proof.
  intros Ht. rewrite basic_pro_price, (pro_price_typed o Ht).
  split; [eauto|]. split; intros Hu p; (split; f_equal); unfold p, price_formula.
  all: unfold base_fee, flavor_fee, fee_of, unknown_key in *.
  1,2: destruct (o !! k_size) as [[]|]; try done; rewrite ?Hu; done.
  all: destruct (o !! k_filling) as [[]|]; try done; rewrite ?Hu; done.
Qed.

Lemma unknown_catalog_key_costs_nothing_witness :
  order_typed example_unknown_order = true
  ∧ Basic.calculate_price example_unknown_order = Ok 20000
  ∧ Pro.calculate_price example_unknown_order = Ok 20000
  ∧ Pro.calculate_price (delete k_size example_order) = Ok 23500.
Proof.
  assert (order_typed example_unknown_order = true) as Ht
    by (vm_compute; reflexivity).
  assert (order_typed (delete k_size example_order) = true) as Hd
    by (vm_compute; reflexivity).
  destruct (unknown_catalog_key_costs_nothing _ Ht) as (_ & Hs & _).
  destruct (unknown_catalog_key_costs_nothing _ Hd) as (_ & Hs' & _).
  split; [exact Ht|].
  destruct Hs as [-> ->]; [vm_compute; reflexivity|].
  destruct Hs' as [_ ->]; [vm_compute; exact I|].
  repeat split; vm_compute; reflexivity.
Defined.

(** C10.  The two files price alike: on every order, of any content,
    [calculate_price] of app_basic.py and of app_pro.py give the same
    result. *)
Theorem calculate_price_same_in_both_files (o : dict) :
  Basic.calculate_price o = Pro.calculate_price o.
Proof.
  unfold Basic.calculate_price, Pro.calculate_price.
  unfold Basic.MENU.sizes, Pro.MENU.sizes, Basic.MENU.fillings, Pro.MENU.fillings,
    Basic.MENU.base_custom, Pro.MENU.base_custom.
  unfold Basic.MENU.extras.image, Pro.MENU.extras.image,
    Basic.MENU.extras.color, Pro.MENU.extras.color,
    Basic.MENU.extras.object, Pro.MENU.extras.object,
    Basic.MENU.extras.long_lettering, Pro.MENU.extras.long_lettering.
  reflexivity.
Qed.

(** * Outside the data model *)

(** The pricing function is dynamically typed: on a record whose
    lettering is [None], or whose size is a list, it raises. *)
Lemma calculate_price_raises_outside_model :
  Pro.calculate_price (<[k_lettering := VNone]> example_order)
  = Raise (type_error [py "object of type 'NoneType' has no len()"])
  ∧ Pro.calculate_price (<[k_size := VList []]> example_order)
    = Raise (type_error [py "unhashable type: 'list'"]).
Proof. split; vm_compute; reflexivity. Qed.

(** Attaching a reference image to a priced order sets has_image and
    adds the image fee; removing it takes the fee away again. *)
Lemma attach_and_remove_image :
  let u := {| up_name := Some (py "cake.png"); up_bytes := [Byte.x68] |} in
  let attached := run_state (Pro.main_sidebar_upload (Some u) false)
                    pro_chat_started in
  let removed := run_state (Pro.main_sidebar_upload None true) attached in
  order_field attached k_has_image = Some (VBool true)
  ∧ order_field attached k_price = Some (VInt 58500)
  ∧ order_field removed k_has_image = Some (VBool false)
  ∧ order_field removed k_price = Some (VInt 48500).
Proof. repeat split; vm_compute; reflexivity. Qed.

(** * The intent extractor *)

Ltac unfold_m :=
  unfold setitem, append_message in *;
  unfold mbind, mret, M_bind, M_ret, result_bind, result_ret, lift, raise,
    try_except, read, alloc, store, set_session, get_session,
    call_responses, call_chat, call_images, log_call in *.

Ltac proj_state := cbn [fst snd st_heap st_session st_calls] in *.

Lemma deref_app_l (h x : list dict) (l : nat) (d : dict) :
  h !! l = Some d → (h ++ x) !! l = Some d.
Proof. intros H. rewrite lookup_app_l; [done|]. by eapply lookup_lt_Some. Qed.

Lemma deref_insert_end (h : list dict) (c d' d : dict) (l : nat) :
  h !! l = Some d → <[length h := d']> (h ++ [c]) !! l = Some d.
Proof.
  intros H. assert (l < length h)%nat by (by eapply lookup_lt_Some).
  rewrite list_lookup_insert_ne by lia. by apply deref_app_l.
Qed.

Lemma deref_end (h : list dict) (c : dict) : (h ++ [c]) !! length h = Some c.
Proof. rewrite lookup_app_r by lia. by rewrite Nat.sub_diag. Qed.

Lemma deref_insert_at_end (h : list dict) (c d : dict) :
  <[length h := d]> (h ++ [c]) !! length h = Some d.
Proof. apply list_lookup_insert_eq. rewrite length_app. simpl. lia. Qed.

Lemma truthy_dict_union (patch cur : dict) :
  truthy (VDict patch) = false → cur = patch ∪ cur.
Proof.
  simpl. intros H. apply negb_false_iff, bool_decide_eq_true in H.
  apply map_size_empty_iff in H. subst. by rewrite (left_id_L ∅ (∪)).
Qed.

(** The result of [merge_result] for a decoded reply that carries a
    patch. *)
Lemma pro_merge_result (lib : pylib) (l : nat) (r patch cur : dict) (s : state) :
  st_heap s !! l = Some cur →
  r !! py "updated_order" = Some (VDict patch) →
  Pro.merge_result lib l (VDict r) s
  = (Ok (length (st_heap s),
         dict_get r (py "response_message") (VStr Pro.default_response_message)),
     {| st_session := st_session s;
        st_heap := st_heap s ++ [patch ∪ cur];
        st_calls := st_calls s |}).
Proof.
  intros Hl Hp. unfold Pro.merge_result. unfold_m. cbv beta. proj_state.
  cbn [get_method]. rewrite Hl. unfold dict_get at 1 2. rewrite Hp.
  cbn [default from_option id].
  destruct (truthy (VDict patch)) eqn:Ht; proj_state.
  - rewrite deref_end. cbn [dict_update default from_option id].
    f_equal. f_equal.
    apply list_eq. intros i. destruct (decide (i = length (st_heap s))) as [->|].
    + by rewrite deref_insert_at_end, deref_end.
    + rewrite list_lookup_insert_ne by done.
      destruct (decide (i < length (st_heap s))%nat).
      * by rewrite !lookup_app_l.
      * rewrite !lookup_app_r by lia.
        destruct (i - length (st_heap s))%nat as [|k] eqn:E; [lia|done].
  - f_equal. f_equal. f_equal. f_equal. by apply truthy_dict_union.
Qed.

Lemma insert_end_eq (h : list dict) (c d : dict) :
  <[length h := d]> (h ++ [c]) = h ++ [d].
Proof.
  apply list_eq. intros i. destruct (decide (i = length h)) as [->|].
  - by rewrite deref_insert_at_end, deref_end.
  - rewrite list_lookup_insert_ne by done.
    destruct (decide (i < length h)%nat).
    + by rewrite !lookup_app_l.
    + rewrite !lookup_app_r by lia.
      destruct (i - length h)%nat as [|k] eqn:E; [lia|done].
Qed.

(** C4.  When the reply of the model decodes to an object whose
    [updated_order] is a JSON object [patch] (and, in app_basic.py, whose
    [response_message] is present, as the reply contract requires), the
    extractor returns a new object whose content is [patch] laid over the
    current order: a key of the patch has the patch's value, any other
    key keeps the value of the current order; the current order itself
    is unchanged. *)
Theorem merge_is_shallow_override (lib : pylib) (P : provider) (cfg : config)
    (user_text : pystr) (current_order : nat) (chat_history : list message)
    (s : state) (cur patch : dict) :
  deref s current_order = Some cur →
  (∀ (k : pystr),
     (patch ∪ cur) !! k = match patch !! k with
                          | Some v => Some v
                          | None => cur !! k
                          end)
  ∧ (∀ (response : response) (text : pystr) (r : dict),
       Pro.client cfg = true → sdk_responses cfg = true →
       responses_create P (st_calls s)
         (Pro.intent_request cur (recent chat_history) user_text) = Ok response →
       Pro.extract_output_text response = Ok text →
       pro_parses lib (Pro.unfence (strip (strip text))) (VDict r) →
       r !! py "updated_order" = Some (VDict patch) →
       ∃ (reply : value) (s' : state),
         Pro.analyze_intent_with_gpt lib P cfg user_text current_order
           chat_history s = (Ok (length (st_heap s), reply), s')
         ∧ deref s' (length (st_heap s)) = Some (patch ∪ cur)
         ∧ deref s' current_order = Some cur)
  ∧ (∀ (response : chat_completion) (content : pystr) (r : dict) (reply : value),
       Basic.key_lacks_sk cfg = Ok false →
       chat_completions_create P (st_calls s)
         (Basic.intent_request cur (recent chat_history) user_text) = Ok response →
       Basic.response_content response ≫= Basic.unfence = Ok content →
       json_loads lib content = Ok (VDict r) →
       r !! py "updated_order" = Some (VDict patch) →
       r !! py "response_message" = Some reply →
       ∃ (s' : state),
         Basic.analyze_intent_with_gpt lib P cfg user_text current_order
           chat_history s = (Ok (length (st_heap s), reply), s')
         ∧ deref s' (length (st_heap s)) = Some (patch ∪ cur)
         ∧ deref s' current_order = Some cur).
Proof.
  unfold deref. intros Hl. split; [|split].
  - intros k. rewrite lookup_union. destruct (patch !! k), (cur !! k); done.
  - intros response text r Hc Hsdk Hresp Htext Hparse Hpatch.
    unfold Pro.analyze_intent_with_gpt, Pro.HAS_RESPONSES_API.
    rewrite Hc, Hsdk. cbn [negb andb]. unfold_m. cbv beta. proj_state.
    rewrite Hl. cbn [default from_option id]. rewrite Hresp, Htext.
    set (s1 := {| st_session := st_session s; st_heap := st_heap s;
                  st_calls := _ |}).
    assert (st_heap s1 !! current_order = Some cur) as Hl1 by done.
    pose proof (pro_merge_result lib current_order r patch cur s1 Hl1 Hpatch) as Hm.
    destruct Hparse as [Hj | [Hj (m & Hm1 & Hm2)]].
    + rewrite Hj, Hm. eexists _, _. split; [reflexivity|]. proj_state.
      split; [apply deref_end | by apply deref_app_l].
    + destruct (json_loads lib (Pro.unfence (strip (strip text)))); [done|].
      rewrite Hm1, Hm2, Hm. eexists _, _. split; [reflexivity|]. proj_state.
      split; [apply deref_end | by apply deref_app_l].
  - intros response content r reply Hkey Hresp Hcontent Hj Hpatch Hreply.
    unfold Basic.analyze_intent_with_gpt. unfold_m. cbv beta. rewrite Hkey.
    proj_state. rewrite Hl. cbn [default from_option id]. rewrite Hresp.
    destruct (Basic.response_content response) as [c|]; [|done].
    cbn in Hcontent. rewrite Hcontent, Hj. proj_state.
    cbn [get_method]. unfold dict_get. rewrite Hpatch.
    cbn [default from_option id]. unfold dict_getitem. rewrite Hreply.
    destruct (truthy (VDict patch)) eqn:Ht; proj_state.
    + rewrite deref_end. cbn [dict_update default from_option id].
      rewrite insert_end_eq. eexists. split; [reflexivity|]. proj_state.
      split; [apply deref_end | by apply deref_app_l].
    + eexists. split; [reflexivity|]. proj_state.
      rewrite <- (truthy_dict_union patch cur Ht).
      split; [apply deref_end | by apply deref_app_l].
Qed.

Lemma merge_is_shallow_override_witness :
  deref state_AB 0%nat = Some order_AB
  ∧ (∃ (reply : value) (s' : state),
       Pro.analyze_intent_with_gpt Sample.lib provider_C Sample.with_key
         (py "change the design to C") 0%nat [] state_AB = (Ok (1%nat, reply), s')
       ∧ deref s' 1%nat = Some order_CB ∧ deref s' 0%nat = Some order_AB)
  ∧ (∃ (s' : state),
       Basic.analyze_intent_with_gpt Sample.lib provider_C Sample.with_key
         (py "change the design to C") 0%nat [] state_AB
       = (Ok (1%nat, VStr (py "ok")), s')
       ∧ deref s' 1%nat = Some order_CB ∧ deref s' 0%nat = Some order_AB).
Proof.
  assert (deref state_AB 0%nat = Some order_AB) as Hl by reflexivity.
  destruct (merge_is_shallow_override Sample.lib provider_C Sample.with_key
              (py "change the design to C") 0%nat [] state_AB order_AB
              (<[k_design_desc := VStr (py "C")]> ∅) Hl) as (_ & Hpro & Hbasic).
  assert (<[k_design_desc := VStr (py "C")]> ∅ ∪ order_AB = order_CB) as Hu
    by (vm_compute; reflexivity).
  rewrite Hu in Hpro, Hbasic.
  split; [exact Hl|]. split.
  - apply (Hpro (Sample.text_response reply_C) reply_C
             (<[py "updated_order" := VDict (<[k_design_desc := VStr (py "C")]> ∅)]>
                (<[py "response_message" := VStr (py "ok")]> ∅))).
    + vm_compute; reflexivity.
    + reflexivity.
    + vm_compute; reflexivity.
    + vm_compute; reflexivity.
    + left. vm_compute; reflexivity.
    + vm_compute; reflexivity.
  - apply (Hbasic [Some reply_C] reply_C
             (<[py "updated_order" := VDict (<[k_design_desc := VStr (py "C")]> ∅)]>
                (<[py "response_message" := VStr (py "ok")]> ∅))).
    + vm_compute; reflexivity.
    + vm_compute; reflexivity.
    + vm_compute; reflexivity.
    + vm_compute; reflexivity.
    + vm_compute; reflexivity.
    + vm_compute; reflexivity.
Defined.

Ltac frame_cases :=
  unfold objects_unchanged, new_object, deref; unfold_m; cbv beta;
  repeat (case_match; cbv beta in * ); simplify_eq; proj_state.

Ltac frame_solve :=
  repeat split; try done; eauto using deref_app_l, deref_insert_end;
  try (by left);
  try (right; split;
       [by apply lookup_ge_None_2
       |rewrite ?insert_end_eq, deref_end; by eexists]).

Lemma pro_extractor_frame (lib : pylib) (P : provider) (cfg : config)
    (user_text : pystr) (current_order : nat) (chat_history : list message)
    (s : state) :
  ∃ (l : nat) (reply : value) (s' : state),
    Pro.analyze_intent_with_gpt lib P cfg user_text current_order chat_history s
    = (Ok (l, reply), s')
    ∧ objects_unchanged s s'
    ∧ (l = current_order ∨ new_object s s' l).
Proof.
  unfold Pro.analyze_intent_with_gpt, Pro.merge_result. frame_cases.
  all: eexists _, _, _; (split; [reflexivity|]); proj_state.
  all: frame_solve.
Qed.

Lemma basic_extractor_frame (lib : pylib) (P : provider) (cfg : config)
    (user_text : pystr) (current_order : nat) (chat_history : list message)
    (s : state) :
  ∃ (r : result (nat * value)) (s' : state),
    Basic.analyze_intent_with_gpt lib P cfg user_text current_order chat_history s
    = (r, s')
    ∧ objects_unchanged s s'
    ∧ match r with
      | Ok (l, _) => l = current_order ∨ new_object s s' l
      | Raise _ => OPENAI_API_KEY cfg = None
      end.
Proof.
  unfold Basic.analyze_intent_with_gpt, Basic.key_lacks_sk. frame_cases.
  all: eexists _, _; (split; [reflexivity|]); proj_state.
  all: frame_solve.
Qed.

Lemma pro_extractor_without_client (lib : pylib) (P : provider) (cfg : config)
    (user_text : pystr) (current_order : nat) (chat_history : list message)
    (s : state) :
  Pro.client cfg = false →
  Pro.analyze_intent_with_gpt lib P cfg user_text current_order chat_history s
  = (Ok (current_order, VStr Pro.no_client_reply), s).
Proof. intros H. unfold Pro.analyze_intent_with_gpt. by rewrite H. Qed.

Lemma basic_extractor_without_sk (lib : pylib) (P : provider) (cfg : config)
    (user_text : pystr) (current_order : nat) (chat_history : list message)
    (s : state) :
  Basic.key_lacks_sk cfg = Ok true →
  Basic.analyze_intent_with_gpt lib P cfg user_text current_order chat_history s
  = (Ok (current_order, VStr Basic.no_key_reply), s).
Proof.
  intros H. unfold Basic.analyze_intent_with_gpt. unfold_m. by rewrite H.
Qed.

(** C5, as amended.  The extractor never changes its [current_order]
    argument in place: the session and every object that exists before
    the call, the argument among them, are the same after it.  The order
    it returns is a newly allocated object or the argument object
    itself; it is the argument itself when app_pro.py has no client and
    when the key of app_basic.py lacks "sk-".  app_basic.py raises only
    when it has no key at all. *)
Theorem extractor_leaves_argument_unchanged (lib : pylib) (P : provider)
    (cfg : config) (user_text : pystr) (current_order : nat)
    (chat_history : list message) (s : state) :
  (∃ (l : nat) (reply : value) (s' : state),
     Pro.analyze_intent_with_gpt lib P cfg user_text current_order chat_history s
     = (Ok (l, reply), s')
     ∧ objects_unchanged s s'
     ∧ (l = current_order ∨ new_object s s' l)
     ∧ (Pro.client cfg = false → l = current_order ∧ s' = s))
  ∧ (∃ (r : result (nat * value)) (s' : state),
       Basic.analyze_intent_with_gpt lib P cfg user_text current_order
         chat_history s = (r, s')
       ∧ objects_unchanged s s'
       ∧ match r with
         | Ok (l, _) =>
           (l = current_order ∨ new_object s s' l)
           ∧ (Basic.key_lacks_sk cfg = Ok true → l = current_order ∧ s' = s)
         | Raise _ => OPENAI_API_KEY cfg = None
         end).
Proof.
  split.
  - destruct (pro_extractor_frame lib P cfg user_text current_order chat_history s)
      as (l & reply & s' & Hrun & Hframe & Hl).
    exists l, reply, s'. do 3 (split; [done|]).
    intros Hc. rewrite (pro_extractor_without_client _ _ _ _ _ _ _ Hc) in Hrun.
    by simplify_eq.
  - destruct (basic_extractor_frame lib P cfg user_text current_order chat_history s)
      as (r & s' & Hrun & Hframe & Hr).
    exists r, s'. do 2 (split; [done|]).
    destruct r as [[l reply]|e]; [|done]. split; [done|].
    intros Hk. rewrite (basic_extractor_without_sk _ _ _ _ _ _ _ Hk) in Hrun.
    by simplify_eq.
Qed.

(** Without a client the extractor returns the reference it was given:
    the order returned is the argument itself, and no object is new. *)
Lemma extractor_returns_argument_itself :
  ∃ (reply : value),
    Pro.analyze_intent_with_gpt Sample.lib (Sample.scripted [] [] [])
      Sample.without_key (py "hi") 0%nat [] Sample.fresh
    = (Ok (0%nat, reply), Sample.fresh)
    ∧ ¬ new_object Sample.fresh Sample.fresh 0%nat.
Proof.
  eexists. split; [vm_compute; reflexivity|].
  intros [H _]. vm_compute in H. discriminate H.
Qed.

(** * Configuration *)

(** C7, at the failing input.  With neither environment variable nor key
    file, [analyze_intent_with_gpt] of app_basic.py raises [TypeError]
    on every call, where app_pro.py returns its fixed reply and the
    order, and makes no call to the provider. *)
Theorem basic_extractor_raises_without_key (lib : pylib) (P : provider)
    (user_text : pystr) (current_order : nat) (chat_history : list message)
    (s : state) :
  OPENAI_API_KEY Sample.without_key = None
  ∧ Basic.analyze_intent_with_gpt lib P Sample.without_key user_text current_order
      chat_history s
    = (Raise (type_error [py "argument of type 'NoneType' is not iterable"]), s)
  ∧ Pro.analyze_intent_with_gpt lib P Sample.without_key user_text current_order
      chat_history s
    = (Ok (current_order, VStr Pro.no_client_reply), s).
Proof. repeat split. Qed.

(** * Excerpts *)

Lemma excerpt_refl (a : pystr) : excerpt_of a a.
Proof. exists [], []. by rewrite app_nil_r. Qed.

Lemma excerpt_trans (a b c : pystr) :
  excerpt_of a b → excerpt_of b c → excerpt_of a c.
Proof.
  intros (p1 & q1 & ->) (p2 & q2 & ->).
  exists (p2 ++ p1), (q1 ++ q2). by rewrite <- !app_assoc.
Qed.

Lemma excerpt_suffix (pre a : pystr) : excerpt_of a (pre ++ a).
Proof. exists pre, []. by rewrite app_nil_r. Qed.

Lemma excerpt_prefix (a post : pystr) : excerpt_of a (a ++ post).
Proof. by exists [], post. Qed.

Lemma excerpt_cons (c : N) (a b : pystr) : excerpt_of a b → excerpt_of a (c :: b).
Proof. intros (p & q & ->). by exists (c :: p), q. Qed.

Lemma lstrip_excerpt (s : pystr) : excerpt_of (lstrip s) s.
Proof.
  induction s as [|c r IH]; simpl; [apply excerpt_refl|].
  destruct (isspace c); [by apply excerpt_cons | apply excerpt_refl].
Qed.

Lemma rstrip_prefix (s : pystr) : ∃ post, s = rstrip s ++ post.
Proof.
  induction s as [|c r [post IH]]; simpl; [by exists []|].
  destruct (rstrip r) as [|x r'] eqn:E.
  - destruct (isspace c); [by exists (c :: r) | exists r; done].
  - exists post. simpl. by rewrite IH at 1.
Qed.

Lemma strip_excerpt (s : pystr) : excerpt_of (strip s) s.
Proof.
  unfold strip. eapply excerpt_trans; [|apply lstrip_excerpt].
  destruct (rstrip_prefix (lstrip s)) as [post H].
  rewrite H at 2. apply excerpt_prefix.
Qed.

Lemma from_first_suffix (c : N) (s t : pystr) :
  from_first c s = Some t → excerpt_of t s.
Proof.
  induction s as [|x r IH]; simpl; [done|].
  destruct (x =? c)%N.
  - intros [= <-]. apply excerpt_refl.
  - intros H. by apply excerpt_cons, IH.
Qed.

Lemma upto_last_prefix (c : N) (s p : pystr) :
  upto_last c s = Some p → ∃ post, s = p ++ post.
Proof.
  revert p. induction s as [|x r IH]; simpl; intros p; [done|].
  destruct (upto_last c r) as [q|].
  - intros [= <-]. destruct (IH q eq_refl) as [post ->]. by exists post.
  - destruct (x =? c)%N; [|done]. intros [= <-]. by exists r.
Qed.

Lemma re_search_braces_excerpt (s m : pystr) :
  re_search_braces s = Some m → excerpt_of m s.
Proof.
  unfold re_search_braces.
  destruct (from_first open_brace s) as [[|o r]|] eqn:E; try done.
  destruct (upto_last close_brace r) as [p|] eqn:E'; [|done].
  intros [= <-]. eapply excerpt_trans; [|by eapply from_first_suffix].
  destruct (upto_last_prefix _ _ _ E') as [post ->].
  apply (excerpt_prefix (o :: p) post).
Qed.

Lemma pro_unfence_excerpt (s : pystr) : excerpt_of (Pro.unfence s) s.
Proof.
  unfold Pro.unfence. destruct (contains code_fence s); [|apply excerpt_refl].
  destruct (re_search_braces s) eqn:E; [|apply excerpt_refl].
  by apply re_search_braces_excerpt.
Qed.

Lemma take_excerpt (n : nat) (s : pystr) : excerpt_of (take n s) s.
Proof. rewrite <- (take_drop n s) at 2. apply excerpt_prefix. Qed.

Lemma starts_with_app (a post : pystr) : starts_with a (a ++ post) = true.
Proof.
  induction a as [|x a IH]; simpl; [by destruct post|].
  by rewrite N.eqb_refl, IH.
Qed.

Lemma contains_unfold (a h : pystr) :
  contains a h = starts_with a h || match h with
                                    | [] => false
                                    | _ :: h' => contains a h'
                                    end.
Proof. by destruct h. Qed.

Lemma contains_excerpt (a b : pystr) : excerpt_of a b → contains a b = true.
Proof.
  intros (pre & post & ->). induction pre as [|x pre IH].
  - change ([] ++ a ++ post) with (a ++ post).
    by rewrite contains_unfold, starts_with_app.
  - change ((x :: pre) ++ a ++ post) with (x :: (pre ++ a ++ post)).
    rewrite contains_unfold, IH. apply orb_true_r.
Qed.

(** * Replies that do not decode *)

(** C6, as amended.  When neither decoding attempt of app_pro.py
    succeeds, the extractor returns the order it was given, changes no
    object, raises nothing, and its reply carries the first 300
    characters at most of the text it tried to decode, which is an
    excerpt of the raw reply.  When app_basic.py cannot decode the reply,
    it returns the order it was given, changes no object and raises
    nothing, and its reply is the fixed prefix followed by the text of
    the exception. *)
Theorem undecodable_reply_is_recovered (lib : pylib) (P : provider) (cfg : config)
    (user_text : pystr) (current_order : nat) (chat_history : list message)
    (s : state) :
  (∀ (response : response) (text : pystr),
     Pro.client cfg = true → sdk_responses cfg = true →
     responses_create P (st_calls s)
       (Pro.intent_request (default ∅ (deref s current_order))
          (recent chat_history) user_text) = Ok response →
     Pro.extract_output_text response = Ok text →
     pro_unparsable lib (Pro.unfence (strip (strip text))) →
     ∃ (reply quoted : pystr) (s' : state),
       Pro.analyze_intent_with_gpt lib P cfg user_text current_order
         chat_history s = (Ok (current_order, VStr reply), s')
       ∧ st_heap s' = st_heap s ∧ st_session s' = st_session s
       ∧ quoted = take 300 (Pro.unfence (strip (strip text)))
       ∧ (length quoted ≤ 300)%nat
       ∧ excerpt_of quoted text
       ∧ excerpt_of quoted reply)
  ∧ (∀ (response : chat_completion) (e : exn),
       Basic.key_lacks_sk cfg = Ok false →
       chat_completions_create P (st_calls s)
         (Basic.intent_request (default ∅ (deref s current_order))
            (recent chat_history) user_text) = Ok response →
       basic_decode lib response = Raise e →
       ∃ (s' : state),
         Basic.analyze_intent_with_gpt lib P cfg user_text current_order
           chat_history s
         = (Ok (current_order, VStr (Basic.error_prefix ++ exn_str e)), s')
         ∧ st_heap s' = st_heap s ∧ st_session s' = st_session s).
Proof.
  unfold deref. split.
  - intros response text Hc Hsdk Hresp Htext [Hj Hm].
    set (c := Pro.unfence (strip (strip text))) in *.
    assert (excerpt_of (take 300 c) text) as Hex.
    { eapply excerpt_trans; [apply take_excerpt|].
      eapply excerpt_trans; [apply pro_unfence_excerpt|].
      eapply excerpt_trans; apply strip_excerpt. }
    assert (length (take 300 c) ≤ 300)%nat as Hlen
      by (rewrite length_take; lia).
    unfold Pro.analyze_intent_with_gpt, Pro.HAS_RESPONSES_API.
    rewrite Hc, Hsdk. cbn [negb andb]. unfold_m. cbv beta. proj_state.
    rewrite Hresp, Htext. fold c.
    destruct (json_loads lib c) as [v|e0]; [done|].
    destruct (re_search_braces c) as [m|] eqn:Em.
    + specialize (Hm m eq_refl). destruct (json_loads lib m); [done|].
      eexists _, (take 300 c), _. split; [reflexivity|]. proj_state.
      repeat split; try done. by eexists _, _.
    + eexists _, (take 300 c), _. split; [reflexivity|]. proj_state.
      repeat split; try done. apply excerpt_suffix.
  - intros response e Hkey Hresp Hdec.
    unfold Basic.analyze_intent_with_gpt. unfold_m. cbv beta. rewrite Hkey.
    proj_state. rewrite Hresp. unfold basic_decode in Hdec. unfold_m.
    destruct (Basic.response_content response) as [c|]; simplify_eq;
      [|by eexists].
    destruct (Basic.unfence c) as [c'|]; simplify_eq; [|by eexists].
    rewrite Hdec. by eexists.
Qed.

Lemma undecodable_reply_is_recovered_witness :
  (∃ (reply quoted : pystr) (s' : state),
     Pro.analyze_intent_with_gpt Sample.lib provider_truncated Sample.with_key
       (py "hi") 0%nat [] Sample.fresh = (Ok (0%nat, VStr reply), s')
     ∧ st_heap s' = st_heap Sample.fresh
     ∧ st_session s' = st_session Sample.fresh
     ∧ quoted = take 300 (Pro.unfence (strip (strip (py "{"))))
     ∧ (length quoted ≤ 300)%nat
     ∧ excerpt_of quoted (py "{")
     ∧ excerpt_of quoted reply)
  ∧ (∃ (s' : state),
       Basic.analyze_intent_with_gpt Sample.lib provider_truncated Sample.with_key
         (py "hi") 0%nat [] Sample.fresh
       = (Ok (0%nat, VStr (Basic.error_prefix ++ exn_str truncated_error)), s')
       ∧ st_heap s' = st_heap Sample.fresh
       ∧ st_session s' = st_session Sample.fresh).
Proof.
  split.
  - apply (proj1 (undecodable_reply_is_recovered Sample.lib provider_truncated
                    Sample.with_key (py "hi") 0%nat [] Sample.fresh)
                 (Sample.text_response (py "{")) (py "{")).
    + vm_compute; reflexivity.
    + reflexivity.
    + vm_compute; reflexivity.
    + vm_compute; reflexivity.
    + split; [vm_compute; reflexivity|].
      intros m Hm. vm_compute in Hm. discriminate Hm.
  - apply (proj2 (undecodable_reply_is_recovered Sample.lib provider_truncated
                    Sample.with_key (py "hi") 0%nat [] Sample.fresh)
                 [Some (py "{")] truncated_error).
    + vm_compute; reflexivity.
    + vm_compute; reflexivity.
    + vm_compute; reflexivity.
Defined.

(** app_basic.py on a reply that is a lone opening brace: the reply does
    not decode, and the diagnostic text does not contain the brace, the
    only character of the raw reply. *)
Lemma basic_reply_quotes_nothing :
  ∃ (reply : pystr) (s' : state),
    Basic.analyze_intent_with_gpt Sample.lib provider_truncated Sample.with_key
      (py "hi") 0%nat [] Sample.fresh = (Ok (0%nat, VStr reply), s')
    ∧ is_ok (json_loads Sample.lib (py "{")) = false
    ∧ ¬ excerpt_of (py "{") reply.
Proof.
  eexists _, _. split; [vm_compute; reflexivity|].
  split; [vm_compute; reflexivity|].
  intros H. apply contains_excerpt in H. vm_compute in H. discriminate H.
Qed.

(** * The image synthesizer *)

Lemma default_is_alt : Pro.ALT_IMAGE_MODEL = Pro.DEFAULT_IMAGE_MODEL.
Proof. reflexivity. Qed.

(** A rejected request is retried once, with the cited parameters
    removed and the same prompt and model, whatever the retry gives. *)
Lemma bad_request_is_retried_once (lib : pylib) (P : provider) (cfg : config)
    (depth : nat) (prompt model error_str : pystr) (s : state) :
  Pro.client cfg = true → sdk_images cfg = true →
  images_generate P (st_calls s) (image_kwargs prompt model)
  = Raise (Exn BadRequestError error_str) →
  ∃ (r : result (option (list Byte.byte))) (s' : state),
    Pro.request_design_image lib P cfg (S depth) prompt model s = (r, s')
    ∧ st_calls s' = st_calls s ++ [CallImages (image_kwargs prompt model);
                                    CallImages (retry_kwargs prompt model error_str)]
    ∧ r = images_generate P (st_calls s ++ [CallImages (image_kwargs prompt model)])
            (retry_kwargs prompt model error_str) ≫= Pro.decode_image lib.
Proof.
  intros Hc Hsdk Hrej. cbn [Pro.request_design_image]. unfold Pro.HAS_IMAGES_API.
  rewrite Hc, Hsdk. cbn [negb andb]. unfold_m. cbv beta. proj_state.
  fold (image_kwargs prompt model). rewrite Hrej. cbn [exn_class_of exn_str].
  cbn [img_model img_prompt img_size img_quality img_response_format image_kwargs].
  unfold retry_kwargs.
  destruct (contains (py "response_format") error_str),
    (contains (py "quality") error_str || contains (py "Invalid value") error_str);
    cbn [img_model img_prompt img_size img_quality img_response_format].
  all: case_match.
  all: eexists _, _.
  all: split; [reflexivity|].
  all: proj_state; rewrite <- app_assoc; split; [done|].
  all: try done.
  all: unfold image_kwargs in *;
    cbn [img_model img_prompt img_size img_quality img_response_format] in *.
  all: match goal with
       | H : ?x = _ |- context [match ?x with _ => _ end] => by rewrite H
       end.
Qed.

(** While the provider refuses for lack of permission, the default model
    is asked again and again: as many requests as the interpreter allows
    nested calls, and [RecursionError] at the end. *)
Lemma denied_requests_recur (lib : pylib) (P : provider) (cfg : config)
    (prompt : pystr) (e : exn) :
  Pro.client cfg = true → sdk_images cfg = true →
  exn_class_of e = PermissionDeniedError →
  (∀ log rq, images_generate P log rq = Raise e) →
  ∀ (depth : nat) (s : state),
    Pro.request_design_image lib P cfg depth prompt Pro.DEFAULT_IMAGE_MODEL s
    = (Raise (Exn RecursionError (py "maximum recursion depth exceeded")),
       {| st_session := st_session s; st_heap := st_heap s;
          st_calls := st_calls s
            ++ replicate depth (CallImages (image_kwargs prompt Pro.DEFAULT_IMAGE_MODEL)) |}).
Proof.
  intros Hc Hsdk He Hdeny depth.
  induction depth as [|depth IH]; intros s.
  - cbn [Pro.request_design_image replicate]. unfold raise.
    rewrite app_nil_r. by destruct s.
  - cbn [Pro.request_design_image]. unfold Pro.HAS_IMAGES_API.
    rewrite Hc, Hsdk. cbn [negb andb]. unfold_m. cbv beta. proj_state.
    rewrite Hdeny, He. rewrite bool_decide_eq_true_2 by done.
    rewrite default_is_alt, IH. proj_state.
    by rewrite <- app_assoc.
Qed.

(** C8, at the failing input.  The alternate model identifier is the
    default one, so the refusal of the alternate attempt is not
    propagated: with a provider that refuses twice and then serves, the
    synthesizer makes a third request and returns its image. *)
Theorem second_denial_is_retried :
  Pro.ALT_IMAGE_MODEL = Pro.DEFAULT_IMAGE_MODEL
  ∧ ∃ (s' : state),
      Pro.request_design_image Sample.lib provider_denies_twice Sample.with_key
        1000 (py "a cake") Pro.DEFAULT_IMAGE_MODEL Sample.fresh
      = (Ok (Some [Byte.x68; Byte.x69; Byte.x21]), s')
      ∧ st_calls s'
        = [CallImages (image_kwargs (py "a cake") (py "dall-e-3"));
           CallImages (image_kwargs (py "a cake") (py "dall-e-3"));
           CallImages (image_kwargs (py "a cake") (py "dall-e-3"))].
Proof.
  split; [reflexivity|]. eexists. split; vm_compute; reflexivity.
Qed.

(** * The stored price *)

Lemma price_ignores_stored_price (d : dict) (v : value) :
  Pro.calculate_price (<[k_price := v]> d) = Pro.calculate_price d.
Proof.
  unfold Pro.calculate_price, dict_get. by rewrite !lookup_insert_ne by done.
Qed.

(** When the pricing function returns, [set_price] leaves the stored
    price equal to the price of the object. *)
Lemma set_price_in_sync (l : nat) (s : state) (d : dict) (p : Z) :
  deref s l = Some d → Pro.calculate_price d = Ok p →
  ∃ (s' : state),
    Pro.set_price l s = (Ok tt, s')
    ∧ deref s' l = Some (<[k_price := VInt p]> d)
    ∧ Pro.calculate_price (<[k_price := VInt p]> d) = Ok p.
Proof.
  unfold deref. intros Hl Hp. unfold Pro.set_price. unfold_m. cbv beta.
  proj_state. rewrite Hl. cbn [default from_option id]. rewrite Hp.
  eexists. split; [reflexivity|]. proj_state.
  split; [|by rewrite price_ignores_stored_price].
  apply list_lookup_insert_eq. by eapply lookup_lt_Some.
Qed.

(** When the pricing function raises, [set_price] changes nothing. *)
Lemma set_price_raises (l : nat) (s : state) (d : dict) (e : exn) :
  deref s l = Some d → Pro.calculate_price d = Raise e →
  Pro.set_price l s = (Raise e, s).
Proof.
  unfold deref. intros Hl Hp. unfold Pro.set_price. unfold_m. cbv beta.
  proj_state. rewrite Hl. cbn [default from_option id]. by rewrite Hp.
Qed.

(** The order of an accepted intake form is priced. *)
Lemma form_submit_in_sync :
  price_in_sync pro_chat_started
  ∧ order_field pro_chat_started k_price = Some (VInt 48500).
Proof.
  split; [|vm_compute; reflexivity].
  eexists _, 48500. repeat split; vm_compute; reflexivity.
Qed.

Lemma in_sync_priced (s : state) : price_in_sync s → is_ok (order_price s) = true.
Proof.
  intros (d & p & Hd & _ & Hp). unfold order_price. rewrite Hd. simpl.
  by rewrite Hp.
Qed.

(** C2, at the failing input.  The model replies with a patch that sets
    has_color and gives [null] for the lettering.  The merged order
    becomes the order of the session before it is priced; pricing it
    raises [TypeError]; the stored price stays 48500, the price before
    has_color was set.  app_pro.py catches the exception, app_basic.py
    lets it end the run; both keep the unpriced order. *)
Theorem failed_pricing_leaves_stale_price :
  price_in_sync pro_chat_started
  ∧ (order_field pro_after_null_lettering k_has_color = Some (VBool true)
     ∧ order_field pro_after_null_lettering k_lettering = Some VNone
     ∧ order_field pro_after_null_lettering k_price = Some (VInt 48500)
     ∧ is_ok (order_price pro_after_null_lettering) = false
     ∧ ¬ price_in_sync pro_after_null_lettering)
  ∧ (is_ok (fst basic_run_null_lettering) = false
     ∧ order_field (snd basic_run_null_lettering) k_has_color = Some (VBool true)
     ∧ order_field (snd basic_run_null_lettering) k_lettering = Some VNone
     ∧ order_field (snd basic_run_null_lettering) k_price = Some (VInt 48500)
     ∧ is_ok (order_price (snd basic_run_null_lettering)) = false
     ∧ ¬ price_in_sync (snd basic_run_null_lettering)).
Proof.
  split; [apply form_submit_in_sync|].
  assert (is_ok (order_price pro_after_null_lettering) = false) as Hpro
    by (vm_compute; reflexivity).
  assert (is_ok (order_price (snd basic_run_null_lettering)) = false) as Hbasic
    by (vm_compute; reflexivity).
  split.
  - do 3 (split; [vm_compute; reflexivity|]). split; [exact Hpro|].
    intros H. apply in_sync_priced in H. rewrite H in Hpro. discriminate Hpro.
  - do 4 (split; [vm_compute; reflexivity|]). split; [exact Hbasic|].
    intros H. apply in_sync_priced in H. rewrite H in Hbasic. discriminate Hbasic.
Qed.

(** * The deferred step *)

Lemma chat_frame_refl (x : session) : chat_frame x x.
Proof. by repeat split. Qed.

Lemma chat_frame_trans (x y z : session) :
  chat_frame x y → chat_frame y z → chat_frame x z.
Proof.
  intros (H1 & H2 & H3) (H4 & H5 & H6). repeat split; congruence.
Qed.

Lemma pro_extractor_session (lib : pylib) (P : provider) (cfg : config)
    (user_text : pystr) (current_order : nat) (chat_history : list message)
    (s s' : state) (r : result (nat * value)) :
  Pro.analyze_intent_with_gpt lib P cfg user_text current_order chat_history s
  = (r, s') → st_session s' = st_session s ∧ is_ok r = true.
Proof.
  destruct (pro_extractor_frame lib P cfg user_text current_order chat_history s)
    as (l & reply & s'' & -> & [Hs _] & _).
  by intros [= <- <-].
Qed.

Lemma set_price_session (l : nat) (s s' : state) (r : result unit) :
  Pro.set_price l s = (r, s') → st_session s' = st_session s.
Proof.
  unfold Pro.set_price. unfold_m. cbv beta.
  destruct (Pro.calculate_price _); by intros [= <- <-].
Qed.

Lemma design_brief_session (P : provider) (cfg : config)
    (user_prompt system_prompt : pystr) (image_b64 : option pystr)
    (filling : value) (s s' : state) (r : result pystr) :
  Pro.request_design_brief P cfg user_prompt system_prompt image_b64 filling s
  = (r, s') → st_session s' = st_session s.
Proof.
  unfold Pro.request_design_brief. unfold_m. cbv beta.
  repeat case_match; by intros [= <- <-].
Qed.

Lemma design_image_session (lib : pylib) (P : provider) (cfg : config)
    (depth : nat) (prompt model : pystr) (s s' : state)
    (r : result (option (list Byte.byte))) :
  Pro.request_design_image lib P cfg depth prompt model s = (r, s') →
  st_session s' = st_session s.
Proof.
  revert model s s' r. induction depth as [|depth IH]; intros model s s' r.
  - cbn [Pro.request_design_image]. unfold raise. by intros [= <- <-].
  - cbn [Pro.request_design_image]. unfold_m. cbv beta.
    repeat case_match; simplify_eq; proj_state;
      try (by intros [= <- <-]).
    intros Hrec. by apply IH in Hrec.
Qed.

Ltac session_facts :=
  repeat match goal with
    | H : Pro.request_design_brief _ _ _ _ _ _ _ = (_, _) |- _ =>
      apply design_brief_session in H
    | H : Pro.request_design_image _ _ _ _ _ _ _ = (_, _) |- _ =>
      apply design_image_session in H
    | H : Pro.set_price _ _ = (_, _) |- _ => apply set_price_session in H
    | H : Pro.analyze_intent_with_gpt _ _ _ _ _ _ _ = (_, _) |- _ =>
      apply pro_extractor_session in H; destruct H as [H _]
    end.

Lemma auto_design_frame (lib : pylib) (P : provider) (cfg : config)
    (prompt : pystr) (ai_res : value) (s s' : state) (r : result value) :
  Pro.auto_design lib P cfg prompt ai_res s = (r, s') →
  chat_frame (st_session s) (st_session s').
Proof.
  unfold Pro.auto_design. unfold_m. cbv beta.
  repeat (case_match; cbv beta in * ); intros Hend;
    try (injection Hend as <- <-); simplify_eq; session_facts; proj_state.
  all: unfold chat_frame.
  all: repeat match goal with
         | H : st_session _ = _ |- _ => rewrite H; clear H; proj_state
         end.
  all: by repeat split.
Qed.

Lemma pending_reply_frame (lib : pylib) (P : provider) (cfg : config)
    (prompt : pystr) (s s' : state) (r : result value) :
  Pro.process_pending_reply lib P cfg prompt s = (r, s') →
  chat_frame (st_session s) (st_session s').
Proof.
  unfold Pro.process_pending_reply. unfold_m. cbv beta.
  repeat (case_match; cbv beta in * ); intros Hend;
    try (injection Hend as <- <-); simplify_eq; session_facts; proj_state.
  all: try match goal with
         | H : Pro.auto_design _ _ _ _ _ _ = (_, _) |- _ =>
           apply auto_design_frame in H; proj_state;
           eapply chat_frame_trans; [|exact H]
         end.
  all: unfold chat_frame.
  all: repeat match goal with
         | H : st_session _ = _ |- _ => rewrite H; clear H; proj_state
         end.
  all: by repeat split.
Qed.

(** * The stored price on the paths where pricing returns *)

Lemma set_price_ok_in_sync (l : nat) (s s' : state) :
  Pro.set_price l s = (Ok tt, s') → is_Some (deref s l) →
  st_session s' = st_session s
  ∧ ∃ (d : dict) (p : Z),
      deref s' l = Some d ∧ d !! k_price = Some (VInt p)
      ∧ Pro.calculate_price d = Ok p.
Proof.
  intros Hrun [d Hd].
  destruct (Pro.calculate_price d) as [p|e] eqn:Hp.
  - destruct (set_price_in_sync l s d p Hd Hp) as (s'' & Hrun' & Hd' & Hp').
    rewrite Hrun in Hrun'. injection Hrun' as <-.
    split; [by eapply set_price_session|].
    exists (<[k_price := VInt p]> d), p.
    split; [done|]. split; [apply lookup_insert_eq | done].
  - rewrite (set_price_raises l s d e Hd Hp) in Hrun. discriminate Hrun.
Qed.

Lemma design_brief_heap (P : provider) (cfg : config)
    (user_prompt system_prompt : pystr) (image_b64 : option pystr)
    (filling : value) (s s' : state) (r : result pystr) :
  Pro.request_design_brief P cfg user_prompt system_prompt image_b64 filling s
  = (r, s') → st_heap s' = st_heap s.
Proof.
  unfold Pro.request_design_brief. unfold_m. cbv beta.
  repeat case_match; by intros [= <- <-].
Qed.

Lemma design_image_heap (lib : pylib) (P : provider) (cfg : config)
    (depth : nat) (prompt model : pystr) (s s' : state)
    (r : result (option (list Byte.byte))) :
  Pro.request_design_image lib P cfg depth prompt model s = (r, s') →
  st_heap s' = st_heap s.
Proof.
  revert model s s' r. induction depth as [|depth IH]; intros model s s' r.
  - cbn [Pro.request_design_image]. unfold raise. by intros [= <- <-].
  - cbn [Pro.request_design_image]. unfold_m. cbv beta.
    repeat case_match; simplify_eq; proj_state;
      try (by intros [= <- <-]).
    intros Hrec. by apply IH in Hrec.
Qed.

(** The automatic design leaves the stored price in step with the
    order, when it returns. *)
Lemma auto_design_in_sync (lib : pylib) (P : provider) (cfg : config)
    (prompt : pystr) (ai_res v : value) (s s' : state) :
  Pro.auto_design lib P cfg prompt ai_res s = (Ok v, s') →
  price_in_sync s → price_in_sync s'.
Proof.
  unfold Pro.auto_design. intros Hrun Hsync.
  unfold mbind at 1, M_bind at 1, get_session in Hrun. cbv beta in Hrun.
  unfold mbind at 1, M_bind at 1, read in Hrun. cbv beta in Hrun.
  unfold mbind at 1, M_bind at 1 in Hrun.
  destruct (Pro.request_design_brief _ _ _ _ _ _ s) as [[brief|e] s1] eqn:Hb;
    [|discriminate Hrun].
  unfold mbind at 1, M_bind at 1 in Hrun.
  destruct (Pro.request_design_image _ _ _ _ _ _ s1) as [[img|e] s2] eqn:Hi;
    [|discriminate Hrun].
  pose proof (design_brief_heap _ _ _ _ _ _ _ _ _ Hb) as Hh1.
  pose proof (design_brief_session _ _ _ _ _ _ _ _ _ Hb) as Hs1.
  pose proof (design_image_heap _ _ _ _ _ _ _ _ _ Hi) as Hh2.
  pose proof (design_image_session _ _ _ _ _ _ _ _ _ Hi) as Hs2.
  assert (price_in_sync s2) as Hsync2.
  { unfold price_in_sync, session_order, deref in *.
    by rewrite Hs2, Hs1, Hh2, Hh1. }
  destruct img as [[|b bs]|].
  - unfold_m. cbv beta in Hrun. by destruct (str_add _ ai_res); simplify_eq.
  - unfold mbind at 1, M_bind at 1, set_session in Hrun. cbv beta in Hrun.
    unfold mbind at 1, M_bind at 1 in Hrun.
    match type of Hrun with
    | context [setitem ?l ?k ?x ?st] =>
      destruct (setitem l k x st) as [[[]|e] s3] eqn:Hset
    end; [|discriminate Hrun].
    unfold mbind at 1, M_bind at 1 in Hrun.
    match type of Hrun with
    | context [Pro.set_price ?l ?st] =>
      destruct (Pro.set_price l st) as [[[]|e] s4] eqn:Hprice
    end; [|discriminate Hrun].
    unfold mret, M_ret in Hrun. injection Hrun as _ <-.
    destruct Hsync2 as (d & p & Hd & _).
    unfold setitem in Hset. unfold_m. cbv beta in Hset. proj_state.
    injection Hset as <-.
    unfold session_order, deref in Hd. rewrite Hs2, Hs1 in Hd.
    apply set_price_ok_in_sync in Hprice.
    + destruct Hprice as (Hs4 & d' & p' & Hd' & Hp').
      exists d', p'. unfold session_order. rewrite Hs4. proj_state.
      cbn [order with_generated_design_image]. by rewrite Hs2, Hs1.
    + unfold deref. proj_state. rewrite Hd. cbn [default from_option id].
      rewrite list_lookup_insert_eq by (by eapply lookup_lt_Some). by eexists.
  - unfold_m. cbv beta in Hrun. by destruct (str_add _ ai_res); simplify_eq.
Qed.

(** The work of a deferred step leaves the stored price in step with
    the order of the session, when it raises nothing. *)
Lemma deferred_step_in_sync (lib : pylib) (P : provider) (cfg : config)
    (prompt : pystr) (v : value) (s s' : state) :
  Pro.process_pending_reply lib P cfg prompt s = (Ok v, s') →
  is_Some (session_order s) → price_in_sync s'.
Proof.
  unfold Pro.process_pending_reply. intros Hrun Hvalid.
  unfold mbind at 1, M_bind at 1, get_session in Hrun. cbv beta in Hrun.
  unfold mbind at 1, M_bind at 1 in Hrun.
  destruct (pro_extractor_frame lib P cfg prompt (order (st_session s))
              (Pro.clean_history (messages (st_session s))) s)
    as (l & reply & s1 & Hext & [Hs1 Hobj] & Hl).
  rewrite Hext in Hrun.
  unfold mbind at 1, M_bind at 1, set_session in Hrun. cbv beta in Hrun.
  unfold mbind at 1, M_bind at 1 in Hrun.
  match type of Hrun with
  | context [Pro.set_price ?l ?st] =>
    destruct (Pro.set_price l st) as [[[]|e] s2] eqn:Hprice
  end; [|discriminate Hrun].
  apply set_price_ok_in_sync in Hprice.
  - destruct Hprice as (Hs2 & d & p & Hd & Hp). proj_state.
    assert (price_in_sync s2) as Hsync.
    { exists d, p. unfold session_order. by rewrite Hs2. }
    unfold mbind at 1, M_bind at 1, get_session in Hrun. cbv beta in Hrun.
    destruct (auto_generate_design (st_session s2)).
    + by eapply auto_design_in_sync.
    + unfold mret, M_ret in Hrun. by injection Hrun as _ <-.
  - unfold deref. proj_state. destruct Hl as [-> | [_ Hnew]].
    + destruct Hvalid as [d Hd]. exists d. by apply Hobj.
    + exact Hnew.
Qed.

Lemma placeholder_or_append_replaces (history : list message) (u ph : message)
    (text : value) (s : state) :
  messages (st_session s) = history ++ [u; ph] →
  placeholder_or_append (Some (S (length history))) text s
  = (Ok tt,
     {| st_session :=
          with_messages (history ++ [u; Message (msg_role ph) text]) (st_session s);
        st_heap := st_heap s; st_calls := st_calls s |}).
Proof.
  intros Hm. unfold placeholder_or_append. unfold_m. cbv beta. proj_state.
  rewrite Hm. rewrite bool_decide_eq_true_2
    by (rewrite length_app; simpl; lia).
  replace (S (length history)) with (length history + 1)%nat by lia.
  by rewrite alter_app_r.
Qed.

Lemma pending_body_unfold (lib : pylib) (P : provider) (cfg : config)
    (prompt : pystr) (idx : option nat) (s : state) :
  Pro.process_pending_body lib P cfg prompt idx s
  = match Pro.process_pending_reply lib P cfg prompt s with
    | (Ok final_msg, s') => placeholder_or_append idx final_msg s'
    | (Raise e, s') => (Raise e, s')
    end.
Proof. reflexivity. Qed.

(** C3.  In the CHAT phase, entering a chat turn appends the user turn
    and an assistant placeholder to the history and calls no provider;
    the next run replaces the content of the placeholder, at the same
    index and with the assistant role, by the final reply, and leaves
    every other turn as it was; when the work raises an exception, the
    placeholder receives the error message made from it.  The step
    itself raises nothing, and the session is in CHAT with nothing
    pending afterwards. *)
Theorem deferred_processing_protocol (lib : pylib) (P : provider) (cfg : config)
    (prompt : pystr) (s : state) :
  step (st_session s) = CHAT → prompt ≠ [] →
  ∃ (s1 s2 : state) (final : value),
    let history := messages (st_session s) in
    let idx := S (length history) in
    let start := run_state (set_session (with_process_on_next false)) s1 in
    Pro.main_chat_input prompt s = (Ok tt, s1)
    ∧ messages (st_session s1)
      = history ++ [Message user (VStr prompt);
                    Message assistant (VStr Pro.typing_notice)]
    ∧ st_calls s1 = st_calls s
    ∧ process_on_next (st_session s1) = true
    ∧ pending_prompt (st_session s1) = Some prompt
    ∧ pending_placeholder_idx (st_session s1) = Some idx
    ∧ Pro.main_process_pending lib P cfg s1 = (Ok tt, s2)
    ∧ messages (st_session s2)
      = history ++ [Message user (VStr prompt); Message assistant final]
    ∧ (∀ v : value,
         run_result (Pro.process_pending_reply lib P cfg prompt) start = Ok v →
         final = v)
    ∧ (∀ e : exn,
         run_result (Pro.process_pending_body lib P cfg prompt (Some idx)) start
         = Raise e →
         final = VStr (Pro.step_error_prefix ++ exn_str e))
    ∧ step (st_session s2) = CHAT
    ∧ process_on_next (st_session s2) = false
    ∧ pending_prompt (st_session s2) = None
    ∧ pending_placeholder_idx (st_session s2) = None.
Proof.
  intros Hstep Hprompt. destruct prompt as [|c prompt]; [done|].
  set (p := c :: prompt) in *.
  set (history := messages (st_session s)).
  set (turns := [Message user (VStr p); Message assistant (VStr Pro.typing_notice)]).
  set (s1 := {| st_session :=
                  with_process_on_next true
                    (with_pending (Some p) (Some (S (length history)))
                       (with_messages (history ++ turns) (st_session s)));
                st_heap := st_heap s; st_calls := st_calls s |}).
  assert (Pro.main_chat_input p s = (Ok tt, s1)) as Hsubmit.
  { unfold Pro.main_chat_input. unfold_m. cbv beta. proj_state. rewrite Hstep.
    unfold p at 1. proj_state. unfold s1, turns, history.
    cbn [messages with_messages with_pending with_process_on_next step order
         uploaded_img last_img generated_design_image auto_generate_design
         process_on_next pending_prompt pending_placeholder_idx].
    rewrite length_app. cbn [length]. rewrite Nat.add_1_r, <- app_assoc.
    reflexivity. }
  set (start := run_state (set_session (with_process_on_next false)) s1).
  assert (messages (st_session start) = history ++ turns
          ∧ step (st_session start) = CHAT
          ∧ process_on_next (st_session start) = false) as (Hm0 & Hs0 & Hp0)
    by (by repeat split).
  destruct (Pro.process_pending_reply lib P cfg p start) as [r sb] eqn:Hreply.
  destruct (pending_reply_frame _ _ _ _ _ _ _ Hreply) as (Hm & Hs & Hp).
  rewrite Hm0 in Hm. rewrite Hs0 in Hs. rewrite Hp0 in Hp.
  set (final := match r with
                | Ok v => v
                | Raise e => VStr (Pro.step_error_prefix ++ exn_str e)
                end).
  set (s2 := {| st_session :=
                  with_pending None None
                    (with_messages
                       (history ++ [Message user (VStr p); Message assistant final])
                       (st_session sb));
                st_heap := st_heap sb; st_calls := st_calls sb |}).
  assert (Pro.main_process_pending lib P cfg s1 = (Ok tt, s2)) as Hrun.
  { unfold Pro.main_process_pending.
    change (mbind ?f get_session s1) with (f (st_session s1) s1).
    cbn [st_session s1 process_on_next with_process_on_next with_pending
         pending_prompt pending_placeholder_idx]. cbv beta.
    change (mbind ?f (set_session (with_process_on_next false)) s1)
      with (f tt start).
    cbv beta. cbn [default from_option id].
    unfold mbind at 1, M_bind at 1, try_except.
    rewrite pending_body_unfold, Hreply.
    destruct r as [v|e];
      rewrite (placeholder_or_append_replaces history _ _ _ sb Hm);
      reflexivity. }
  exists s1, s2, final. cbv zeta. fold history. fold start.
  split; [exact Hsubmit|]. do 5 (split; [reflexivity|]).
  split; [exact Hrun|]. split; [reflexivity|].
  unfold run_result. split; [|split].
  - intros v. rewrite Hreply. cbn [fst]. intros [= ->]. reflexivity.
  - intros e. rewrite pending_body_unfold, Hreply. destruct r as [v|e'].
    + rewrite (placeholder_or_append_replaces history _ _ _ sb Hm). done.
    + cbn [fst]. intros [= ->]. reflexivity.
  - unfold s2. cbn [st_session step with_pending with_messages process_on_next
                    pending_prompt pending_placeholder_idx]. by repeat split.
Qed.

Lemma deferred_processing_protocol_witness :
  step (st_session pro_chat_started) = CHAT
  ∧ py "change the design to C" ≠ []
  ∧ ∃ (s1 s2 : state) (final : value),
      Pro.main_chat_input (py "change the design to C") pro_chat_started
      = (Ok tt, s1)
      ∧ st_calls s1 = st_calls pro_chat_started
      ∧ Pro.main_process_pending Sample.lib provider_C Sample.with_key s1
        = (Ok tt, s2)
      ∧ messages (st_session s2)
        = messages (st_session pro_chat_started)
          ++ [Message user (VStr (py "change the design to C"));
              Message assistant final]
      ∧ step (st_session s2) = CHAT.
Proof.
  assert (step (st_session pro_chat_started) = CHAT) as Hstep
    by (vm_compute; reflexivity).
  assert (py "change the design to C" ≠ []) as Hprompt
    by (intros H; vm_compute in H; discriminate H).
  split; [exact Hstep|]. split; [exact Hprompt|].
  destruct (deferred_processing_protocol Sample.lib provider_C Sample.with_key
              (py "change the design to C") pro_chat_started Hstep Hprompt)
    as (s1 & s2 & final & H1 & _ & H3 & _ & _ & _ & H7 & H8 & _ & _ & H11 & _).
  exists s1, s2, final. repeat split; assumption.
Defined.

(** * Further properties of the pricing function *)


(** X2.  [calculate_price] reads six keys only: two records that agree
    on size, filling, has_image, has_color, object_count and lettering
    are priced alike, by either file, whatever else they hold (a stored
    price, a name, a design text). *)
Theorem calculate_price_reads_six_keys (o1 o2 : dict) :
  (∀ k : pystr, k ∈ priced_keys → o1 !! k = o2 !! k) →
  Pro.calculate_price o1 = Pro.calculate_price o2
  ∧ Basic.calculate_price o1 = Basic.calculate_price o2.
Proof.
  intros H.
  change (Basic.calculate_price o1) with (Pro.calculate_price o1).
  change (Basic.calculate_price o2) with (Pro.calculate_price o2).
  assert (Pro.calculate_price o1 = Pro.calculate_price o2) as ->; [|done].
  unfold Pro.calculate_price, dict_get.
  rewrite (H k_size), (H k_filling), (H k_has_image), (H k_has_color),
    (H k_object_count), (H k_lettering); [done|..];
    unfold priced_keys; set_solver.
Qed.

Lemma calculate_price_reads_six_keys_witness :
  (∀ k : pystr, k ∈ priced_keys →
     <[k_price := VInt 1]> (<[k_name := VStr (py "Lee")]> example_order) !! k
     = example_order !! k)
  ∧ Pro.calculate_price
      (<[k_price := VInt 1]> (<[k_name := VStr (py "Lee")]> example_order))
    = Pro.calculate_price example_order.
Proof.
  assert (∀ k : pystr, k ∈ priced_keys →
            <[k_price := VInt 1]> (<[k_name := VStr (py "Lee")]> example_order) !! k
            = example_order !! k) as H.
  { intros k Hk. unfold priced_keys in Hk.
    rewrite !lookup_insert_ne; [done|..]; intros <-;
      repeat (apply elem_of_cons in Hk as [Hk|Hk]; [discriminate Hk|]);
      by apply elem_of_nil in Hk. }
  split; [exact H|].
  exact (proj1 (calculate_price_reads_six_keys _ _ H)).
Defined.

Lemma price_with_image (o : dict) (b : bool) :
  Pro.calculate_price (with_image b o)
  = p ← Pro.calculate_price (with_image false o);
    Ok (if b then p + 10000 else p).
Proof.
  unfold Pro.calculate_price, with_image, dict_get.
  rewrite !lookup_insert_eq, !lookup_insert_ne by done.
  cbn [default from_option id truthy].
  destruct (table_get Pro.MENU.sizes _) as [base|]; [|done].
  destruct (table_get Pro.MENU.fillings _) as [fill|]; [|done].
  cbn [mbind result_bind].
  destruct (truthy (default VNone (o !! k_has_color)));
    destruct (mul_int _ _) as [objects|]; try done; cbn [mbind result_bind].
  all: destruct objects; try done; cbn [iadd_int mbind result_bind].
  all: destruct (py_len _) as [n|]; [|done]; cbn [mbind result_bind].
  all: destruct b; try done.
  all: unfold Pro.MENU.extras.image, Pro.MENU.base_custom;
    destruct (10 <=? n)%nat; f_equal; lia.
Qed.

(** X3.  Attaching a reference image costs the image fee and nothing
    else: on every record, of any content, if the record without the
    image is priced [p], then the record with the image is priced
    [p + 10000], by either file. *)
Theorem image_costs_its_fee (o : dict) (p : Z) :
  Pro.calculate_price (with_image false o) = Ok p →
  Pro.calculate_price (with_image true o) = Ok (p + 10000)
  ∧ Basic.calculate_price (with_image true o) = Ok (p + 10000).
Proof.
  change (Basic.calculate_price (with_image true o))
    with (Pro.calculate_price (with_image true o)).
  intros Hp. rewrite (price_with_image o true). by rewrite Hp.
Qed.

Lemma image_costs_its_fee_witness :
  Pro.calculate_price (with_image false example_order) = Ok 48500
  ∧ Pro.calculate_price (with_image true example_order) = Ok (48500 + 10000)
  ∧ Basic.calculate_price (with_image true example_order) = Ok (48500 + 10000).
Proof.
  assert (Pro.calculate_price (with_image false example_order) = Ok 48500) as H
    by (vm_compute; reflexivity).
  split; [exact H|]. exact (image_costs_its_fee example_order 48500 H).
Defined.

Lemma table_nonneg (s : pystr) :
  0 ≤ default 0 (Pro.MENU.sizes !! s) ∧ 0 ≤ default 0 (Pro.MENU.fillings !! s).
Proof.
  split.
  - destruct (Pro.MENU.sizes !! s) as [v|] eqn:E; [|done].
    apply elem_of_list_to_map_2 in E. simpl.
    repeat (apply elem_of_cons in E as [E|E]; [injection E as _ ->; lia|]).
    by apply elem_of_nil in E.
  - destruct (Pro.MENU.fillings !! s) as [v|] eqn:E; [|done].
    apply elem_of_list_to_map_2 in E. simpl.
    repeat (apply elem_of_cons in E as [E|E]; [injection E as _ ->; lia|]).
    by apply elem_of_nil in E.
Qed.

(** X4.  The price of an order record of the data model with no
    negative object count is never below the fixed custom fee of 20000;
    the fee alone is charged when nothing else applies.  (The code puts
    no bound on object_count: a negative count lowers the price by 2000
    for each unit.) *)
Theorem price_at_least_custom_fee (o : dict) :
  order_typed o = true → 0 ≤ object_fee o →
  ∃ p : Z,
    Pro.calculate_price o = Ok p ∧ Basic.calculate_price o = Ok p
    ∧ 20000 ≤ p
    ∧ p = 20000 + base_fee o + flavor_fee o + image_fee o + color_fee o
          + object_fee o + long_lettering_fee o.
Proof.
  intros Ht Hn. exists (price_formula o).
  change (Basic.calculate_price o) with (Pro.calculate_price o).
  rewrite (pro_price_typed o Ht). do 2 (split; [done|]).
  unfold price_formula. split; [|lia].
  assert (0 ≤ base_fee o).
  { unfold base_fee, fee_of. destruct (o !! k_size) as [[]|]; try done.
    apply table_nonneg. }
  assert (0 ≤ flavor_fee o).
  { unfold flavor_fee, fee_of. destruct (o !! k_filling) as [[]|]; try done.
    apply table_nonneg. }
  unfold image_fee, color_fee, long_lettering_fee.
  repeat case_match; lia.
Qed.

Lemma price_at_least_custom_fee_witness :
  order_typed example_unknown_order = true
  ∧ 0 ≤ object_fee example_unknown_order
  ∧ Pro.calculate_price example_unknown_order = Ok 20000
  ∧ order_typed (<[k_object_count := VInt (-3)]> example_unknown_order) = true
  ∧ Pro.calculate_price (<[k_object_count := VInt (-3)]> example_unknown_order)
    = Ok 14000.
Proof.
  assert (order_typed example_unknown_order = true) as Ht
    by (vm_compute; reflexivity).
  assert (0 ≤ object_fee example_unknown_order) as Hn
    by (vm_compute; discriminate).
  destruct (price_at_least_custom_fee example_unknown_order Ht Hn)
    as (p & Hp & _ & _ & Heq).
  split; [exact Ht|]. split; [exact Hn|]. split.
  - rewrite Hp, Heq. vm_compute. reflexivity.
  - split; vm_compute; reflexivity.
Defined.

(** * The key *)

Lemma lstrip_nil_iff (s : pystr) : lstrip s = [] ↔ blank s = true.
Proof.
  induction s as [|c r IH]; simpl; [done|].
  destruct (isspace c); simpl; [done|]. split; intros H; discriminate H.
Qed.

Lemma rstrip_nil_iff (s : pystr) : rstrip s = [] ↔ blank s = true.
Proof.
  induction s as [|c r IH]; simpl; [done|].
  destruct (rstrip r) as [|x r'] eqn:E.
  - destruct (isspace c); simpl.
    + split; [intros _; by apply IH | done].
    + split; intros H; discriminate H.
  - split; [intros H; discriminate H|].
    intros [_ H]%andb_true_iff. apply IH in H. discriminate H.
Qed.

Lemma lstrip_head (s : pystr) (c : N) (r : pystr) :
  lstrip s = c :: r → isspace c = false.
Proof.
  induction s as [|x s IH]; simpl; [done|].
  destruct (isspace x) eqn:E; [done|]. by intros [= <- <-].
Qed.

Lemma blank_lstrip (s : pystr) : blank (lstrip s) = blank s.
Proof.
  induction s as [|c r IH]; simpl; [done|].
  destruct (isspace c) eqn:E; simpl; [done|]. by rewrite E.
Qed.

Lemma strip_nil_iff (s : pystr) : strip s = [] ↔ blank s = true.
Proof.
  unfold strip. rewrite rstrip_nil_iff. by rewrite blank_lstrip.
Qed.

(** X5.  [load_api_key] finds no key exactly when the environment
    variable is unset or empty and the key file is missing or holds
    white space only.  A non-empty environment variable always wins,
    stripped, even when it is blank and the file holds a key: the result
    is then the empty string.  A key read from the file is never
    empty. *)
Theorem load_api_key_cases (cfg : config) :
  (load_api_key cfg = None ↔
     (env_key cfg = None ∨ env_key cfg = Some [])
     ∧ (key_file cfg = None ∨ ∃ t, key_file cfg = Some t ∧ blank t = true))
  ∧ (∀ (c : N) (k : pystr),
       env_key cfg = Some (c :: k) →
       load_api_key cfg = Some (strip (c :: k))
       ∧ (blank (c :: k) = true → load_api_key cfg = Some []))
  ∧ (∀ t : pystr,
       (env_key cfg = None ∨ env_key cfg = Some []) → key_file cfg = Some t →
       blank t = false →
       load_api_key cfg = Some (strip t) ∧ strip t ≠ []).
Proof.
  unfold load_api_key. split; [|split].
  - destruct (env_key cfg) as [[|c k]|].
    + destruct (key_file cfg) as [t|].
      * destruct (strip t) eqn:E.
        -- apply strip_nil_iff in E. split; [intros _|done].
           split; [by right|]. right. by exists t.
        -- split; [done|]. intros [_ [H|(t' & [= <-] & H)]]; [done|].
           apply strip_nil_iff in H. congruence.
      * split; [intros _|done]. split; [by right | by left].
    + split; [done|]. intros [[H|H] _]; discriminate H.
    + destruct (key_file cfg) as [t|].
      * destruct (strip t) eqn:E.
        -- apply strip_nil_iff in E. split; [intros _|done].
           split; [by left|]. right. by exists t.
        -- split; [done|]. intros [_ [H|(t' & [= <-] & H)]]; [done|].
           apply strip_nil_iff in H. congruence.
      * split; [intros _|done]. split; by left.
  - intros c k ->. split; [done|]. intros H. apply strip_nil_iff in H.
    by rewrite H.
  - intros t Henv -> Hb.
    assert (strip t ≠ []) as Hne.
    { intros H. apply strip_nil_iff in H. congruence. }
    destruct Henv as [-> | ->]; destruct (strip t) eqn:E; done.
Qed.

(** X6.  app_pro.py has a client exactly when the key material has a
    character that is no white space: in the environment variable when
    it is set and not empty, and in the key file otherwise.  A blank
    environment variable leaves the application without client whatever
    the file holds. *)
Theorem client_iff_key_material (cfg : config) :
  Pro.client cfg = true ↔
    match env_key cfg with
    | Some (c :: k) => blank (c :: k) = false
    | _ =>
      match key_file cfg with
      | Some t => blank t = false
      | None => False
      end
    end.
Proof.
  unfold Pro.client, OPENAI_API_KEY, load_api_key.
  destruct (env_key cfg) as [[|c k]|].
  - destruct (key_file cfg) as [t|]; [|done].
    destruct (strip t) eqn:E.
    + apply strip_nil_iff in E. rewrite E. done.
    + split; [intros _|done]. apply not_true_iff_false. intros H.
      apply strip_nil_iff in H. congruence.
  - destruct (strip (c :: k)) eqn:E.
    + apply strip_nil_iff in E. rewrite E. done.
    + split; [intros _|done]. apply not_true_iff_false. intros H.
      apply strip_nil_iff in H. congruence.
  - destruct (key_file cfg) as [t|]; [|done].
    destruct (strip t) eqn:E.
    + apply strip_nil_iff in E. rewrite E. done.
    + split; [intros _|done]. apply not_true_iff_false. intros H.
      apply strip_nil_iff in H. congruence.
Qed.

(** * The brace span *)

Lemma from_first_app (c : N) (pre r : pystr) :
  c ∉ pre → from_first c (pre ++ c :: r) = Some (c :: r).
Proof.
  induction pre as [|x pre IH]; simpl; intros Hpre.
  - by rewrite N.eqb_refl.
  - apply not_elem_of_cons in Hpre as [Hx Hpre].
    destruct (N.eqb_spec x c) as [->|_]; [done|]. by apply IH.
Qed.

Lemma from_first_some (c : N) (s t : pystr) :
  from_first c s = Some t →
  ∃ pre r, s = pre ++ c :: r ∧ t = c :: r ∧ c ∉ pre.
Proof.
  induction s as [|x s IH]; simpl; [done|].
  destruct (N.eqb_spec x c) as [->|Hx].
  - intros [= <-]. exists [], s. repeat split. apply not_elem_of_nil.
  - intros (pre & r & -> & -> & Hpre)%IH. exists (x :: pre), r.
    repeat split. apply not_elem_of_cons. split; [congruence|done].
Qed.

Lemma upto_last_none (c : N) (s : pystr) : c ∉ s → upto_last c s = None.
Proof.
  induction s as [|x s IH]; simpl; [done|].
  intros [Hx Hs]%not_elem_of_cons. rewrite (IH Hs).
  destruct (N.eqb_spec x c) as [->|_]; done.
Qed.

Lemma upto_last_app (c : N) (body post : pystr) :
  c ∉ post → upto_last c (body ++ c :: post) = Some (body ++ [c]).
Proof.
  intros Hpost. induction body as [|x body IH]; simpl.
  - by rewrite (upto_last_none c post Hpost), N.eqb_refl.
  - by rewrite IH.
Qed.

Lemma upto_last_some (c : N) (s p : pystr) :
  upto_last c s = Some p →
  ∃ body post, p = body ++ [c] ∧ s = p ++ post ∧ c ∉ post.
Proof.
  revert p. induction s as [|x s IH]; simpl; intros p; [done|].
  destruct (upto_last c s) as [q|] eqn:E.
  - intros [= <-]. destruct (IH q eq_refl) as (body & post & -> & -> & Hpost).
    exists (x :: body), post. by repeat split.
  - destruct (N.eqb_spec x c) as [->|_]; [|done]. intros [= <-].
    exists [], s. repeat split.
    intros Hin. clear IH. induction s as [|y s IHs]; simpl in *.
    + by apply not_elem_of_nil in Hin.
    + destruct (upto_last c s); [done|].
      destruct (N.eqb_spec y c) as [->|Hy]; [done|].
      apply elem_of_cons in Hin as [->|Hin]; [done|]. by apply IHs.
Qed.

(** X7.  The span that the extractors cut out of a reply with
    [re.search(r"\{.*\}", s, re.DOTALL)] runs from the first opening
    brace of the text to its last closing brace: the match is [m]
    exactly when the text is [pre ++ m ++ post] with [m] an opening
    brace, a body and a closing brace, no opening brace in [pre] and no
    closing brace in [post]. *)
Theorem brace_span_is_outermost (s m : pystr) :
  re_search_braces s = Some m ↔
    ∃ pre body post,
      s = pre ++ (m ++ post)
      ∧ m = open_brace :: body ++ [close_brace]
      ∧ (open_brace ∉ pre) ∧ (close_brace ∉ post).
Proof.
  unfold re_search_braces. split.
  - destruct (from_first open_brace s) as [[|o r]|] eqn:E; [done| |done].
    apply from_first_some in E as (pre & r' & -> & [= -> <-] & Hpre).
    destruct (upto_last close_brace r) as [p|] eqn:E2; [|done].
    intros [= <-].
    apply upto_last_some in E2 as (body & post & -> & -> & Hpost).
    exists pre, body, post. by repeat split.
  - intros (pre & body & post & -> & -> & Hpre & Hpost).
    change ((open_brace :: body ++ [close_brace]) ++ post)
      with (open_brace :: (body ++ [close_brace]) ++ post).
    rewrite (from_first_app _ _ _ Hpre).
    rewrite <- app_assoc. simpl.
    by rewrite (upto_last_app _ _ _ Hpost).
Qed.

(** X8.  On the code fence the two files differ only when the fenced
    reply has no brace span: app_basic.py then fails with an
    AttributeError on [None.group()], app_pro.py keeps the text.
    Whenever app_basic.py yields a text, app_pro.py yields the same. *)
Theorem unfence_agrees_unless_no_span (content : pystr) :
  (∀ m, Basic.unfence content = Ok m → Pro.unfence content = m)
  ∧ (is_ok (Basic.unfence content) = false
     ↔ contains code_fence content = true ∧ re_search_braces content = None)
  ∧ (is_ok (Basic.unfence content) = false →
     Basic.unfence content = Raise (attribute_error VNone (py "group"))
     ∧ Pro.unfence content = content).
Proof.
  unfold Basic.unfence, Pro.unfence.
  destruct (contains code_fence content);
    destruct (re_search_braces content); simpl; repeat split;
    try done; try (by intros ? [= <-]); try (by intros [? ?]).
Qed.

(** * The extractor *)

Lemma recent_short (h : list message) : (length (recent h) ≤ 5)%nat.
Proof.
  unfold recent. destruct (Nat.ltb_spec 5 (length h)) as [H|H].
  - rewrite length_drop. lia.
  - lia.
Qed.

Lemma recent_suffix (h : list message) : ∃ older, h = older ++ recent h.
Proof.
  unfold recent. destruct (5 <? length h)%nat.
  - exists (take (length h - 5) h). by rewrite take_drop.
  - by exists [].
Qed.

(** X9.  One run of the extractor sends at most one request to the
    model, and that request carries the order as it is at the call and
    the last five turns of the history, or all of them when there are
    fewer.  app_pro.py sends it when it has a client and the Responses
    API, app_basic.py when its key contains sk-; otherwise nothing is
    sent. *)
Theorem extractor_sends_one_request (lib : pylib) (P : provider) (cfg : config)
    (user_text : pystr) (current_order : nat) (chat_history : list message)
    (s : state) :
  (length (recent chat_history) ≤ 5)%nat
  ∧ (∃ older, chat_history = older ++ recent chat_history)
  ∧ st_calls (run_state (Pro.analyze_intent_with_gpt lib P cfg user_text
                           current_order chat_history) s)
    = st_calls s ++
      (if Pro.client cfg && sdk_responses cfg
       then [CallResponses (Pro.intent_request (default ∅ (deref s current_order))
                              (recent chat_history) user_text)]
       else [])
  ∧ st_calls (run_state (Basic.analyze_intent_with_gpt lib P cfg user_text
                           current_order chat_history) s)
    = st_calls s ++
      match Basic.key_lacks_sk cfg with
      | Ok false =>
        [CallChat (Basic.intent_request (default ∅ (deref s current_order))
                     (recent chat_history) user_text)]
      | _ => []
      end.
Proof.
  split; [apply recent_short|]. split; [apply recent_suffix|].
  unfold run_state, deref. split.
  - unfold Pro.analyze_intent_with_gpt, Pro.merge_result, Pro.HAS_RESPONSES_API.
    destruct (Pro.client cfg); simpl negb; cbv iota; [|by rewrite app_nil_r].
    destruct (sdk_responses cfg); simpl andb; cbv iota.
    + unfold_m; cbv beta.
      repeat (case_match; cbv beta in * ); simplify_eq; proj_state; done.
    + unfold_m; cbv beta. proj_state. by rewrite app_nil_r.
  - unfold Basic.analyze_intent_with_gpt.
    destruct (Basic.key_lacks_sk cfg) as [[|]|e].
    + unfold_m; cbv beta. proj_state. by rewrite app_nil_r.
    + unfold_m; cbv beta.
      repeat (case_match; cbv beta in * ); simplify_eq; proj_state; done.
    + unfold_m; cbv beta. proj_state. by rewrite app_nil_r.
Qed.

Lemma pro_extractor_decoded (lib : pylib) (P : provider) (cfg : config)
    (user_text : pystr) (current_order : nat) (chat_history : list message)
    (s : state) (response : response) (text : pystr) (v : value) :
  Pro.client cfg = true → sdk_responses cfg = true →
  responses_create P (st_calls s)
    (Pro.intent_request (default ∅ (deref s current_order))
       (recent chat_history) user_text) = Ok response →
  Pro.extract_output_text response = Ok text →
  pro_parses lib (Pro.unfence (strip (strip text))) v →
  Pro.analyze_intent_with_gpt lib P cfg user_text current_order chat_history s
  = try_except (Pro.merge_result lib current_order v)
      (λ e, mret (current_order, VStr (Pro.error_prefix ++ exn_str e)))
      (after_pro_request s current_order chat_history user_text).
Proof.
  intros Hc Hsdk Hresp Htext Hparse.
  unfold Pro.analyze_intent_with_gpt, Pro.HAS_RESPONSES_API, after_pro_request.
  rewrite Hc, Hsdk. cbn [negb andb]. unfold deref in *.
  unfold try_except at 1. unfold mbind at 1, M_bind at 1.
  unfold read at 1. unfold mbind at 1, M_bind at 1. unfold call_responses, log_call.
  proj_state. rewrite Hresp. unfold mbind at 1, M_bind at 1. unfold lift at 1.
  rewrite Htext.
  destruct Hparse as [Hj | [Hj (m & Hm1 & Hm2)]].
  - rewrite Hj. reflexivity.
  - destruct (json_loads lib (Pro.unfence (strip (strip text)))); [done|].
    rewrite Hm1, Hm2. reflexivity.
Qed.

Lemma basic_extractor_decoded (lib : pylib) (P : provider) (cfg : config)
    (user_text : pystr) (current_order : nat) (chat_history : list message)
    (s : state) (response : chat_completion) (v : value) :
  Basic.key_lacks_sk cfg = Ok false →
  chat_completions_create P (st_calls s)
    (Basic.intent_request (default ∅ (deref s current_order))
       (recent chat_history) user_text) = Ok response →
  basic_decode lib response = Ok v →
  Basic.analyze_intent_with_gpt lib P cfg user_text current_order chat_history s
  = try_except
      (cur ← read current_order;
       new_order ← alloc cur;
       r ← lift (get_method v);
       _ ← (if truthy (dict_get r (py "updated_order") VNone)
            then d ← read new_order;
                 d' ← lift (dict_update lib d (dict_get r (py "updated_order") VNone));
                 store new_order d'
            else mret tt);
       reply ← lift (dict_getitem r (py "response_message"));
       mret (new_order, reply))
      (λ e, mret (current_order, VStr (Basic.error_prefix ++ exn_str e)))
      (after_basic_request s current_order chat_history user_text).
Proof.
  intros Hkey Hresp Hdec.
  unfold Basic.analyze_intent_with_gpt, after_basic_request, basic_decode,
    deref in *.
  unfold_m. cbv beta. rewrite Hkey. proj_state. rewrite Hresp.
  destruct (Basic.response_content response) as [c|]; [|done].
  destruct (Basic.unfence c) as [c'|]; [|done].
  rewrite Hdec. reflexivity.
Qed.

Lemma pro_merge_non_object (lib : pylib) (l : nat) (v : value) (s : state) :
  (∀ r, v ≠ VDict r) →
  Pro.merge_result lib l v s
  = (Raise (attribute_error v (py "get")),
     {| st_session := st_session s;
        st_heap := st_heap s ++ [default ∅ (deref s l)];
        st_calls := st_calls s |}).
Proof.
  intros Hv. unfold Pro.merge_result, deref. unfold_m. cbv beta. proj_state.
  destruct v; try reflexivity. by destruct (Hv d).
Qed.

Lemma objects_unchanged_alloc (s : state) (d : dict) (calls : list call) :
  objects_unchanged s
    {| st_session := st_session s; st_heap := st_heap s ++ [d];
       st_calls := calls |}.
Proof.
  split; [done|]. intros l d' Hl. unfold deref in *. proj_state.
  by apply deref_app_l.
Qed.

(** X10.  When the model cannot be reached, or the call fails in any
    other way, the extractor of either file returns the order it was
    given and a reply made of the error prefix and the text of the
    exception; the session and the orders are as before, and the one
    call is on the log. *)
Theorem provider_failure_becomes_reply (lib : pylib) (P : provider) (cfg : config)
    (user_text : pystr) (current_order : nat) (chat_history : list message)
    (s : state) (e : exn) :
  (Pro.client cfg = true → sdk_responses cfg = true →
   responses_create P (st_calls s)
     (Pro.intent_request (default ∅ (deref s current_order))
        (recent chat_history) user_text) = Raise e →
   Pro.analyze_intent_with_gpt lib P cfg user_text current_order chat_history s
   = (Ok (current_order, VStr (Pro.error_prefix ++ exn_str e)),
      after_pro_request s current_order chat_history user_text))
  ∧ (Basic.key_lacks_sk cfg = Ok false →
     chat_completions_create P (st_calls s)
       (Basic.intent_request (default ∅ (deref s current_order))
          (recent chat_history) user_text) = Raise e →
     Basic.analyze_intent_with_gpt lib P cfg user_text current_order
       chat_history s
     = (Ok (current_order, VStr (Basic.error_prefix ++ exn_str e)),
        after_basic_request s current_order chat_history user_text)).
Proof.
  split.
  - intros Hc Hsdk Hresp.
    unfold Pro.analyze_intent_with_gpt, Pro.HAS_RESPONSES_API, after_pro_request,
      deref in *.
    rewrite Hc, Hsdk. cbn [negb andb]. unfold_m. cbv beta. proj_state.
    by rewrite Hresp.
  - intros Hkey Hresp.
    unfold Basic.analyze_intent_with_gpt, after_basic_request, deref in *.
    unfold_m. cbv beta. rewrite Hkey. proj_state. by rewrite Hresp.
Qed.

Lemma provider_failure_becomes_reply_witness :
  Pro.analyze_intent_with_gpt Sample.lib provider_offline Sample.with_key
    (py "hi") 0%nat [] Sample.fresh
  = (Ok (0%nat, VStr (Pro.error_prefix ++ exn_str connection_error)),
     after_pro_request Sample.fresh 0%nat [] (py "hi"))
  ∧ Basic.analyze_intent_with_gpt Sample.lib provider_offline Sample.with_key
      (py "hi") 0%nat [] Sample.fresh
    = (Ok (0%nat, VStr (Basic.error_prefix ++ exn_str connection_error)),
       after_basic_request Sample.fresh 0%nat [] (py "hi")).
Proof.
  split.
  - apply (proj1 (provider_failure_becomes_reply Sample.lib provider_offline
                    Sample.with_key (py "hi") 0%nat [] Sample.fresh
                    connection_error)).
    + vm_compute; reflexivity.
    + reflexivity.
    + reflexivity.
  - apply (proj2 (provider_failure_becomes_reply Sample.lib provider_offline
                    Sample.with_key (py "hi") 0%nat [] Sample.fresh
                    connection_error)).
    + vm_compute; reflexivity.
    + reflexivity.
Defined.

(** X11.  A reply that decodes to JSON which is no object (a number, a
    string, a list) makes [result.get] fail; either extractor reports
    the AttributeError in its reply and returns the order it was given.
    The session and every existing order are unchanged. *)
Theorem non_object_reply_is_reported (lib : pylib) (P : provider) (cfg : config)
    (user_text : pystr) (current_order : nat) (chat_history : list message)
    (s : state) (v : value) :
  (∀ r, v ≠ VDict r) →
  (∀ (response : response) (text : pystr),
     Pro.client cfg = true → sdk_responses cfg = true →
     responses_create P (st_calls s)
       (Pro.intent_request (default ∅ (deref s current_order))
          (recent chat_history) user_text) = Ok response →
     Pro.extract_output_text response = Ok text →
     pro_parses lib (Pro.unfence (strip (strip text))) v →
     ∃ (s' : state),
       Pro.analyze_intent_with_gpt lib P cfg user_text current_order
         chat_history s
       = (Ok (current_order,
              VStr (Pro.error_prefix ++ exn_str (attribute_error v (py "get")))),
          s')
       ∧ objects_unchanged s s')
  ∧ (∀ (response : chat_completion),
       Basic.key_lacks_sk cfg = Ok false →
       chat_completions_create P (st_calls s)
         (Basic.intent_request (default ∅ (deref s current_order))
            (recent chat_history) user_text) = Ok response →
       basic_decode lib response = Ok v →
       ∃ (s' : state),
         Basic.analyze_intent_with_gpt lib P cfg user_text current_order
           chat_history s
         = (Ok (current_order,
                VStr (Basic.error_prefix
                      ++ exn_str (attribute_error v (py "get")))),
            s')
         ∧ objects_unchanged s s').
Proof.
  intros Hv. split.
  - intros response text Hc Hsdk Hresp Htext Hparse.
    rewrite (pro_extractor_decoded _ _ _ _ _ _ _ _ _ _ Hc Hsdk Hresp Htext Hparse).
    unfold try_except. rewrite (pro_merge_non_object _ _ _ _ Hv).
    eexists. split; [reflexivity|].
    unfold after_pro_request. proj_state. apply objects_unchanged_alloc.
  - intros response Hkey Hresp Hdec.
    rewrite (basic_extractor_decoded _ _ _ _ _ _ _ _ _ Hkey Hresp Hdec).
    unfold after_basic_request. unfold_m. cbv beta. proj_state.
    destruct v; try (eexists; split; [reflexivity|];
                    apply objects_unchanged_alloc).
    by destruct (Hv d).
Qed.

Lemma non_object_reply_is_reported_witness :
  (∃ (s' : state),
     Pro.analyze_intent_with_gpt Sample.lib (provider_says (py "42"))
       Sample.with_key (py "hi") 0%nat [] Sample.fresh
     = (Ok (0%nat,
            VStr (Pro.error_prefix
                  ++ exn_str (attribute_error (VInt 42) (py "get")))),
        s')
     ∧ objects_unchanged Sample.fresh s')
  ∧ (∃ (s' : state),
       Basic.analyze_intent_with_gpt Sample.lib (provider_says (py "42"))
         Sample.with_key (py "hi") 0%nat [] Sample.fresh
       = (Ok (0%nat,
              VStr (Basic.error_prefix
                    ++ exn_str (attribute_error (VInt 42) (py "get")))),
          s')
       ∧ objects_unchanged Sample.fresh s').
Proof.
  assert (∀ r : dict, VInt 42 ≠ VDict r) as Hv by (intros r H; discriminate H).
  split.
  - apply (proj1 (non_object_reply_is_reported Sample.lib (provider_says (py "42"))
                    Sample.with_key (py "hi") 0%nat [] Sample.fresh (VInt 42) Hv)
                 (Sample.text_response (py "42")) (py "42")).
    + vm_compute; reflexivity.
    + reflexivity.
    + reflexivity.
    + vm_compute; reflexivity.
    + left. vm_compute; reflexivity.
  - apply (proj2 (non_object_reply_is_reported Sample.lib (provider_says (py "42"))
                    Sample.with_key (py "hi") 0%nat [] Sample.fresh (VInt 42) Hv)
                 [Some (py "42")]).
    + vm_compute; reflexivity.
    + reflexivity.
    + vm_compute; reflexivity.
Defined.

Lemma pro_merge_no_patch (lib : pylib) (l : nat) (r : dict) (s : state) :
  truthy (dict_get r (py "updated_order") VNone) = false →
  Pro.merge_result lib l (VDict r) s
  = (Ok (length (st_heap s),
         dict_get r (py "response_message") (VStr Pro.default_response_message)),
     {| st_session := st_session s;
        st_heap := st_heap s ++ [default ∅ (deref s l)];
        st_calls := st_calls s |}).
Proof.
  intros Ht. unfold Pro.merge_result, deref. unfold_m. cbv beta. proj_state.
  cbn [get_method]. by rewrite Ht.
Qed.

Lemma pro_merge_patch (lib : pylib) (l : nat) (r patch : dict) (s : state) :
  r !! py "updated_order" = Some (VDict patch) →
  Pro.merge_result lib l (VDict r) s
  = (Ok (length (st_heap s),
         dict_get r (py "response_message") (VStr Pro.default_response_message)),
     {| st_session := st_session s;
        st_heap := st_heap s ++ [patch ∪ default ∅ (deref s l)];
        st_calls := st_calls s |}).
Proof.
  intros Hpatch. unfold Pro.merge_result, deref. unfold_m. cbv beta. proj_state.
  cbn [get_method]. unfold dict_get at 1 2. rewrite Hpatch.
  cbn [default from_option id].
  destruct (truthy (VDict patch)) eqn:Ht; proj_state.
  - rewrite deref_end. cbn [dict_update default from_option id].
    by rewrite insert_end_eq.
  - by rewrite <- (truthy_dict_union patch _ Ht).
Qed.

Lemma objects_unchanged_alloc_end (s : state) (d : dict) (calls : list call) :
  let s' := {| st_session := st_session s; st_heap := st_heap s ++ [d];
               st_calls := calls |} in
  objects_unchanged s s' ∧ deref s' (length (st_heap s)) = Some d.
Proof.
  split; [apply objects_unchanged_alloc|]. unfold deref. proj_state.
  apply deref_end.
Qed.

(** X12.  A reply that is a JSON object without [updated_order], or with
    one that is [null], empty, [false] or [0], changes nothing in the
    order: either extractor returns a new object with the content of the
    order it was given.  app_pro.py answers with the reply's
    [response_message], or with its stock sentence when there is none;
    app_basic.py answers with the reply's [response_message]. *)
Theorem reply_without_patch_copies_order (lib : pylib) (P : provider)
    (cfg : config) (user_text : pystr) (current_order : nat)
    (chat_history : list message) (s : state) (r : dict) :
  truthy (dict_get r (py "updated_order") VNone) = false →
  (∀ (response : response) (text : pystr),
     Pro.client cfg = true → sdk_responses cfg = true →
     responses_create P (st_calls s)
       (Pro.intent_request (default ∅ (deref s current_order))
          (recent chat_history) user_text) = Ok response →
     Pro.extract_output_text response = Ok text →
     pro_parses lib (Pro.unfence (strip (strip text))) (VDict r) →
     ∃ (s' : state),
       Pro.analyze_intent_with_gpt lib P cfg user_text current_order
         chat_history s
       = (Ok (length (st_heap s),
              dict_get r (py "response_message")
                (VStr Pro.default_response_message)), s')
       ∧ objects_unchanged s s'
       ∧ deref s' (length (st_heap s)) = Some (default ∅ (deref s current_order)))
  ∧ (∀ (response : chat_completion) (reply : value),
       Basic.key_lacks_sk cfg = Ok false →
       chat_completions_create P (st_calls s)
         (Basic.intent_request (default ∅ (deref s current_order))
            (recent chat_history) user_text) = Ok response →
       basic_decode lib response = Ok (VDict r) →
       r !! py "response_message" = Some reply →
       ∃ (s' : state),
         Basic.analyze_intent_with_gpt lib P cfg user_text current_order
           chat_history s = (Ok (length (st_heap s), reply), s')
         ∧ objects_unchanged s s'
         ∧ deref s' (length (st_heap s))
           = Some (default ∅ (deref s current_order))).
Proof.
  intros Ht. split.
  - intros response text Hc Hsdk Hresp Htext Hparse.
    rewrite (pro_extractor_decoded _ _ _ _ _ _ _ _ _ _ Hc Hsdk Hresp Htext Hparse).
    unfold try_except. rewrite (pro_merge_no_patch _ _ _ _ Ht).
    eexists. split; [reflexivity|].
    unfold after_pro_request. proj_state. unfold deref at 4. proj_state.
    apply objects_unchanged_alloc_end.
  - intros response reply Hkey Hresp Hdec Hreply.
    rewrite (basic_extractor_decoded _ _ _ _ _ _ _ _ _ Hkey Hresp Hdec).
    unfold after_basic_request. unfold_m. cbv beta. proj_state.
    cbn [get_method]. rewrite Ht. unfold dict_getitem. rewrite Hreply.
    eexists. split; [reflexivity|]. apply objects_unchanged_alloc_end.
Qed.

Lemma reply_without_patch_copies_order_witness :
  (∃ (s' : state),
     Pro.analyze_intent_with_gpt Sample.lib (provider_says reply_no_patch)
       Sample.with_key (py "hi") 0%nat [] state_AB
     = (Ok (length (st_heap state_AB),
            dict_get object_no_patch (py "response_message")
              (VStr Pro.default_response_message)), s')
     ∧ objects_unchanged state_AB s'
     ∧ deref s' (length (st_heap state_AB))
       = Some (default ∅ (deref state_AB 0%nat)))
  ∧ (∃ (s' : state),
       Basic.analyze_intent_with_gpt Sample.lib (provider_says reply_no_patch)
         Sample.with_key (py "hi") 0%nat [] state_AB
       = (Ok (length (st_heap state_AB), VStr (py "ok")), s')
       ∧ objects_unchanged state_AB s'
       ∧ deref s' (length (st_heap state_AB))
         = Some (default ∅ (deref state_AB 0%nat))).
Proof.
  assert (truthy (dict_get object_no_patch (py "updated_order") VNone) = false)
    as Ht by (vm_compute; reflexivity).
  split.
  - apply (proj1 (reply_without_patch_copies_order Sample.lib
                    (provider_says reply_no_patch) Sample.with_key (py "hi")
                    0%nat [] state_AB object_no_patch Ht)
                 (Sample.text_response reply_no_patch) reply_no_patch).
    + vm_compute; reflexivity.
    + reflexivity.
    + reflexivity.
    + vm_compute; reflexivity.
    + left. vm_compute; reflexivity.
  - apply (proj2 (reply_without_patch_copies_order Sample.lib
                    (provider_says reply_no_patch) Sample.with_key (py "hi")
                    0%nat [] state_AB object_no_patch Ht)
                 [Some reply_no_patch] (VStr (py "ok"))).
    + vm_compute; reflexivity.
    + reflexivity.
    + vm_compute; reflexivity.
    + vm_compute; reflexivity.
Defined.

(** X13.  The two files part on a reply that carries a patch and no
    [response_message].  app_basic.py merges the patch into its copy and
    then fails on [result['response_message']]: it reports the KeyError
    and returns the order it was given, so the patch is lost.
    app_pro.py returns the merged copy with its stock sentence. *)
Theorem basic_needs_response_message (lib : pylib) (P : provider) (cfg : config)
    (user_text : pystr) (current_order : nat) (chat_history : list message)
    (s : state) (r patch : dict) :
  r !! py "response_message" = None →
  r !! py "updated_order" = Some (VDict patch) →
  (∀ (response : chat_completion),
     Basic.key_lacks_sk cfg = Ok false →
     chat_completions_create P (st_calls s)
       (Basic.intent_request (default ∅ (deref s current_order))
          (recent chat_history) user_text) = Ok response →
     basic_decode lib response = Ok (VDict r) →
     ∃ (s' : state),
       Basic.analyze_intent_with_gpt lib P cfg user_text current_order
         chat_history s
       = (Ok (current_order,
              VStr (Basic.error_prefix ++ exn_str missing_response_message)), s')
       ∧ objects_unchanged s s')
  ∧ (∀ (response : response) (text : pystr),
       Pro.client cfg = true → sdk_responses cfg = true →
       responses_create P (st_calls s)
         (Pro.intent_request (default ∅ (deref s current_order))
            (recent chat_history) user_text) = Ok response →
       Pro.extract_output_text response = Ok text →
       pro_parses lib (Pro.unfence (strip (strip text))) (VDict r) →
       ∃ (s' : state),
         Pro.analyze_intent_with_gpt lib P cfg user_text current_order
           chat_history s
         = (Ok (length (st_heap s), VStr Pro.default_response_message), s')
         ∧ objects_unchanged s s'
         ∧ deref s' (length (st_heap s))
           = Some (patch ∪ default ∅ (deref s current_order))).
Proof.
  intros Hmsg Hpatch. split.
  - intros response Hkey Hresp Hdec.
    rewrite (basic_extractor_decoded _ _ _ _ _ _ _ _ _ Hkey Hresp Hdec).
    unfold after_basic_request. unfold_m. cbv beta. proj_state.
    cbn [get_method]. unfold dict_get. rewrite Hpatch.
    cbn [default from_option id]. unfold dict_getitem. rewrite Hmsg.
    destruct (truthy (VDict patch)); proj_state.
    + rewrite deref_end. cbn [dict_update default from_option id].
      rewrite insert_end_eq. eexists. split; [reflexivity|].
      apply objects_unchanged_alloc.
    + eexists. split; [reflexivity|]. apply objects_unchanged_alloc.
  - intros response text Hc Hsdk Hresp Htext Hparse.
    rewrite (pro_extractor_decoded _ _ _ _ _ _ _ _ _ _ Hc Hsdk Hresp Htext Hparse).
    unfold try_except. rewrite (pro_merge_patch _ _ _ _ _ Hpatch).
    unfold dict_get. rewrite Hmsg. cbn [default from_option id].
    eexists. split; [reflexivity|].
    unfold after_pro_request. proj_state. unfold deref at 4. proj_state.
    apply objects_unchanged_alloc_end.
Qed.

Lemma basic_needs_response_message_witness :
  (∃ (s' : state),
     Basic.analyze_intent_with_gpt Sample.lib (provider_says reply_patch_only)
       Sample.with_key (py "hi") 0%nat [] state_AB
     = (Ok (0%nat,
            VStr (Basic.error_prefix ++ exn_str missing_response_message)), s')
     ∧ objects_unchanged state_AB s')
  ∧ (∃ (s' : state),
       Pro.analyze_intent_with_gpt Sample.lib (provider_says reply_patch_only)
         Sample.with_key (py "hi") 0%nat [] state_AB
       = (Ok (length (st_heap state_AB), VStr Pro.default_response_message), s')
       ∧ objects_unchanged state_AB s'
       ∧ deref s' (length (st_heap state_AB))
         = Some (patch_C ∪ default ∅ (deref state_AB 0%nat))).
Proof.
  assert (object_patch_only !! py "response_message" = None)
    as Hmsg by (vm_compute; reflexivity).
  assert (object_patch_only !! py "updated_order" = Some (VDict patch_C))
    as Hpatch by (vm_compute; reflexivity).
  split.
  - apply (proj1 (basic_needs_response_message Sample.lib
                    (provider_says reply_patch_only) Sample.with_key (py "hi")
                    0%nat [] state_AB object_patch_only patch_C Hmsg Hpatch)
                 [Some reply_patch_only]).
    + vm_compute; reflexivity.
    + reflexivity.
    + vm_compute; reflexivity.
  - apply (proj2 (basic_needs_response_message Sample.lib
                    (provider_says reply_patch_only) Sample.with_key (py "hi")
                    0%nat [] state_AB object_patch_only patch_C Hmsg Hpatch)
                 (Sample.text_response reply_patch_only) reply_patch_only).
    + vm_compute; reflexivity.
    + reflexivity.
    + reflexivity.
    + vm_compute; reflexivity.
    + left. vm_compute; reflexivity.
Defined.

(** * The text of an envelope *)

Lemma extract_item_text_cases (acc : pystr) (c : content_item) :
  if typed_output_text c
  then Pro.extract_item_text acc c = str_add acc (item_text c)
  else Pro.extract_item_text acc c = Ok acc.
Proof.
  destruct c as [[ty|] text|d]; simpl; [by case_bool_decide|done|].
  destruct (d !! py "type") as [[]|]; try done. by case_bool_decide.
Qed.

Lemma extract_content_text_spec (content : list content_item) (acc : pystr) :
  let parts := map item_text (filter (λ c, typed_output_text c = true) content) in
  match Pro.extract_content_text acc content with
  | Ok t => forallb is_str parts = true ∧ t = acc ++ concat (map str_of parts)
  | Raise e => forallb is_str parts = false ∧ exn_class_of e = TypeError
  end.
Proof.
  cbv zeta. revert acc. induction content as [|c rest IH]; intros acc.
  - simpl. by rewrite app_nil_r.
  - pose proof (extract_item_text_cases acc c) as Hc.
    cbn [Pro.extract_content_text]. rewrite filter_cons.
    destruct (typed_output_text c) eqn:Et.
    + rewrite decide_True by done. rewrite Hc.
      cbn [map forallb concat].
      destruct (item_text c) as [| | |t| |]; simpl; try done.
      specialize (IH (acc ++ t)).
      destruct (Pro.extract_content_text (acc ++ t) rest); [|done].
      destruct IH as [-> ->]. by rewrite app_assoc.
    + rewrite decide_False by done. rewrite Hc. simpl. apply IH.
Qed.

Lemma text_parts_cons (item : output_item) (rest : list output_item) :
  text_parts (item :: rest)
  = map item_text (filter (λ c, typed_output_text c = true)
                          (default [] (item_content item)))
    ++ text_parts rest.
Proof.
  unfold text_parts, contents. cbn [map concat].
  by rewrite filter_app, map_app.
Qed.

Lemma extract_items_text_spec (items : list output_item) (acc : pystr) :
  match Pro.extract_items_text acc items with
  | Ok t => forallb is_str (text_parts items) = true
            ∧ t = acc ++ concat (map str_of (text_parts items))
  | Raise e => forallb is_str (text_parts items) = false
               ∧ exn_class_of e = TypeError
  end.
Proof.
  revert acc. induction items as [|item rest IH]; intros acc.
  - simpl. by rewrite app_nil_r.
  - rewrite text_parts_cons. cbn [Pro.extract_items_text].
    destruct (item_content item) as [[|c content]|];
      cbn [default from_option id]; try apply IH.
    rewrite forallb_app, map_app, concat_app.
    pose proof (extract_content_text_spec (c :: content) acc) as Hc.
    cbv zeta in Hc.
    destruct (Pro.extract_content_text acc (c :: content)) as [t|e].
    + destruct Hc as [-> ->]. cbn [mbind result_bind andb].
      specialize (IH (acc
        ++ concat (map str_of (map item_text
             (filter (λ c0, typed_output_text c0 = true) (c :: content)))))).
      destruct (Pro.extract_items_text _ rest); [|exact IH].
      destruct IH as [-> ->]. by rewrite app_assoc.
    + destruct Hc as [-> Hclass]. cbn [mbind result_bind andb]. by split.
Qed.

(** X14.  [extract_output_text] returns the texts of the items of type
    [output_text], objects and dicts alike, joined in the order of the
    envelope; the convenience attribute [output_text] is read only when
    [output] is missing or empty.  It is not safe on every envelope: it
    raises a TypeError exactly when a dict item of that type carries a
    text that is no string. *)
Theorem extract_output_text_joins_items (r : response) :
  let parts := text_parts (default [] (output r)) in
  is_ok (Pro.extract_output_text r) = forallb is_str parts
  ∧ raises_type_error (Pro.extract_output_text r) = negb (forallb is_str parts)
  ∧ (forallb is_str parts = true →
     Pro.extract_output_text r
     = Ok match output r with
          | None | Some [] => default [] (output_text r)
          | Some _ => concat (map str_of parts)
          end).
Proof.
  unfold Pro.extract_output_text.
  destruct (output r) as [[|item rest]|]; simpl; try done.
  pose proof (extract_items_text_spec (item :: rest) []) as H.
  simpl Pro.extract_items_text in H.
  destruct (match item_content item with
            | Some (_ :: _ as content) => _
            | _ => _
            end) as [t|[[] msg]]; destruct H as [-> H]; simpl in *; try done.
  by subst.
Qed.

Lemma extract_output_text_joins_items_witness :
  forallb is_str (text_parts (default [] (output envelope_two_texts))) = true
  ∧ Pro.extract_output_text envelope_two_texts
    = Ok match output envelope_two_texts with
         | None | Some [] => default [] (output_text envelope_two_texts)
         | Some _ =>
           concat (map str_of
                     (text_parts (default [] (output envelope_two_texts))))
         end
  ∧ Pro.extract_output_text envelope_two_texts = Ok (py "ab").
Proof.
  split; [vm_compute; reflexivity|]. split.
  - apply (proj2 (proj2 (extract_output_text_joins_items envelope_two_texts))).
    vm_compute; reflexivity.
  - vm_compute; reflexivity.
Defined.

(** * The design brief *)

(** X15.  [request_design_brief] never returns an empty text: when the
    envelope yields none it returns a stock sentence, and without client
    or Responses API another.  It sends one request when it has both and
    none otherwise, with the reference image attached only when its
    encoding is not empty, and it touches neither the session nor the
    orders.  It handles no exception: a failure of the call or of the
    extraction is raised to the caller. *)
Theorem design_brief_is_never_empty (P : provider) (cfg : config)
    (user_prompt system_prompt : pystr) (image_b64 : option pystr)
    (filling : value) (s : state) :
  let rq := brief_request user_prompt system_prompt image_b64 filling in
  let out := Pro.request_design_brief P cfg user_prompt system_prompt image_b64
               filling s in
  st_session (snd out) = st_session s
  ∧ st_heap (snd out) = st_heap s
  ∧ st_calls (snd out)
    = st_calls s ++ (if Pro.client cfg && sdk_responses cfg
                     then [CallResponses rq] else [])
  ∧ match fst out with
    | Ok t =>
      t ≠ []
      ∧ (Pro.client cfg && sdk_responses cfg = true →
         ∃ response text,
           responses_create P (st_calls s) rq = Ok response
           ∧ Pro.extract_output_text response = Ok text
           ∧ t = match text with
                 | [] => py "결과를 읽어오지 못했습니다."
                 | _ => text
                 end)
    | Raise e =>
      Pro.client cfg && sdk_responses cfg = true
      ∧ (responses_create P (st_calls s) rq = Raise e
         ∨ ∃ response,
             responses_create P (st_calls s) rq = Ok response
             ∧ Pro.extract_output_text response = Raise e)
    end.
Proof.
  cbv zeta. unfold Pro.request_design_brief, Pro.HAS_RESPONSES_API, brief_request.
  destruct (Pro.client cfg); cbn [negb andb].
  - destruct (sdk_responses cfg).
    + unfold_m. cbv beta. proj_state.
      destruct (responses_create P (st_calls s) _) as [response|e] eqn:Er;
        proj_state.
      * destruct (Pro.extract_output_text response) as [text|e] eqn:Et;
          proj_state.
        -- repeat split; try done.
           ++ destruct text; [by vm_compute|done].
           ++ intros _. by exists response, text.
        -- repeat split; try done. right. by exists response.
      * repeat split; try done. by left.
    + unfold_m. proj_state. rewrite app_nil_r. by repeat split.
  - unfold_m. proj_state. rewrite app_nil_r. by repeat split.
Qed.

(** * The prompt of the image model *)

Lemma lstrip_app_nonblank (pre rest : pystr) :
  blank pre = false → lstrip (pre ++ rest) = lstrip pre ++ rest.
Proof.
  induction pre as [|c pre IH]; simpl; [done|].
  destruct (isspace c); simpl; [apply IH|done].
Qed.

Lemma rstrip_app_nonblank (rest post : pystr) :
  blank post = false → rstrip (rest ++ post) = rest ++ rstrip post.
Proof.
  intros Hpost. induction rest as [|c rest IH]; simpl; [done|].
  rewrite IH. destruct (rest ++ rstrip post) as [|x r] eqn:E; [|done].
  apply app_eq_nil in E as [_ E]. apply rstrip_nil_iff in E. congruence.
Qed.

Lemma blank_app (a b : pystr) : blank (a ++ b) = blank a && blank b.
Proof. apply forallb_app. Qed.

Lemma strip_keeps_inner (pre x post : pystr) :
  blank pre = false → blank post = false →
  strip (pre ++ x ++ post) = lstrip pre ++ x ++ rstrip post.
Proof.
  intros Hpre Hpost. unfold strip. rewrite (lstrip_app_nonblank _ _ Hpre).
  rewrite !app_assoc. rewrite (rstrip_app_nonblank _ _ Hpost). done.
Qed.

Ltac split_at x l :=
  lazymatch l with
  | x :: ?r => constr:((@nil pystr, r))
  | ?a :: ?r =>
    let p := split_at x r in
    lazymatch p with
    | (?l1, ?l3) => constr:((a :: l1, l3))
    end
  end.

(** X16.  The prompt sent to the image model carries the user's request
    and the design brief whole and in that order, the brief under its
    heading right after the request: stripping the assembled text
    removes nothing of either, whatever they contain. *)
Theorem image_prompt_carries_request_and_brief (lib : pylib)
    (user_prompt design_brief : pystr) (filling : value) :
  ∃ pre post,
    Pro.build_image_prompt lib user_prompt design_brief filling
    = pre ++ user_prompt ++ brief_heading ++ design_brief ++ post.
Proof.
  unfold Pro.build_image_prompt. cbv zeta.
  set (filling_context := match _ with [] => _ | _ => _ end).
  match goal with
  | |- context [strip (concat ?l)] =>
    let p := split_at user_prompt l in
    lazymatch p with
    | (?l1, ?r) =>
      let q := split_at design_brief r in
      lazymatch q with
      | (?l2, ?l3) =>
        change l with (l1 ++ [user_prompt] ++ l2 ++ [design_brief] ++ l3);
        rewrite !concat_app;
        change (concat [user_prompt]) with (user_prompt ++ []);
        change (concat [design_brief]) with (design_brief ++ []);
        change (concat l2) with brief_heading;
        rewrite !app_nil_r;
        assert (blank (concat l3) = false) as Hpost by (by vm_compute);
        assert (blank (concat l1) = false) as Hpre;
        [|generalize dependent (concat l3);
          generalize dependent (concat l1)]
      end
    end
  end.
  { cbn [concat]. rewrite !blank_app.
    match goal with
    | |- context [blank (py ?lit)] =>
      assert (blank (py lit) = false) as -> by (by vm_compute)
    end.
    by rewrite andb_false_r. }
  intros pre Hpre post Hpost.
  rewrite (app_assoc brief_heading design_brief post),
    (app_assoc user_prompt (brief_heading ++ design_brief) post).
  rewrite (strip_keeps_inner _ _ _ Hpre Hpost).
  exists (lstrip pre), (rstrip post). by rewrite <- !app_assoc.
Qed.

(** * The image request *)

(** X17.  A request that the image API rejects as a bad request is sent
    a second time, without [response_format] when the error text names
    it and without [quality] when the text names it or says Invalid
    value, and unchanged when it does neither.  The
    outcome of the second call is the outcome of the function: there is
    no third attempt, and a second failure is raised. *)
Theorem rejected_image_request_gets_one_retry (lib : pylib) (P : provider)
    (cfg : config) (depth : nat) (prompt model error_str : pystr) (s : state) :
  Pro.client cfg = true → sdk_images cfg = true →
  images_generate P (st_calls s) (image_kwargs prompt model)
  = Raise (Exn BadRequestError error_str) →
  let out := Pro.request_design_image lib P cfg (S depth) prompt model s in
  st_calls (snd out)
  = st_calls s ++ [CallImages (image_kwargs prompt model);
                   CallImages (retry_kwargs prompt model error_str)]
  ∧ fst out
    = images_generate P (st_calls s ++ [CallImages (image_kwargs prompt model)])
        (retry_kwargs prompt model error_str) ≫= Pro.decode_image lib
  ∧ (contains (py "response_format") error_str
     || contains (py "quality") error_str
     || contains (py "Invalid value") error_str = false →
     retry_kwargs prompt model error_str = image_kwargs prompt model).
Proof.
  intros Hc Hsdk Hrej. cbv zeta.
  destruct (bad_request_is_retried_once lib P cfg depth prompt model error_str s
              Hc Hsdk Hrej) as (r & s' & -> & Hcalls & ->).
  repeat split; try done.
  intros H. unfold retry_kwargs, image_kwargs.
  apply orb_false_iff in H as [H H3]. apply orb_false_iff in H as [H1 H2].
  by rewrite H1, H2, H3.
Qed.

Lemma rejected_image_request_gets_one_retry_witness :
  st_calls (snd (Pro.request_design_image Sample.lib provider_rejects_quality
                   Sample.with_key 1 (py "a cake") (py "dall-e-3") Sample.fresh))
  = st_calls Sample.fresh
    ++ [CallImages (image_kwargs (py "a cake") (py "dall-e-3"));
        CallImages (retry_kwargs (py "a cake") (py "dall-e-3") invalid_quality)]
  ∧ img_quality (retry_kwargs (py "a cake") (py "dall-e-3") invalid_quality) = None
  ∧ fst (Pro.request_design_image Sample.lib provider_rejects_quality
           Sample.with_key 1 (py "a cake") (py "dall-e-3") Sample.fresh)
    = Ok (Some [Byte.x68; Byte.x69; Byte.x21]).
Proof.
  split; [|split].
  - apply (rejected_image_request_gets_one_retry Sample.lib provider_rejects_quality
             Sample.with_key 0 (py "a cake") (py "dall-e-3") invalid_quality
             Sample.fresh).
    + vm_compute; reflexivity.
    + reflexivity.
    + reflexivity.
  - vm_compute; reflexivity.
  - vm_compute; reflexivity.
Defined.

(** X18.  The fallback model is the default model, so a provider that
    refuses every image request is asked again and again: the function
    calls it once per level of recursion the interpreter allows and ends
    with the RecursionError, never with the refusal.  Neither the
    session nor the orders change. *)
Theorem refused_image_request_exhausts_recursion (lib : pylib) (P : provider)
    (cfg : config) (prompt : pystr) (e : exn) (depth : nat) (s : state) :
  Pro.client cfg = true → sdk_images cfg = true →
  exn_class_of e = PermissionDeniedError →
  (∀ log rq, images_generate P log rq = Raise e) →
  let out := Pro.request_design_image lib P cfg depth prompt
               Pro.DEFAULT_IMAGE_MODEL s in
  fst out = Raise recursion_error
  ∧ st_calls (snd out)
    = st_calls s
      ++ replicate depth (CallImages (image_kwargs prompt Pro.DEFAULT_IMAGE_MODEL))
  ∧ st_session (snd out) = st_session s ∧ st_heap (snd out) = st_heap s.
Proof.
  intros Hc Hsdk He Hall. cbv zeta.
  by rewrite (denied_requests_recur lib P cfg prompt e Hc Hsdk He Hall depth s).
Qed.

Lemma refused_image_request_exhausts_recursion_witness :
  fst (Pro.request_design_image Sample.lib provider_always_denies Sample.with_key
         3 (py "a cake") Pro.DEFAULT_IMAGE_MODEL Sample.fresh)
  = Raise recursion_error
  ∧ st_calls (snd (Pro.request_design_image Sample.lib provider_always_denies
                     Sample.with_key 3 (py "a cake") Pro.DEFAULT_IMAGE_MODEL
                     Sample.fresh))
    = st_calls Sample.fresh
      ++ replicate 3 (CallImages (image_kwargs (py "a cake")
                                    Pro.DEFAULT_IMAGE_MODEL))
  ∧ st_session (snd (Pro.request_design_image Sample.lib provider_always_denies
                       Sample.with_key 3 (py "a cake") Pro.DEFAULT_IMAGE_MODEL
                       Sample.fresh))
    = st_session Sample.fresh
  ∧ st_heap (snd (Pro.request_design_image Sample.lib provider_always_denies
                    Sample.with_key 3 (py "a cake") Pro.DEFAULT_IMAGE_MODEL
                    Sample.fresh))
    = st_heap Sample.fresh.
Proof.
  apply (refused_image_request_exhausts_recursion Sample.lib
           provider_always_denies Sample.with_key (py "a cake") denied 3
           Sample.fresh).
  - vm_compute; reflexivity.
  - reflexivity.
  - reflexivity.
  - intros log rq. reflexivity.
Defined.

(** X19.  When the first call returns, or fails with anything but a
    rejected request or a refusal for the default model, the function
    makes that one call only: it decodes the first image of the
    response, or raises the error as it came.  With no client or no
    image API it returns [None] without any call. *)
Theorem image_request_settles_at_once (lib : pylib) (P : provider) (cfg : config)
    (depth : nat) (prompt model : pystr) (s : state) :
  (Pro.client cfg = true → sdk_images cfg = true →
   settles_at_once model
     (images_generate P (st_calls s) (image_kwargs prompt model)) →
   Pro.request_design_image lib P cfg (S depth) prompt model s
   = (images_generate P (st_calls s) (image_kwargs prompt model)
        ≫= Pro.decode_image lib,
      {| st_session := st_session s; st_heap := st_heap s;
         st_calls := st_calls s ++ [CallImages (image_kwargs prompt model)] |}))
  ∧ (Pro.client cfg && sdk_images cfg = false →
     Pro.request_design_image lib P cfg (S depth) prompt model s = (Ok None, s)).
Proof.
  split.
  - intros Hc Hsdk Hset.
    cbn [Pro.request_design_image]. unfold Pro.HAS_IMAGES_API.
    rewrite Hc, Hsdk. cbn [negb andb]. unfold_m. cbv beta. proj_state.
    fold (image_kwargs prompt model).
    destruct (images_generate P (st_calls s) (image_kwargs prompt model))
      as [response|[cls msg]]; [done|].
    destruct Hset as [Hbad Hden]. cbn [exn_class_of] in *.
    destruct cls; try done.
    rewrite bool_decide_false; [done|]. by apply Hden.
  - intros H. cbn [Pro.request_design_image]. unfold Pro.HAS_IMAGES_API.
    destruct (Pro.client cfg); cbn [negb andb] in *; [|done].
    by rewrite H.
Qed.

Lemma image_request_settles_at_once_witness :
  Pro.request_design_image Sample.lib provider_serves_image Sample.with_key 1
    (py "a cake") (py "dall-e-3") Sample.fresh
  = (images_generate provider_serves_image (st_calls Sample.fresh)
       (image_kwargs (py "a cake") (py "dall-e-3"))
       ≫= Pro.decode_image Sample.lib,
     {| st_session := st_session Sample.fresh; st_heap := st_heap Sample.fresh;
        st_calls := st_calls Sample.fresh
          ++ [CallImages (image_kwargs (py "a cake") (py "dall-e-3"))] |})
  ∧ Pro.request_design_image Sample.lib provider_serves_image Sample.without_key 1
      (py "a cake") (py "dall-e-3") Sample.fresh
    = (Ok None, Sample.fresh).
Proof.
  split.
  - apply (proj1 (image_request_settles_at_once Sample.lib provider_serves_image
                    Sample.with_key 0 (py "a cake") (py "dall-e-3") Sample.fresh)).
    + vm_compute; reflexivity.
    + reflexivity.
    + exact I.
  - apply (proj2 (image_request_settles_at_once Sample.lib provider_serves_image
                    Sample.without_key 0 (py "a cake") (py "dall-e-3")
                    Sample.fresh)).
    vm_compute; reflexivity.
Defined.

(** * The session blocks *)

Lemma intake_order_typed (name phone size fill date time_sel : pystr) :
  order_typed (intake_order name phone size fill date time_sel) = true.
Proof.
  unfold order_typed, has_type, intake_order.
  repeat (rewrite lookup_insert_eq || rewrite lookup_insert_ne by done).
  reflexivity.
Qed.

Lemma set_price_at_end (h : list dict) (o : dict) (x : session) (calls : list call) :
  order_typed o = true →
  Pro.set_price (length h)
    {| st_session := x; st_heap := h ++ [o]; st_calls := calls |}
  = (Ok tt, {| st_session := x;
               st_heap := h ++ [<[k_price := VInt (price_formula o)]> o];
               st_calls := calls |}).
Proof.
  intros Ho. unfold Pro.set_price. unfold_m. cbv beta. proj_state.
  rewrite deref_end. cbn [default from_option id].
  rewrite (pro_price_typed o Ho). proj_state.
  cbn [default from_option id]. by rewrite insert_end_eq.
Qed.

(** X20.  The intake form is accepted exactly when it is submitted in
    the form phase with a name, a phone number and a pickup time.  An
    accepted form never fails: whatever was typed, its order is within
    the data model and gets the price of the formula; the session moves
    to the chat with the welcome as its only message, and no request is
    sent.  Any other submission changes nothing.  The two files differ
    in the text of the welcome only. *)
Theorem intake_form_is_validated (name phone size fill date : pystr)
    (time_sel : option pystr) (s : state) :
  let o := intake_order name phone size fill date (default [] time_sel) in
  let accepted :=
    match step (st_session s) with
    | FORM => form_complete name phone time_sel
    | _ => false
    end in
  order_typed o = true
  ∧ Pro.main_form_submit name phone size fill date time_sel s
    = (Ok tt, if accepted then form_accepted o (Pro.welcome_msg name) s else s)
  ∧ Basic.main_form_submit name phone size fill date time_sel s
    = (Ok tt, if accepted then form_accepted o (Basic.welcome_msg name) s else s).
Proof.
  cbv zeta. split; [apply intake_order_typed|].
  unfold Pro.main_form_submit, Basic.main_form_submit, form_complete,
    form_accepted.
  change Basic.set_price with Pro.set_price.
  unfold mbind at 1 6, M_bind at 1 6, get_session.
  destruct (step (st_session s)); try done.
  destruct name as [|n0 name]; try done.
  destruct phone as [|p0 phone]; try done.
  destruct time_sel as [[|t0 t]|]; try done.
  cbn [default from_option id].
  pose proof (intake_order_typed (n0 :: name) (p0 :: phone) size fill date
                (t0 :: t)) as Ho.
  split.
  - unfold mbind, M_bind, alloc, set_session. proj_state.
    rewrite (set_price_at_end _ _ _ _ Ho). reflexivity.
  - unfold mbind, M_bind, alloc, set_session. proj_state.
    rewrite (set_price_at_end _ _ _ _ Ho). reflexivity.
Qed.

Lemma typed_with_image (b : bool) (d : dict) :
  order_typed d = true → order_typed (with_image b d) = true.
Proof.
  unfold order_typed, has_type, with_image. intros H.
  rewrite lookup_insert_eq. rewrite !lookup_insert_ne by done.
  rewrite !andb_true_iff in *. tauto.
Qed.

Lemma set_image_flag (f : session → session) (l : nat) (b : bool) (d : dict)
    (m : message) (s : state) :
  st_heap s !! l = Some d → order_typed d = true →
  (_ ← set_session f; _ ← setitem l k_has_image (VBool b);
   _ ← Pro.set_price l; append_message m) s
  = (Ok tt,
     {| st_session :=
          with_messages (messages (f (st_session s)) ++ [m]) (f (st_session s));
        st_heap :=
          <[l := <[k_price := VInt (price_formula (with_image b d))]>
                   (with_image b d)]> (st_heap s);
        st_calls := st_calls s |}).
Proof.
  intros Hl Hd. pose proof (typed_with_image b d Hd) as Hb.
  assert (l < length (st_heap s))%nat as Hlt by (by eapply lookup_lt_Some).
  unfold Pro.set_price. unfold_m. cbv beta. proj_state. rewrite Hl.
  cbn [default from_option id]. fold (with_image b d).
  rewrite list_lookup_insert_eq by done. cbn [default from_option id].
  rewrite (pro_price_typed _ Hb). proj_state.
  cbn [default from_option id]. by rewrite list_insert_insert_eq.
Qed.

Lemma typed_insert_price (v : value) (d : dict) :
  order_typed (<[k_price := v]> d) = order_typed d.
Proof.
  unfold order_typed, has_type. by rewrite !lookup_insert_ne by done.
Qed.

Lemma formula_insert_price (v : value) (d : dict) :
  price_formula (<[k_price := v]> d) = price_formula d.
Proof.
  unfold price_formula, base_fee, flavor_fee, image_fee, color_fee, object_fee,
    long_lettering_fee, lettering_of, flag.
  by rewrite !lookup_insert_ne by done.
Qed.

Lemma typed_repriced (b : bool) (d : dict) :
  order_typed d = true → order_typed (repriced b d) = true.
Proof.
  intros H. unfold repriced. rewrite typed_insert_price.
  by apply typed_with_image.
Qed.

Lemma with_image_repriced (b c : bool) (d : dict) :
  repriced b (repriced c d) = repriced b d.
Proof.
  assert (∀ v, with_image b (<[k_price := v]> (with_image c d))
               = <[k_price := v]> (with_image b d)) as H.
  { intros v. unfold with_image.
    rewrite (insert_insert_ne _ k_has_image k_price) by done.
    by rewrite insert_insert_eq. }
  unfold repriced at 1 2. rewrite H, formula_insert_price.
  by rewrite insert_insert_eq.
Qed.

Lemma formula_with_image (d : dict) :
  price_formula (with_image true d) = price_formula (with_image false d) + 10000.
Proof.
  unfold price_formula, base_fee, flavor_fee, image_fee, color_fee, object_fee,
    long_lettering_fee, lettering_of, flag, with_image.
  rewrite !lookup_insert_eq. rewrite !lookup_insert_ne by done. lia.
Qed.

Lemma repriced_id (d : dict) :
  d !! k_has_image = Some (VBool false) →
  d !! k_price = Some (VInt (price_formula d)) →
  repriced false d = d.
Proof.
  intros Hi Hp. unfold repriced, with_image.
  rewrite (insert_id d k_has_image) by done. by rewrite insert_id.
Qed.

Lemma pro_attach_image (u : upload) (s : state) (d : dict) :
  step (st_session s) = CHAT → last_img (st_session s) ≠ up_name u →
  session_order s = Some d → order_typed d = true →
  Pro.main_sidebar_upload (Some u) false s
  = (Ok tt,
     {| st_session :=
          with_messages (messages (st_session s) ++ [msg_image_added])
            (with_upload (Some u) (up_name u) (st_session s));
        st_heap := <[order (st_session s) := repriced true d]> (st_heap s);
        st_calls := st_calls s |}).
Proof.
  intros Hstep Hname Hd Ho. unfold Pro.main_sidebar_upload.
  unfold mbind at 1, M_bind at 1, get_session. rewrite Hstep.
  rewrite bool_decide_true by done.
  by rewrite (set_image_flag _ _ true d _ s Hd Ho).
Qed.

Lemma pro_remove_image (uploaded : option upload) (s : state) (d : dict) :
  step (st_session s) = CHAT →
  match uploaded with
  | Some u => last_img (st_session s) = up_name u
  | None => True
  end →
  is_Some (uploaded_img (st_session s)) →
  session_order s = Some d → order_typed d = true →
  Pro.main_sidebar_upload uploaded true s
  = (Ok tt,
     {| st_session :=
          with_messages (messages (st_session s) ++ [msg_image_removed])
            (with_upload None None (st_session s));
        st_heap := <[order (st_session s) := repriced false d]> (st_heap s);
        st_calls := st_calls s |}).
Proof.
  intros Hstep Hname [u0 Hu] Hd Ho. unfold Pro.main_sidebar_upload.
  unfold mbind at 1, M_bind at 1, get_session. rewrite Hstep, Hu.
  assert (match uploaded with
          | Some u => bool_decide (last_img (st_session s) ≠ up_name u)
          | None => false
          end = false) as ->.
  { destruct uploaded; [|done]. by rewrite bool_decide_false by auto. }
  by rewrite (set_image_flag _ _ false d _ s Hd Ho).
Qed.

Lemma basic_attach_image (u : upload) (s : state) (d : dict) :
  step (st_session s) = CHAT → last_img (st_session s) ≠ up_name u →
  session_order s = Some d → order_typed d = true →
  Basic.main_sidebar_upload (Some u) s = Pro.main_sidebar_upload (Some u) false s.
Proof.
  intros Hstep Hname Hd Ho. rewrite (pro_attach_image u s d) by done.
  unfold Basic.main_sidebar_upload. change Basic.set_price with Pro.set_price.
  unfold mbind at 1, M_bind at 1, get_session. rewrite Hstep.
  rewrite bool_decide_true by done.
  by rewrite (set_image_flag _ _ true d _ s Hd Ho).
Qed.

Lemma basic_remove_image (s : state) (d : dict) :
  step (st_session s) = CHAT → is_Some (uploaded_img (st_session s)) →
  session_order s = Some d → order_typed d = true →
  Basic.main_sidebar_upload None s = Pro.main_sidebar_upload None true s.
Proof.
  intros Hstep Hu Hd Ho. rewrite (pro_remove_image None s d) by done.
  destruct Hu as [u0 Hu].
  unfold Basic.main_sidebar_upload. change Basic.set_price with Pro.set_price.
  unfold mbind at 1, M_bind at 1, get_session. rewrite Hstep, Hu.
  by rewrite (set_image_flag _ _ false d _ s Hd Ho).
Qed.

Lemma session_order_insert (s : state) (x : session) (d d' : dict)
    (calls : list call) :
  session_order s = Some d → order x = order (st_session s) →
  session_order {| st_session := x;
                   st_heap := <[order (st_session s) := d']> (st_heap s);
                   st_calls := calls |} = Some d'.
Proof.
  unfold session_order, deref. proj_state. intros Hd ->.
  apply list_lookup_insert_eq. by eapply lookup_lt_Some.
Qed.

(** X21.  Attaching a reference image and removing it again is a round
    trip on an order of the data model: the attachment sets the image
    flag and raises the price by the image fee, the removal clears the
    flag and takes the fee off again, and an order whose price was
    current before has exactly its old content afterwards.  Each step
    adds its notice to the chat and neither sends a request.
    app_basic.py, where the removal is the emptied uploader, reaches the
    same states. *)
Theorem attach_then_remove_restores_order (u : upload) (s : state) (d : dict) :
  step (st_session s) = CHAT → last_img (st_session s) ≠ up_name u →
  session_order s = Some d → order_typed d = true →
  let s1 := run_state (Pro.main_sidebar_upload (Some u) false) s in
  let s2 := run_state (Pro.main_sidebar_upload None true) s1 in
  session_order s1 = Some (repriced true d)
  ∧ uploaded_img (st_session s1) = Some u
  ∧ session_order s2 = Some (repriced false d)
  ∧ uploaded_img (st_session s2) = None
  ∧ price_formula (with_image true d) = price_formula (with_image false d) + 10000
  ∧ messages (st_session s2)
    = messages (st_session s) ++ [msg_image_added; msg_image_removed]
  ∧ st_calls s2 = st_calls s
  ∧ (d !! k_has_image = Some (VBool false) →
     d !! k_price = Some (VInt (price_formula d)) →
     session_order s2 = Some d)
  ∧ run_state (Basic.main_sidebar_upload (Some u)) s = s1
  ∧ run_state (Basic.main_sidebar_upload None) s1 = s2.
Proof.
  intros Hstep Hname Hd Ho. cbv zeta.
  pose proof (pro_attach_image u s d Hstep Hname Hd Ho) as H1.
  pose proof (basic_attach_image u s d Hstep Hname Hd Ho) as B1.
  rewrite H1 in B1.
  match type of H1 with _ = (_, ?x) => set (s1 := x) in * end.
  assert (run_state (Pro.main_sidebar_upload (Some u) false) s = s1) as ->
    by (unfold run_state; by rewrite H1).
  assert (run_state (Basic.main_sidebar_upload (Some u)) s = s1) as ->
    by (unfold run_state; by rewrite B1).
  assert (session_order s1 = Some (repriced true d)) as Hd1
    by (by apply (session_order_insert s _ d)).
  assert (step (st_session s1) = CHAT) as Hstep1 by done.
  assert (is_Some (uploaded_img (st_session s1))) as Hu1 by (by eexists).
  pose proof (typed_repriced true d Ho) as Ho1.
  pose proof (pro_remove_image None s1 _ Hstep1 I Hu1 Hd1 Ho1) as H2.
  pose proof (basic_remove_image s1 _ Hstep1 Hu1 Hd1 Ho1) as B2.
  rewrite H2 in B2. rewrite with_image_repriced in H2, B2.
  match type of H2 with _ = (_, ?x) => set (s2 := x) in * end.
  assert (run_state (Pro.main_sidebar_upload None true) s1 = s2) as ->
    by (unfold run_state; by rewrite H2).
  assert (run_state (Basic.main_sidebar_upload None) s1 = s2) as ->
    by (unfold run_state; by rewrite B2).
  assert (session_order s2 = Some (repriced false d)) as Hd2
    by (by apply (session_order_insert s1 _ (repriced true d))).
  repeat split; try done.
  - apply formula_with_image.
  - subst s2 s1. cbn [st_session messages with_messages with_upload].
    by rewrite <- app_assoc.
  - intros Hi Hp. rewrite Hd2. f_equal. by apply repriced_id.
Qed.

Lemma attach_then_remove_restores_order_witness :
  session_order
    (run_state (Pro.main_sidebar_upload None true)
       (run_state (Pro.main_sidebar_upload (Some sample_upload) false)
          pro_chat_started))
  = Some started_order.
Proof.
  destruct (attach_then_remove_restores_order sample_upload pro_chat_started
              started_order) as (_ & _ & _ & _ & _ & _ & _ & H & _ & _).
  - vm_compute; reflexivity.
  - vm_compute. intros H; discriminate H.
  - vm_compute; reflexivity.
  - vm_compute; reflexivity.
  - apply H; vm_compute; reflexivity.
Defined.

(** X22.  The remove button of app_pro.py does not last while the
    uploader still holds the file: the run of the click detaches the
    image and forgets its name, so the next run takes the same file for
    a new upload, attaches it again and charges the fee again.  The
    chat gains the notice of the removal and the notice of the
    attachment. *)
Theorem removal_is_undone_by_next_run (u : upload) (s : state) (d : dict) :
  step (st_session s) = CHAT → is_Some (uploaded_img (st_session s)) →
  last_img (st_session s) = up_name u → is_Some (up_name u) →
  session_order s = Some d → order_typed d = true →
  let s1 := run_state (Pro.main_sidebar_upload (Some u) true) s in
  let s2 := run_state (Pro.main_sidebar_upload (Some u) false) s1 in
  session_order s1 = Some (repriced false d)
  ∧ uploaded_img (st_session s1) = None
  ∧ session_order s2 = Some (repriced true d)
  ∧ uploaded_img (st_session s2) = Some u
  ∧ messages (st_session s2)
    = messages (st_session s) ++ [msg_image_removed; msg_image_added].
Proof.
  intros Hstep Hu Hname Hsome Hd Ho. cbv zeta.
  pose proof (pro_remove_image (Some u) s d Hstep Hname Hu Hd Ho) as H1.
  match type of H1 with _ = (_, ?x) => set (s1 := x) in * end.
  assert (run_state (Pro.main_sidebar_upload (Some u) true) s = s1) as ->
    by (unfold run_state; by rewrite H1).
  assert (session_order s1 = Some (repriced false d)) as Hd1
    by (by apply (session_order_insert s _ d)).
  assert (last_img (st_session s1) ≠ up_name u) as Hname1.
  { destruct Hsome as [n Hn]. rewrite Hn. by subst s1. }
  pose proof (typed_repriced false d Ho) as Ho1.
  assert (step (st_session s1) = CHAT) as Hstep1 by done.
  pose proof (pro_attach_image u s1 _ Hstep1 Hname1 Hd1 Ho1) as H2.
  rewrite with_image_repriced in H2.
  match type of H2 with _ = (_, ?x) => set (s2 := x) in * end.
  assert (run_state (Pro.main_sidebar_upload (Some u) false) s1 = s2) as ->
    by (unfold run_state; by rewrite H2).
  assert (session_order s2 = Some (repriced true d)) as Hd2
    by (by apply (session_order_insert s1 _ (repriced false d))).
  repeat split; try done.
  subst s2 s1. cbn [st_session messages with_messages with_upload].
  by rewrite <- app_assoc.
Qed.

Lemma removal_is_undone_by_next_run_witness :
  order_field
    (run_state (Pro.main_sidebar_upload (Some sample_upload) false)
       (run_state (Pro.main_sidebar_upload (Some sample_upload) true)
          pro_image_attached)) k_has_image
  = Some (VBool true)
  ∧ session_order
      (run_state (Pro.main_sidebar_upload (Some sample_upload) false)
         (run_state (Pro.main_sidebar_upload (Some sample_upload) true)
            pro_image_attached))
    = Some (repriced true (repriced true started_order)).
Proof.
  split; [vm_compute; reflexivity|].
  destruct (removal_is_undone_by_next_run sample_upload pro_image_attached
              (repriced true started_order)) as (_ & _ & H & _ & _).
  - vm_compute; reflexivity.
  - vm_compute. by eexists.
  - vm_compute; reflexivity.
  - vm_compute. by eexists.
  - vm_compute; reflexivity.
  - vm_compute; reflexivity.
  - exact H.
Defined.


Lemma set_image_flag_session (f : session → session) (l : nat) (m : message)
    (s0 : state) (r : result unit) (s' : state) :
  (_ ← set_session f; _ ← setitem l k_has_image (VBool true);
   _ ← Pro.set_price l; append_message m) s0 = (r, s') →
  step (st_session s') = step (f (st_session s0))
  ∧ last_img (st_session s') = last_img (f (st_session s0))
  ∧ uploaded_img (st_session s') = uploaded_img (f (st_session s0)).
Proof.
  unfold Pro.set_price. unfold_m. cbv beta.
  proj_state. destruct (Pro.calculate_price _); proj_state;
    intros [= <- <-]; by proj_state.
Qed.

Lemma pro_same_upload (u : upload) (s s1 : state) (r : result unit) :
  Pro.main_sidebar_upload (Some u) false s = (r, s1) →
  Pro.main_sidebar_upload (Some u) false s1 = (Ok tt, s1).
Proof.
  unfold Pro.main_sidebar_upload at 1.
  unfold mbind at 1, M_bind at 1, get_session. cbv zeta.
  destruct (step (st_session s)) eqn:Hstep.
  - intros [= <- <-]. unfold Pro.main_sidebar_upload, mbind at 1, M_bind at 1,
      get_session. by rewrite Hstep.
  - case_bool_decide as Hname.
    + intros (Hs & Hl & Hu)%set_image_flag_session.
      cbn [step last_img uploaded_img with_upload mbind option_bind] in *.
      unfold Pro.main_sidebar_upload, mbind at 1, M_bind at 1, get_session.
      rewrite Hs, Hl, Hu, Hstep. by rewrite bool_decide_false by auto.
    + intros Hend.
      assert (r = Ok tt ∧ s1 = s) as [-> ->].
      { unfold mret, M_ret in Hend.
        destruct (uploaded_img (st_session s)); cbv beta in Hend;
          by injection Hend as <- <-. }
      unfold Pro.main_sidebar_upload, mbind at 1, M_bind at 1, get_session.
      rewrite Hstep. rewrite bool_decide_false by (intros H; by apply H).
      by destruct (uploaded_img (st_session s)).
  - intros [= <- <-]. unfold Pro.main_sidebar_upload, mbind at 1, M_bind at 1,
      get_session. by rewrite Hstep.
Qed.

Lemma basic_same_upload (u : upload) (s s1 : state) (r : result unit) :
  Basic.main_sidebar_upload (Some u) s = (r, s1) →
  Basic.main_sidebar_upload (Some u) s1 = (Ok tt, s1).
Proof.
  unfold Basic.main_sidebar_upload at 1. change Basic.set_price with Pro.set_price.
  unfold mbind at 1, M_bind at 1, get_session.
  destruct (step (st_session s)) eqn:Hstep.
  - intros [= <- <-]. unfold Basic.main_sidebar_upload, mbind at 1, M_bind at 1,
      get_session. by rewrite Hstep.
  - case_bool_decide as Hname.
    + intros (Hs & Hl & Hu)%set_image_flag_session.
      cbn [step last_img uploaded_img with_upload] in *.
      unfold Basic.main_sidebar_upload, mbind at 1, M_bind at 1, get_session.
      rewrite Hs, Hl, Hstep. by rewrite bool_decide_false by auto.
    + intros [= <- <-].
      unfold Basic.main_sidebar_upload, mbind at 1, M_bind at 1, get_session.
      rewrite Hstep. by rewrite bool_decide_false by (intros H; by apply H).
  - intros [= <- <-]. unfold Basic.main_sidebar_upload, mbind at 1, M_bind at 1,
      get_session. by rewrite Hstep.
Qed.

(** X23.  The upload block tells a new file from the one it has already
    taken by the stored name, so running the script again with the same
    file in the uploader changes nothing: no second fee, no second
    notice.  This holds in both files and in every state, also when the
    first run failed in the pricing. *)
Theorem same_upload_is_taken_once (u : upload) (s : state) :
  let s1 := run_state (Pro.main_sidebar_upload (Some u) false) s in
  let b1 := run_state (Basic.main_sidebar_upload (Some u)) s in
  Pro.main_sidebar_upload (Some u) false s1 = (Ok tt, s1)
  ∧ Basic.main_sidebar_upload (Some u) b1 = (Ok tt, b1).
Proof.
  cbv zeta. unfold run_state. split.
  - destruct (Pro.main_sidebar_upload (Some u) false s) as [r s1] eqn:E.
    by apply (pro_same_upload u s s1 r).
  - destruct (Basic.main_sidebar_upload (Some u) s) as [r s1] eqn:E.
    by apply (basic_same_upload u s s1 r).
Qed.

(** * The deferred step *)

Lemma placeholder_or_append_answers (idx : option nat) (text : value) (s : state) :
  placeholder_or_append idx text s
  = (Ok tt,
     {| st_session := with_messages (answered idx text (messages (st_session s)))
                        (st_session s);
        st_heap := st_heap s; st_calls := st_calls s |}).
Proof.
  unfold placeholder_or_append, answered. unfold_m. cbv beta. proj_state.
  destruct idx as [i|]; [|done]. by case_bool_decide.
Qed.

Lemma answered_length (idx : option nat) (final : value) (msgs : list message) :
  (length msgs ≤ length (answered idx final msgs) ≤ S (length msgs))%nat.
Proof.
  unfold answered. destruct idx as [i|].
  - case_bool_decide.
    + rewrite length_alter. lia.
    + rewrite length_app. simpl. lia.
  - rewrite length_app. simpl. lia.
Qed.

(** X24.  The deferred step of app_pro.py never fails and never loses a
    turn, in whatever state it starts.  With the flag off it does
    nothing.  With the flag on it clears the flag and the pending
    fields, stays in its phase, and writes one text, the reply or the
    report of the exception, into the placeholder when the stored index
    is inside the chat, keeping the role of that turn, and at the end of
    the chat otherwise; every other turn is as before. *)
Theorem deferred_step_never_fails (lib : pylib) (P : provider) (cfg : config)
    (s : state) :
  ∃ (s' : state) (final : value),
    Pro.main_process_pending lib P cfg s = (Ok tt, s')
    ∧ (process_on_next (st_session s) = false → s' = s)
    ∧ (process_on_next (st_session s) = true →
       process_on_next (st_session s') = false
       ∧ pending_prompt (st_session s') = None
       ∧ pending_placeholder_idx (st_session s') = None
       ∧ step (st_session s') = step (st_session s)
       ∧ messages (st_session s')
         = answered (pending_placeholder_idx (st_session s)) final
             (messages (st_session s))
       ∧ (length (messages (st_session s)) ≤ length (messages (st_session s'))
          ≤ S (length (messages (st_session s))))%nat).
Proof.
  unfold Pro.main_process_pending.
  change (mbind ?f get_session s) with (f (st_session s) s). cbv beta.
  destruct (process_on_next (st_session s)) eqn:Hflag.
  - set (start := run_state (set_session (with_process_on_next false)) s).
    change (mbind ?f (set_session (with_process_on_next false)) s)
      with (f tt start).
    cbv beta.
    assert (messages (st_session start) = messages (st_session s)
            ∧ step (st_session start) = step (st_session s)
            ∧ process_on_next (st_session start) = false) as (Hm0 & Hs0 & Hp0)
      by done.
    set (prompt := default [] (pending_prompt (st_session s))).
    set (idx := pending_placeholder_idx (st_session s)).
    destruct (Pro.process_pending_reply lib P cfg prompt start) as [r sb] eqn:Hreply.
    destruct (pending_reply_frame _ _ _ _ _ _ _ Hreply) as (Hm & Hs & Hp).
    rewrite Hm0 in Hm. rewrite Hs0 in Hs. rewrite Hp0 in Hp.
    unfold mbind at 1, M_bind at 1, try_except.
    rewrite pending_body_unfold, Hreply.
    destruct r as [v|e]; rewrite placeholder_or_append_answers;
      unfold set_session; proj_state.
    + eexists _, v. split; [reflexivity|]. split; [done|]. intros _.
      cbn [st_session process_on_next pending_prompt pending_placeholder_idx
           step messages with_pending with_messages].
      rewrite Hm. repeat split; try done; apply answered_length.
    + eexists _, (VStr (Pro.step_error_prefix ++ exn_str e)).
      split; [reflexivity|]. split; [done|]. intros _.
      cbn [st_session process_on_next pending_prompt pending_placeholder_idx
           step messages with_pending with_messages].
      rewrite Hm. repeat split; try done; apply answered_length.
  - exists s, VNone. by repeat split.
Qed.

Lemma basic_turn_in_sync (lib : pylib) (P : provider) (cfg : config)
    (c : N) (prompt : pystr) (s s' : state) :
  step (st_session s) = CHAT → is_Some (session_order s) →
  Basic.main_chat_input lib P cfg (c :: prompt) s = (Ok tt, s') →
  price_in_sync s'.
Proof.
  intros Hstep Hvalid. unfold Basic.main_chat_input.
  change (mbind ?f get_session s) with (f (st_session s) s). cbv beta.
  rewrite Hstep. change Basic.set_price with Pro.set_price.
  unfold mbind at 1, M_bind at 1, append_message, set_session. cbv beta.
  match goal with
  | |- context [mbind ?f get_session ?st] =>
    change (mbind f get_session st) with (f (st_session st) st)
  end.
  cbv beta. proj_state.
  cbn [order with_messages]. unfold mbind at 1, M_bind at 1.
  match goal with
  | |- context [Basic.analyze_intent_with_gpt lib P cfg ?t ?l ?h ?st] =>
    destruct (basic_extractor_frame lib P cfg t l h st)
      as (r & s1 & Hext & [Hs1 Hobj] & Hl); rewrite Hext
  end.
  destruct r as [[l reply]|e]; [|done].
  unfold mbind at 1, M_bind at 1. cbv beta. unfold mbind at 1, M_bind at 1.
  match goal with
  | |- context [Pro.set_price ?l ?st] =>
    destruct (Pro.set_price l st) as [[[]|e] s2] eqn:Hprice
  end; [|done].
  intros [= <-].
  apply set_price_ok_in_sync in Hprice.
  - destruct Hprice as (Hs2 & d & p & Hd & Hk & Hp). proj_state.
    exists d, p. unfold session_order, deref in *.
    proj_state. cbn [order with_messages]. rewrite Hs2.
    cbn [order with_order]. done.
  - unfold deref. proj_state. destruct Hl as [-> | [_ Hnew]].
    + destruct Hvalid as [d Hd]. exists d. apply Hobj.
      unfold deref. proj_state. exact Hd.
    + exact Hnew.
Qed.

(** X25.  Whenever the work of a chat turn ends without an exception,
    the price stored in the session's order is the price of that order:
    in app_pro.py after the deferred step has computed its reply, with
    or without a generated design, and in app_basic.py after the chat
    block. *)
Theorem answered_turn_leaves_price_current (lib : pylib) (P : provider)
    (cfg : config) (prompt : pystr) (s : state) :
  is_Some (session_order s) →
  (is_ok (run_result (Pro.process_pending_reply lib P cfg prompt) s) = true →
   price_in_sync (run_state (Pro.process_pending_reply lib P cfg prompt) s))
  ∧ (step (st_session s) = CHAT → prompt ≠ [] →
     is_ok (run_result (Basic.main_chat_input lib P cfg prompt) s) = true →
     price_in_sync (run_state (Basic.main_chat_input lib P cfg prompt) s)).
Proof.
  intros Hvalid. unfold run_result, run_state. split.
  - destruct (Pro.process_pending_reply lib P cfg prompt s) as [[v|e] s'] eqn:E;
      [|done]. intros _. by eapply deferred_step_in_sync.
  - intros Hstep Hprompt. destruct prompt as [|c prompt]; [done|].
    destruct (Basic.main_chat_input lib P cfg (c :: prompt) s)
      as [[[]|e] s'] eqn:E; [|done].
    intros _. by eapply basic_turn_in_sync.
Qed.

Lemma answered_turn_leaves_price_current_witness :
  price_in_sync
    (run_state (Pro.process_pending_reply Sample.lib provider_C Sample.with_key
                  (py "change the design to C")) pro_chat_started)
  ∧ price_in_sync
      (run_state (Basic.main_chat_input Sample.lib provider_C Sample.with_key
                    (py "change the design to C")) basic_chat_started).
Proof.
  assert (is_Some (session_order pro_chat_started)) as Hpro
    by (exists started_order; vm_compute; reflexivity).
  assert (is_Some (session_order basic_chat_started)) as Hbasic
    by (exists started_order; vm_compute; reflexivity).
  split.
  - apply (proj1 (answered_turn_leaves_price_current Sample.lib provider_C
                    Sample.with_key (py "change the design to C")
                    pro_chat_started Hpro)).
    vm_compute; reflexivity.
  - apply (proj2 (answered_turn_leaves_price_current Sample.lib provider_C
                    Sample.with_key (py "change the design to C")
                    basic_chat_started Hbasic)).
    + vm_compute; reflexivity.
    + intros H; vm_compute in H; discriminate H.
    + vm_compute; reflexivity.
Defined.

(** * The automatic design *)

Lemma design_brief_nonempty (P : provider) (cfg : config)
    (user_prompt system_prompt : pystr) (image_b64 : option pystr)
    (filling : value) (s s' : state) (t : pystr) :
  Pro.request_design_brief P cfg user_prompt system_prompt image_b64 filling s
  = (Ok t, s') → t ≠ [].
Proof.
  assert (∀ lit : string, py lit ≠ [] → ∀ (s0 s1 : state),
            (Ok (py lit), s0) = (Ok t, s1) → t ≠ []) as Hlit
    by (intros lit Hne s0 s1 Heq; by injection Heq as <- _).
  unfold Pro.request_design_brief.
  destruct (negb (Pro.client cfg)).
  { apply Hlit. vm_compute. intros H; discriminate H. }
  destruct (Pro.HAS_RESPONSES_API cfg).
  2: { apply Hlit. vm_compute. intros H; discriminate H. }
  unfold_m. cbv beta.
  destruct (responses_create P _ _) as [response|e]; proj_state;
    [|intros H; discriminate H].
  destruct (Pro.extract_output_text response) as [[|c text]|e]; proj_state.
  - apply Hlit. vm_compute. intros H; discriminate H.
  - intros Heq. injection Heq as <- _. intros H; discriminate H.
  - intros H; discriminate H.
Qed.

Lemma auto_design_outcome (lib : pylib) (P : provider) (cfg : config)
    (prompt : pystr) (ai_res : value) (s s' : state) (r : result value) :
  is_Some (session_order s) →
  Pro.auto_design lib P cfg prompt ai_res s = (r, s') →
  (st_heap s' = st_heap s
   ∧ generated_design_image (st_session s') = generated_design_image (st_session s))
  ∨ (∃ (img : list Byte.byte) (brief : pystr),
       img ≠ [] ∧ brief ≠ []
       ∧ generated_design_image (st_session s') = Some img
       ∧ order_field s' k_design_desc = Some (VStr brief)).
Proof.
  intros [d Hd]. unfold Pro.auto_design.
  unfold mbind at 1, M_bind at 1, get_session. cbv beta.
  unfold mbind at 1, M_bind at 1, read. cbv beta.
  unfold mbind at 1, M_bind at 1.
  destruct (Pro.request_design_brief _ _ _ _ _ _ s) as [[brief|e] s1] eqn:Hb.
  2: { intros Hend. injection Hend as _ <-. left.
       by rewrite (design_brief_heap _ _ _ _ _ _ _ _ _ Hb),
         (design_brief_session _ _ _ _ _ _ _ _ _ Hb). }
  unfold mbind at 1, M_bind at 1.
  destruct (Pro.request_design_image _ _ _ _ _ _ s1) as [[img|e] s2] eqn:Hi.
  2: { intros Hend. injection Hend as _ <-. left.
       by rewrite (design_image_heap _ _ _ _ _ _ _ _ _ Hi),
         (design_image_session _ _ _ _ _ _ _ _ _ Hi),
         (design_brief_heap _ _ _ _ _ _ _ _ _ Hb),
         (design_brief_session _ _ _ _ _ _ _ _ _ Hb). }
  pose proof (design_brief_heap _ _ _ _ _ _ _ _ _ Hb) as Hh1.
  pose proof (design_brief_session _ _ _ _ _ _ _ _ _ Hb) as Hs1.
  pose proof (design_image_heap _ _ _ _ _ _ _ _ _ Hi) as Hh2.
  pose proof (design_image_session _ _ _ _ _ _ _ _ _ Hi) as Hs2.
  pose proof (design_brief_nonempty _ _ _ _ _ _ _ _ _ Hb) as Hne.
  assert (st_heap s2 = st_heap s) as Hh by (by rewrite Hh2, Hh1).
  assert (st_session s2 = st_session s) as Hs by (by rewrite Hs2, Hs1).
  clear Hb Hi Hh1 Hh2 Hs1 Hs2.
  unfold session_order, deref in Hd.
  destruct img as [[|b bs]|].
  - unfold_m. cbv beta. destruct (str_add _ ai_res);
      intros Hend; injection Hend as _ <-; left; proj_state; by rewrite Hh, Hs.
  - unfold mbind at 1, M_bind at 1, set_session. cbv beta.
    unfold mbind at 1, M_bind at 1.
    set (l := order (st_session s)) in *.
    set (x2 := with_generated_design_image (Some (b :: bs)) (st_session s2)).
    assert (setitem l k_design_desc (VStr brief)
              {| st_session := x2; st_heap := st_heap s2; st_calls := st_calls s2 |}
            = (Ok tt, {| st_session := x2;
                         st_heap := <[l := <[k_design_desc := VStr brief]> d]>
                                      (st_heap s2);
                         st_calls := st_calls s2 |})) as ->.
    { unfold_m. cbv beta. proj_state. by rewrite Hh, Hd. }
    set (d1 := <[k_design_desc := VStr brief]> d).
    set (s3 := {| st_session := x2; st_heap := <[l := d1]> (st_heap s2);
                  st_calls := st_calls s2 |}).
    assert (deref s3 l = Some d1) as Hd3.
    { unfold deref, s3. proj_state. rewrite Hh.
      apply list_lookup_insert_eq. by eapply lookup_lt_Some. }
    assert (order x2 = l ∧ generated_design_image x2 = Some (b :: bs)) as [Ho Hg].
    { unfold x2. cbn [order generated_design_image with_generated_design_image].
      by rewrite Hs. }
    unfold mbind at 1, M_bind at 1.
    destruct (Pro.calculate_price d1) as [p|e] eqn:Hp.
    + destruct (set_price_in_sync l s3 d1 p Hd3 Hp) as (s4 & Hrun & Hd4 & _).
      rewrite Hrun. unfold mret, M_ret. intros Hend. injection Hend as _ <-.
      assert (st_session s4 = x2) as Hs4 by (by apply set_price_session in Hrun).
      right. exists (b :: bs), brief. split; [done|]. split; [done|].
      rewrite Hs4. split; [exact Hg|].
      unfold order_field, session_order. rewrite Hs4, Ho, Hd4.
      cbn [mbind option_bind]. rewrite lookup_insert_ne by done.
      apply lookup_insert_eq.
    + rewrite (set_price_raises l s3 d1 e Hd3 Hp).
      intros Hend. injection Hend as _ <-.
      right. exists (b :: bs), brief. split; [done|]. split; [done|].
      split; [exact Hg|].
      unfold order_field, session_order. cbn [st_session s3]. rewrite Ho, Hd3.
      cbn [mbind option_bind]. apply lookup_insert_eq.
  - unfold_m. cbv beta. destruct (str_add _ ai_res);
      intros Hend; injection Hend as _ <-; left; proj_state; by rewrite Hh, Hs.
Qed.

(** X26.  The automatic design changes the order only together with an
    image: either the orders and the stored design image are as before
    (the brief or the image failed, or no image came back), or a
    non-empty image is stored and the [design_desc] of the session's
    order is the non-empty brief that was written for it. *)
Theorem design_changes_order_only_with_image (lib : pylib) (P : provider)
    (cfg : config) (prompt : pystr) (ai_res : value) (s : state) :
  is_Some (session_order s) →
  let s' := run_state (Pro.auto_design lib P cfg prompt ai_res) s in
  (st_heap s' = st_heap s
   ∧ generated_design_image (st_session s') = generated_design_image (st_session s))
  ∨ (∃ (img : list Byte.byte) (brief : pystr),
       img ≠ [] ∧ brief ≠ []
       ∧ generated_design_image (st_session s') = Some img
       ∧ order_field s' k_design_desc = Some (VStr brief)).
Proof.
  intros Hvalid. cbv zeta. unfold run_state.
  destruct (Pro.auto_design lib P cfg prompt ai_res s) as [r s'] eqn:E.
  cbn [snd]. by eapply auto_design_outcome.
Qed.

Lemma design_changes_order_only_with_image_witness :
  ((st_heap (run_state (Pro.auto_design Sample.lib provider_designs Sample.with_key
                          (py "a white cake") (VStr (py "ok"))) pro_chat_started)
    = st_heap pro_chat_started
    ∧ generated_design_image
        (st_session (run_state (Pro.auto_design Sample.lib provider_designs
                                  Sample.with_key (py "a white cake")
                                  (VStr (py "ok"))) pro_chat_started))
      = generated_design_image (st_session pro_chat_started))
   ∨ (∃ (img : list Byte.byte) (brief : pystr),
        img ≠ [] ∧ brief ≠ []
        ∧ generated_design_image
            (st_session (run_state (Pro.auto_design Sample.lib provider_designs
                                      Sample.with_key (py "a white cake")
                                      (VStr (py "ok"))) pro_chat_started))
          = Some img
        ∧ order_field
            (run_state (Pro.auto_design Sample.lib provider_designs
                          Sample.with_key (py "a white cake") (VStr (py "ok")))
               pro_chat_started) k_design_desc
          = Some (VStr brief)))
  ∧ order_field
      (run_state (Pro.auto_design Sample.lib provider_designs Sample.with_key
                    (py "a white cake") (VStr (py "ok"))) pro_chat_started)
      k_design_desc
    = Some (VStr (py "- white cream, one tier")).
Proof.
  assert (is_Some (session_order pro_chat_started)) as Hvalid
    by (exists started_order; vm_compute; reflexivity).
  split.
  - exact (design_changes_order_only_with_image Sample.lib provider_designs
             Sample.with_key (py "a white cake") (VStr (py "ok"))
             pro_chat_started Hvalid).
  - vm_compute; reflexivity.
Defined.

(** * What the deferred step sends *)

Lemma pro_extractor_calls (lib : pylib) (P : provider) (cfg : config)
    (user_text : pystr) (current_order : nat) (chat_history : list message)
    (s s' : state) (r : result (nat * value)) :
  Pro.client cfg = true → sdk_responses cfg = true →
  Pro.analyze_intent_with_gpt lib P cfg user_text current_order chat_history s
  = (r, s') →
  st_calls s'
  = st_calls s
    ++ [CallResponses (Pro.intent_request (default ∅ (deref s current_order))
                         (recent chat_history) user_text)].
Proof.
  intros Hc Hsdk.
  unfold Pro.analyze_intent_with_gpt, Pro.merge_result, Pro.HAS_RESPONSES_API,
    deref.
  rewrite Hc, Hsdk. cbn [negb andb]. unfold_m; cbv beta.
  repeat (case_match; cbv beta in * ); intros Hend;
    try (injection Hend as <- <-); simplify_eq; proj_state; done.
Qed.

Lemma set_price_calls (l : nat) (s s' : state) (r : result unit) :
  Pro.set_price l s = (r, s') → st_calls s' = st_calls s.
Proof.
  unfold Pro.set_price. unfold_m. cbv beta.
  destruct (Pro.calculate_price _); intros [= <- <-]; by proj_state.
Qed.

Lemma pending_reply_calls (lib : pylib) (P : provider) (cfg : config)
    (prompt : pystr) (s s' : state) (r : result value) :
  Pro.client cfg = true → sdk_responses cfg = true →
  auto_generate_design (st_session s) = false →
  Pro.process_pending_reply lib P cfg prompt s = (r, s') →
  st_calls s'
  = st_calls s
    ++ [CallResponses
          (Pro.intent_request (default ∅ (session_order s))
             (recent (Pro.clean_history (messages (st_session s)))) prompt)].
Proof.
  intros Hc Hsdk Hauto. unfold Pro.process_pending_reply.
  unfold mbind at 1, M_bind at 1, get_session. cbv beta.
  unfold mbind at 1, M_bind at 1.
  destruct (Pro.analyze_intent_with_gpt lib P cfg prompt (order (st_session s))
              (Pro.clean_history (messages (st_session s))) s)
    as [[[l reply]|e] s1] eqn:Hext.
  2: { by destruct (pro_extractor_session _ _ _ _ _ _ _ _ _ Hext) as [_ ?]. }
  pose proof (pro_extractor_calls _ _ _ _ _ _ _ _ _ Hc Hsdk Hext) as Hcalls.
  destruct (pro_extractor_session _ _ _ _ _ _ _ _ _ Hext) as [Hs1 _].
  unfold mbind at 1, M_bind at 1, set_session. cbv beta.
  unfold mbind at 1, M_bind at 1.
  match goal with
  | |- context [Pro.set_price ?l ?st] =>
    destruct (Pro.set_price l st) as [[[]|e] s2] eqn:Hprice
  end.
  - pose proof (set_price_calls _ _ _ _ Hprice) as Hc2.
    apply set_price_session in Hprice. proj_state.
    unfold mbind at 1, M_bind at 1, get_session. cbv beta.
    rewrite Hprice, Hs1. cbn [auto_generate_design with_order]. rewrite Hauto.
    intros [= _ <-]. by rewrite Hc2.
  - pose proof (set_price_calls _ _ _ _ Hprice) as Hc2. proj_state.
    intros [= _ <-]. by rewrite Hc2.
Qed.

Lemma recent_keeps_last_two (h : list message) (u n : message) :
  ∃ older, recent (h ++ [u; n]) = older ++ [u; n] ∧ (length older ≤ 3)%nat.
Proof.
  unfold recent. rewrite length_app. cbn [length].
  destruct (Nat.ltb_spec 5 (length h + 2)) as [H|H].
  - exists (drop (length h - 3) h). split.
    + replace (length h + 2 - 5)%nat with (length h - 3)%nat by lia.
      rewrite drop_app_le by lia. done.
    + rewrite length_drop. lia.
  - exists h. split; [done|lia].
Qed.

(** X27.  With automatic design off, the deferred step of app_pro.py
    sends exactly one request for a chat turn, and the history in it
    ends with the user's message, which is also sent as the request
    itself, and with the waiting notice that the chat block put into the
    chat as placeholder; at most three earlier turns come before
    them. *)
Theorem pending_request_ends_with_notice (lib : pylib) (P : provider)
    (cfg : config) (prompt : pystr) (s : state) :
  step (st_session s) = CHAT → prompt ≠ [] →
  Pro.client cfg = true → sdk_responses cfg = true →
  auto_generate_design (st_session s) = false →
  let s1 := run_state (Pro.main_chat_input prompt) s in
  let s2 := run_state (Pro.main_process_pending lib P cfg) s1 in
  ∃ (older : list message),
    st_calls s2
    = st_calls s
      ++ [CallResponses
            (Pro.intent_request (default ∅ (session_order s))
               (older ++ [Message user (VStr prompt);
                          Message assistant (VStr Pro.typing_notice)])
               prompt)]
    ∧ (length older ≤ 3)%nat.
Proof.
  intros Hstep Hprompt Hc Hsdk Hauto. cbv zeta.
  destruct prompt as [|c prompt]; [done|]. clear Hprompt.
  set (p := c :: prompt) in *.
  set (history := messages (st_session s)).
  set (turns := [Message user (VStr p); Message assistant (VStr Pro.typing_notice)]).
  set (s1 := {| st_session :=
                  with_process_on_next true
                    (with_pending (Some p) (Some (S (length history)))
                       (with_messages (history ++ turns) (st_session s)));
                st_heap := st_heap s; st_calls := st_calls s |}).
  assert (Pro.main_chat_input p s = (Ok tt, s1)) as Hsubmit.
  { unfold Pro.main_chat_input. unfold_m. cbv beta. proj_state. rewrite Hstep.
    unfold p at 1. proj_state. unfold s1, turns, history.
    cbn [messages with_messages with_pending with_process_on_next step order
         uploaded_img last_img generated_design_image auto_generate_design
         process_on_next pending_prompt pending_placeholder_idx].
    rewrite length_app. cbn [length]. rewrite Nat.add_1_r, <- app_assoc.
    reflexivity. }
  assert (run_state (Pro.main_chat_input p) s = s1) as ->
    by (unfold run_state; by rewrite Hsubmit).
  set (start := run_state (set_session (with_process_on_next false)) s1).
  destruct (Pro.process_pending_reply lib P cfg p start) as [r sb] eqn:Hreply.
  assert (auto_generate_design (st_session start) = false) as Hauto0
    by exact Hauto.
  pose proof (pending_reply_calls _ _ _ _ _ _ _ Hc Hsdk Hauto0 Hreply) as Hcalls.
  assert (∃ s2, Pro.main_process_pending lib P cfg s1 = (Ok tt, s2)
                ∧ st_calls s2 = st_calls sb) as (s2 & Hrun & Hc2).
  { unfold Pro.main_process_pending.
    change (mbind ?f get_session s1) with (f (st_session s1) s1).
    cbn [st_session s1 process_on_next with_process_on_next with_pending
         pending_prompt pending_placeholder_idx]. cbv beta.
    change (mbind ?f (set_session (with_process_on_next false)) s1)
      with (f tt start).
    cbv beta. cbn [default from_option id].
    unfold mbind at 1, M_bind at 1, try_except.
    rewrite pending_body_unfold, Hreply.
    destruct r as [v|e]; rewrite placeholder_or_append_answers;
      unfold set_session; proj_state; by eexists. }
  assert (run_state (Pro.main_process_pending lib P cfg) s1 = s2) as ->
    by (unfold run_state; by rewrite Hrun).
  rewrite Hc2, Hcalls.
  assert (truthy (VStr Pro.typing_notice) = true) as Hnotice
    by (vm_compute; reflexivity).
  assert (Pro.clean_history (messages (st_session start))
          = Pro.clean_history history ++ turns) as ->.
  { change (messages (st_session start)) with (history ++ turns).
    unfold Pro.clean_history. rewrite filter_app, map_app.
    apply (f_equal (app _)).
    unfold turns. rewrite filter_cons, decide_True by done.
    rewrite filter_cons, decide_True by exact Hnotice. done. }
  destruct (recent_keeps_last_two (Pro.clean_history history)
              (Message user (VStr p)) (Message assistant (VStr Pro.typing_notice)))
    as (older & Hrec & Hlen).
  exists older. fold turns in Hrec. rewrite Hrec. split; [|exact Hlen].
  reflexivity.
Qed.

Lemma pending_request_ends_with_notice_witness :
  ∃ (older : list message),
    st_calls (run_state (Pro.main_process_pending Sample.lib provider_C
                           Sample.with_key)
                (run_state (Pro.main_chat_input (py "change the design to C"))
                   pro_chat_started))
    = st_calls pro_chat_started
      ++ [CallResponses
            (Pro.intent_request (default ∅ (session_order pro_chat_started))
               (older ++ [Message user (VStr (py "change the design to C"));
                          Message assistant (VStr Pro.typing_notice)])
               (py "change the design to C"))]
    ∧ (length older ≤ 3)%nat.
Proof.
  apply (pending_request_ends_with_notice Sample.lib provider_C Sample.with_key
           (py "change the design to C") pro_chat_started).
  - vm_compute; reflexivity.
  - intros H; vm_compute in H; discriminate H.
  - vm_compute; reflexivity.
  - reflexivity.
  - vm_compute; reflexivity.
Defined.
